(** * CardLuxeBot: sale flow, approval and reconciliation handlers of [bot.js]

    A shallow embedding of the Telegraf handlers of [src/bot.js] over an
    explicit store (the two SQLite tables and the in-memory session map),
    followed by the properties of the conversation state machine and of the
    transaction lifecycle.

    Modelling conventions.
    - A JavaScript string is a [string] whose characters are its code
      units, all below 256 (a character is a code unit, not a byte of an
      encoding); white space, case mapping and searching are the
      JavaScript ones on these code units.
    - The columns [account_details] and [proof_files] hold the value that
      [JSON.stringify] wrote and that [JSON.parse] reads back.
    - The calls to the gateway ([ctx.reply], [sendMessage], ...) that went
      through are collected, in order, in a list of [Output].  The sends of
      the broadcast loop, whose failure the source catches and leaves out of
      its count, fail for the chats in the field [refused] of the update;
      every other call is taken to go through.
    - [nowISO()] is the field [now] of the update being handled.
    - Updates come from private chats: the session key is the sender id and
      a command is never addressed as [/name@bot].
    - A handler either ends the middleware chain ([Stop]) or calls [next()]
      ([Next]); the chain is the order in which [bot.js] registers the
      handlers.
    - The texts sent are the literals of the source. *)

From Stdlib Require Import ZArith String Ascii List Bool Lia.
From Stdlib Require Import Numbers.DecimalString.
From Stdlib Require Numbers.DecimalPos.
From stdpp Require Import base option list gmap strings.

Local Open Scope string_scope.
Local Open Scope Z_scope.

(** ** JavaScript strings *)

Module Js.

(** White space removed by [String.prototype.trim]: TAB, LF, VT, FF, CR,
    SPACE and NBSP. *)
Definition is_space (c : ascii) : bool :=
  let n := nat_of_ascii c in
  ((9 <=? n)%nat && (n <=? 13)%nat) || (n =? 32)%nat || (n =? 160)%nat.

Fixpoint trimStart (s : string) : string :=
  match s with
  | EmptyString => EmptyString
  | String c r => if is_space c then trimStart r else s
  end.

Fixpoint trimEnd (s : string) : string :=
  match s with
  | EmptyString => EmptyString
  | String c r =>
      match trimEnd r with
      | EmptyString => if is_space c then EmptyString else String c EmptyString
      | r' => String c r'
      end
  end.

Definition trim (s : string) : string := trimEnd (trimStart s).

Definition upper_char (c : ascii) : ascii :=
  let n := nat_of_ascii c in
  if ((97 <=? n)%nat && (n <=? 122)%nat) then ascii_of_nat (n - 32) else c.

Definition lower_char (c : ascii) : ascii :=
  let n := nat_of_ascii c in
  if ((65 <=? n)%nat && (n <=? 90)%nat) then ascii_of_nat (n + 32) else c.

Fixpoint map_chars (f : ascii -> ascii) (s : string) : string :=
  match s with
  | EmptyString => EmptyString
  | String c r => String (f c) (map_chars f r)
  end.

(** Case mapping of the letters a-z and A-Z.  The source upper-cases a text
    only to compare it with [CONFIRM], and lower-cases only a text that
    matched the menu pattern; on code units below 256 no other character
    maps to one of these letters, so both tests are exact.  Characters that
    do, like the dotless i (U+0131) and the ligature fi (U+FB01), lie
    outside the alphabet of the model. *)
Definition toUpperCase : string -> string := map_chars upper_char.
Definition toLowerCase : string -> string := map_chars lower_char.

Fixpoint startsWith (needle s : string) : bool :=
  match needle, s with
  | EmptyString, _ => true
  | String _ _, EmptyString => false
  | String a n', String b s' => Ascii.eqb b a && startsWith n' s'
  end.

(** [s.indexOf(needle)], [-1] when absent. *)
Fixpoint indexOf (needle s : string) : Z :=
  if startsWith needle s then 0
  else match s with
       | EmptyString => -1
       | String _ r => let i := indexOf needle r in if i <? 0 then -1 else i + 1
       end.

(** [s.includes(needle)] *)
Definition includes (needle s : string) : bool := 0 <=? indexOf needle s.

Fixpoint drop (n : nat) (s : string) : string :=
  match n, s with
  | O, _ => s
  | S _, EmptyString => EmptyString
  | S m, String _ r => drop m r
  end.

Fixpoint take (n : nat) (s : string) : string :=
  match n, s with
  | O, _ => EmptyString
  | S _, EmptyString => EmptyString
  | S m, String c r => String c (take m r)
  end.

(** [s.slice(b, e)] and [s.slice(b)] for indices that are not negative (the
    only ones the handlers pass). *)
Definition slice (s : string) (b e : Z) : string :=
  take (Z.to_nat e - Z.to_nat b) (drop (Z.to_nat b) s).
Definition slice_from (s : string) (b : Z) : string := drop (Z.to_nat b) s.

(** [s.split('\n')] *)
Fixpoint split_lines (s : string) : list string :=
  match s with
  | EmptyString => [EmptyString]
  | String c r =>
      if Ascii.eqb c "010"%char then EmptyString :: split_lines r
      else match split_lines r with
           | l :: ls => String c l :: ls
           | [] => [String c EmptyString]
           end
  end.

(** [lines.join('\n')] *)
Fixpoint join_lines (ls : list string) : string :=
  match ls with
  | [] => EmptyString
  | [l] => l
  | l :: rest => l +:+ String "010"%char (join_lines rest)
  end.

(** [parts.join('')], used for template literals. *)
Definition cat (parts : list string) : string :=
  fold_right String.append EmptyString parts.

Definition nl : string := String "010"%char EmptyString.
Definition dq : string := String "034"%char EmptyString.

(** A non-empty string is truthy. *)
Definition truthy (s : string) : bool :=
  match s with EmptyString => false | _ => true end.

(** [`${n}`] for an integer. *)
Definition of_Z (n : Z) : string := NilZero.string_of_int (Z.to_int n).

Definition is_digit (c : ascii) : bool :=
  let n := nat_of_ascii c in ((48 <=? n)%nat && (n <=? 57)%nat).

Fixpoint all_digits (s : string) : bool :=
  match s with
  | EmptyString => true
  | String c r => is_digit c && all_digits r
  end.

(** [parseInt(s, 10)] on a string of decimal digits. *)
Fixpoint parse_digits (acc : Z) (s : string) : Z :=
  match s with
  | EmptyString => acc
  | String c r => parse_digits (10 * acc + (Z.of_nat (nat_of_ascii c) - 48)) r
  end.
Definition parseInt (s : string) : Z := parse_digits 0 s.

End Js.

(** ** Plain objects with string values

    The object [obj] built by the details parser, in the order
    [Object.entries] enumerates it: array-index keys first, ascending, then
    the other keys in insertion order. *)

Definition Obj := list (string * string).

Module Object.

(** A canonical array index: decimal digits without a leading zero, below
    [2^32 - 1]. *)
Definition is_index (k : string) : bool :=
  match k with
  | EmptyString => false
  | String c r =>
      Js.all_digits k
      && (negb (Ascii.eqb c "0"%char) || String.eqb r EmptyString)
      && (Js.parseInt k <? 4294967295)
  end.

Definition has (k : string) (o : Obj) : bool :=
  existsb (fun e => String.eqb (fst e) k) o.

Definition update (k v : string) (o : Obj) : Obj :=
  map (fun e => if String.eqb (fst e) k then (k, v) else e) o.

(** Position of a new own property. *)
Fixpoint add (k v : string) (o : Obj) : Obj :=
  match o with
  | [] => [(k, v)]
  | (k', v') :: r =>
      if is_index k && (negb (is_index k') || (Js.parseInt k <? Js.parseInt k'))
      then (k, v) :: o
      else (k', v') :: add k v r
  end.

(** [obj[k] = v] on an object created by [{}].  The key [__proto__] reaches the
    setter inherited from [Object.prototype], which ignores a string value,
    so no own property appears. *)
Definition set (k v : string) (o : Obj) : Obj :=
  if String.eqb k "__proto__" then o
  else if has k o then update k v o
  else add k v o.

Definition keys (o : Obj) : list string := map fst o.
Definition entries (o : Obj) : list (string * string) := o.

(** [obj[k]] *)
Fixpoint get (k : string) (o : Obj) : option string :=
  match o with
  | [] => None
  | (k', v) :: r => if String.eqb k' k then Some v else get k r
  end.

(** [Object.entries(o).map(([k,v]) => `${k}: ${v}`).join('\n')] *)
Definition render (o : Obj) : string :=
  Js.join_lines (map (fun e => fst e +:+ ": " +:+ snd e) (entries o)).

End Object.

(** ** Data model *)

Inductive SaleType := crypto | giftcard.
Inductive Status := pending | approved | rejected | completed.

(** The values [flow.step] is assigned or compared with. *)
Inductive Step := choose_type | currency | await_proof | await_admin_note.

Definition SaleType_name (t : SaleType) : string :=
  match t with crypto => "crypto" | giftcard => "giftcard" end.

Definition Status_eqb (a b : Status) : bool :=
  match a, b with
  | pending, pending | approved, approved
  | rejected, rejected | completed, completed => true
  | _, _ => false
  end.

(** An element of [flow.proof] / [proof_files]. *)
Record ProofFile := { file_id : string; file_type : string; date : string }.

Module Flow.
(** [ctx.session.flow]; a field that was not assigned yet is [None]. *)
Record t := {
  step : Step;
  type : SaleType;
  amount : option string;
  currency_or_card : option string;
  proof : option (list ProofFile)
}.
End Flow.

(** [ctx.session]; [flow] is [None] when it is [undefined] or [null]. *)
Record Session := { flow : option Flow.t }.

Module User.
(** A row of table [users]. *)
Record t := {
  id : Z;
  username : option string;
  full_name : string;
  account_details : option Obj;
  created_at : string
}.
End User.

Module Tx.
(** A row of table [transactions]. *)
Record t := {
  id : Z;
  user_id : Z;
  type : SaleType;
  amount : string;
  currency_or_card : string;
  status : Status;
  proof_files : list ProofFile;
  created_at : string;
  admin_note : option string
}.
End Tx.

(** The store: both tables and Telegraf's in-memory session map. *)
Record State := {
  users : gmap Z User.t;
  transactions : list Tx.t;
  sessions : gmap Z Session
}.

Definition init : State :=
  {| users := ∅; transactions := []; sessions := ∅ |}.

(** ** Updates received from the gateway *)

Record From := {
  from_id : Z;
  from_username : option string;
  first_name : string;
  last_name : option string
}.

Inductive EntityType := bot_command | other_entity.

(** [message.entities[i]] *)
Record Entity := { etype : EntityType; offset : nat; elength : nat }.

Record PhotoSize := { photo_file_id : string }.

(** What an update carries: a text message with its entities, a photo
    message (the array [message.photo], which is never empty, without
    caption), a pressed inline button, or anything else (a document, a
    video, a sticker, ...). *)
Inductive Body :=
| Text (text : string) (entities : list Entity)
| Photo (photo : PhotoSize) (larger : list PhotoSize)
| Callback (data : string)
| Other.

(** An update as the handlers see it: the sender, the reading of the clock
    ([nowISO()]), the payload, and the chats to which a message of the
    broadcast loop cannot be delivered while this update is handled (a user
    who blocked the bot): for those [ctx.telegram.sendMessage] throws inside
    the [try] of the loop. *)
Record Update := { from : From; now : string; body : Body; refused : list Z }.

(** ** Calls made to the gateway *)

Inductive Markup :=
| no_markup
| keyboard (rows : list (list string))
| inlineKeyboard (buttons : list (string * string)).

Inductive Output :=
| reply (text : string) (extra : Markup)
| sendMessage (chat_id : Z) (text : string) (extra : Markup)
| sendPhoto (chat_id : Z) (photo : string) (caption : string) (extra : Markup)
| sendMediaGroup (chat_id : Z) (media : list string)
| editMessageText (text : string)
| answerCbQuery (text : string) (show_alert : bool).

(** What a middleware does with an update: it ends the chain, or calls
    [next()]. *)
Inductive Outcome :=
| Stop (s : State) (out : list Output)
| Next (s : State).

(** ** Prepared statements *)

Definition set_users (f : gmap Z User.t -> gmap Z User.t) (s : State) : State :=
  {| users := f (users s); transactions := transactions s; sessions := sessions s |}.
Definition set_transactions (f : list Tx.t -> list Tx.t) (s : State) : State :=
  {| users := users s; transactions := f (transactions s); sessions := sessions s |}.
Definition set_sessions (f : gmap Z Session -> gmap Z Session) (s : State) : State :=
  {| users := users s; transactions := transactions s; sessions := f (sessions s) |}.

(** [INSERT OR IGNORE INTO users (id, username, full_name, created_at)] *)
Definition insertUserStmt_run (id : Z) (username : option string)
    (full_name created_at : string) (s : State) : State :=
  match users s !! id with
  | Some _ => s
  | None =>
      set_users (insert id
        {| User.id := id; User.username := username; User.full_name := full_name;
           User.account_details := None; User.created_at := created_at |}) s
  end.

Definition with_account_details (d : Obj) (u : User.t) : User.t :=
  {| User.id := User.id u; User.username := User.username u;
     User.full_name := User.full_name u;
     User.account_details := Some d; User.created_at := User.created_at u |}.

(** [UPDATE users SET account_details = @account_details WHERE id = @id] *)
Definition upsertAccountStmt_run (id : Z) (account_details : Obj) (s : State) : State :=
  set_users (alter (with_account_details account_details) id) s.

(** [SELECT * FROM users WHERE id = ?] *)
Definition getUserStmt_get (id : Z) (s : State) : option User.t := users s !! id.

(** The row id [AUTOINCREMENT] assigns; rows are never deleted. *)
Definition next_rowid (txs : list Tx.t) : Z :=
  1 + fold_right Z.max 0 (map Tx.id txs).

(** [INSERT INTO transactions (...)]; the result is [lastInsertRowid]. *)
Definition createTxStmt_run (user_id : Z) (type : SaleType)
    (amount currency_or_card : string) (status : Status)
    (proof_files : list ProofFile) (created_at : string) (s : State) : State * Z :=
  let id := next_rowid (transactions s) in
  (set_transactions (fun txs => app txs
     [{| Tx.id := id; Tx.user_id := user_id; Tx.type := type; Tx.amount := amount;
         Tx.currency_or_card := currency_or_card; Tx.status := status;
         Tx.proof_files := proof_files; Tx.created_at := created_at;
         Tx.admin_note := None |}]) s, id).

(** [SELECT * FROM transactions WHERE id = ?] *)
Definition getTxByIdStmt_get (id : Z) (s : State) : option Tx.t :=
  find (fun r => Tx.id r =? id) (transactions s).

Definition with_status (st : Status) (note : string) (r : Tx.t) : Tx.t :=
  {| Tx.id := Tx.id r; Tx.user_id := Tx.user_id r; Tx.type := Tx.type r;
     Tx.amount := Tx.amount r; Tx.currency_or_card := Tx.currency_or_card r;
     Tx.status := st; Tx.proof_files := Tx.proof_files r;
     Tx.created_at := Tx.created_at r; Tx.admin_note := Some note |}.

(** [UPDATE transactions SET status = @status, admin_note = @admin_note
    WHERE id = @id] *)
Definition updateTxStatusStmt_run (id : Z) (status : Status) (admin_note : string)
    (s : State) : State :=
  set_transactions
    (map (fun r => if Tx.id r =? id then with_status status admin_note r else r)) s.

(** [SELECT id FROM users] *)
Definition listUsersStmt_all (s : State) : list Z := map fst (map_to_list (users s)).

(** [SELECT * FROM transactions WHERE user_id = ? AND status = 'approved'
    ORDER BY id DESC LIMIT 1] *)
Definition latestApproved_get (user_id : Z) (s : State) : option Tx.t :=
  fold_left
    (fun best r =>
       if (Tx.user_id r =? user_id) && Status_eqb (Tx.status r) approved then
         match best with
         | Some b => if Tx.id b <? Tx.id r then Some r else best
         | None => Some r
         end
       else best)
    (transactions s) None.

(** ** Handlers *)

Section Bot.

(** [parseInt(process.env.ADMIN_CHAT_ID, 10)] *)
Variable ADMIN_CHAT_ID : Z.

(** [x || d] on an optional string. *)
Definition or_else (x : option string) (d : string) : string :=
  match x with
  | Some v => if Js.truthy v then v else d
  | None => d
  end.

(** [x || null] *)
Definition or_null (x : option string) : option string :=
  match x with
  | Some v => if Js.truthy v then Some v else None
  | None => None
  end.

(** The entity test of [bot.command(name)]: a [bot_command] entity at offset
    0 whose text is [/name]. *)
Definition is_command (name text : string) (entities : list Entity) : bool :=
  existsb
    (fun e =>
       match etype e with
       | bot_command =>
           Nat.eqb (offset e) 0
           && String.eqb (Js.take (elength e) text) (String "/"%char name)
       | other_entity => false
       end)
    entities.

(** A regular expression [/^literal$/i]. *)
Definition hears (literal text : string) : bool :=
  String.eqb (Js.toLowerCase text) (Js.toLowerCase literal).

Definition session_of (uid : Z) (s : State) : option Session := sessions s !! uid.

Definition flow_of (uid : Z) (s : State) : option Flow.t :=
  match session_of uid s with
  | Some ss => flow ss
  | None => None
  end.

(** [ctx.session = ctx.session || {}] *)
Definition ensure_session (uid : Z) (s : State) : State :=
  match session_of uid s with
  | Some _ => s
  | None => set_sessions (insert uid {| flow := None |}) s
  end.

(** [ctx.session.flow = f] *)
Definition set_flow (uid : Z) (f : option Flow.t) (s : State) : State :=
  set_sessions (insert uid {| flow := f |}) s.

(** [let saved = null; if (user && user.account_details) saved =
    JSON.parse(user.account_details)] for the user [uid]. *)
Definition saved_details (uid : Z) (s : State) : option Obj :=
  match getUserStmt_get uid s with
  | Some user => User.account_details user
  | None => None
  end.

(** [saved && Object.keys(saved).length > 0], the test of the approval
    handler. *)
Definition saved_and_not_empty (saved : option Obj) : bool :=
  match saved with
  | Some details => (0 <? Z.of_nat (List.length (Object.keys details)))
  | None => false
  end.

(** [saved] as a condition, the test of the second text handler. *)
Definition saved_truthy (saved : option Obj) : bool :=
  match saved with Some _ => true | None => false end.

(** Middleware: store basic user info on every update. *)
Definition store_user (u : Update) (s : State) : State :=
  let f := from u in
  insertUserStmt_run (from_id f) (or_null (from_username f))
    (Js.trim (Js.cat [first_name f; " "; or_else (last_name f) EmptyString]))
    (now u) s.

(** [bot.start] *)
Definition on_start (u : Update) (text : string) (entities : list Entity)
    (s : State) : Outcome :=
  if is_command "start" text entities then
    Stop s
      [reply
         (Js.cat ["Welcome "; first_name (from u); "!"; Js.nl;
                  "I can help you sell crypto or gift cards."; Js.nl;
                  "Choose an option below."])
         (keyboard [["Sell Crypto"; "Sell Giftcard"]; ["My Account"]])]
  else Next s.

(** [bot.hears(/^My Account$/i)] *)
Definition hears_my_account (u : Update) (text : string) (s : State) : Outcome :=
  if hears "My Account" text then
    match getUserStmt_get (from_id (from u)) s with
    | Some {| User.account_details := Some account |} =>
        Stop s [reply (Js.cat ["Saved account details:"; Js.nl; Object.render account])
                  no_markup]
    | _ =>
        Stop s [reply "No account details saved. You will be prompted after your first approved transaction."
                  no_markup]
    end
  else Next s.

(** [bot.hears(/^(Sell Crypto|Sell Giftcard)$/i)]: start of the sale flow. *)
Definition hears_sell (u : Update) (text : string) (s : State) : Outcome :=
  if hears "Sell Crypto" text || hears "Sell Giftcard" text then
    let uid := from_id (from u) in
    let s := ensure_session uid s in
    let type := if Js.includes "crypto" (Js.toLowerCase text) then crypto else giftcard in
    let flow :=
      {| Flow.step := choose_type; Flow.type := type; Flow.amount := None;
         Flow.currency_or_card := None; Flow.proof := None |} in
    Stop (set_flow uid (Some flow) s)
      [reply
         (Js.cat ["You chose to sell: "; SaleType_name type; Js.nl;
                  "Please enter the amount (e.g., $10 or $50):"])
         no_markup]
  else Next s.

(** First [bot.on('text')]: amount, then currency or card. *)
Definition on_text_flow (u : Update) (text : string) (s : State) : Outcome :=
  let uid := from_id (from u) in
  let s := ensure_session uid s in
  match flow_of uid s with
  | None => Next s
  | Some flow =>
      let text := Js.trim text in
      match Flow.step flow with
      | choose_type =>
          let flow' :=
            {| Flow.step := currency; Flow.type := Flow.type flow;
               Flow.amount := Some text;
               Flow.currency_or_card := Flow.currency_or_card flow;
               Flow.proof := Flow.proof flow |} in
          Stop (set_flow uid (Some flow') s)
            [reply
               match Flow.type flow with
               | crypto => "Which cryptocurrency? (e.g., BTC, USDT)"
               | giftcard => "Which gift card? (e.g., iTunes $50, Google Play $25)"
               end
               no_markup]
      | currency =>
          let flow' :=
            {| Flow.step := await_proof; Flow.type := Flow.type flow;
               Flow.amount := Flow.amount flow;
               Flow.currency_or_card := Some text;
               Flow.proof := Flow.proof flow |} in
          Stop (set_flow uid (Some flow') s)
            [reply "Please upload proof image(s). For crypto: upload your payment proof. For giftcards: upload image of card AND receipt (if any). You can send multiple images one after another. When done, send /done."
               no_markup]
      | await_admin_note =>
          if uid =? ADMIN_CHAT_ID then Stop s [reply "Admin note received." no_markup]
          else Next s
      | await_proof => Next s
      end
  end.

(** [bot.on('photo')] *)
Definition on_photo (u : Update) (photo : PhotoSize) (larger : list PhotoSize)
    (s : State) : Outcome :=
  let uid := from_id (from u) in
  let s := ensure_session uid s in
  let not_in_flow :=
    Stop s [reply (Js.cat ["I received a photo but you are not in a selling flow. Use ";
                           Js.dq; "Sell Crypto"; Js.dq; " or "; Js.dq; "Sell Giftcard";
                           Js.dq; " to start."]) no_markup] in
  match flow_of uid s with
  | Some flow =>
      match Flow.step flow with
      | await_proof =>
          let file := List.last larger photo in
          let proof := default [] (Flow.proof flow) in
          let flow' :=
            {| Flow.step := Flow.step flow; Flow.type := Flow.type flow;
               Flow.amount := Flow.amount flow;
               Flow.currency_or_card := Flow.currency_or_card flow;
               Flow.proof :=
                 Some (app proof
                   [{| file_id := photo_file_id file; file_type := "photo";
                       date := now u |}]) |} in
          Stop (set_flow uid (Some flow') s)
            [reply "Image received. Send more images or /done when finished." no_markup]
      | _ => not_in_flow
      end
  | None => not_in_flow
  end.

(** [bot.command('done')]: create the transaction and notify the admin. *)
Definition command_done (u : Update) (text : string) (entities : list Entity)
    (s : State) : Outcome :=
  if is_command "done" text entities then
    let f := from u in
    let uid := from_id f in
    let s := ensure_session uid s in
    let not_in_sale :=
      Stop s [reply (Js.cat ["You are not in the middle of a sale. Start with ";
                             Js.dq; "Sell Crypto"; Js.dq; " or "; Js.dq;
                             "Sell Giftcard"; Js.dq; "."]) no_markup] in
    match flow_of uid s with
    | Some flow =>
        match Flow.step flow with
        | await_proof =>
            match default [] (Flow.proof flow) with
            | [] =>
                Stop s [reply "Please upload at least one proof image before sending /done."
                          no_markup]
            | files =>
                match Flow.amount flow, Flow.currency_or_card flow with
                | Some amount, Some currency_or_card =>
                    let (s, txId) :=
                      createTxStmt_run uid (Flow.type flow) amount currency_or_card
                        pending files (now u) s in
                    let userLabel :=
                      Js.cat [first_name f;
                              match last_name f with
                              | Some l => if Js.truthy l then String " "%char l else EmptyString
                              | None => EmptyString
                              end;
                              " (@"; or_else (from_username f) "no_username"; ")"] in
                    let caption :=
                      Js.cat ["New "; Js.toUpperCase (SaleType_name (Flow.type flow));
                              " sale (ID: "; Js.of_Z txId; ")"; Js.nl;
                              "From: "; userLabel; Js.nl;
                              "Amount: "; amount; Js.nl;
                              "Type: "; currency_or_card; Js.nl;
                              "Status: pending"; Js.nl; Js.nl;
                              "Proof images are attached below. Use the buttons to Approve or Reject."] in
                    let keyboard :=
                      inlineKeyboard
                        [("✅ Approve", String.append "approve:" (Js.of_Z txId));
                         ("❌ Reject", String.append "reject:" (Js.of_Z txId))] in
                    let notify :=
                      match files with
                      | [file] => [sendPhoto ADMIN_CHAT_ID (file_id file) caption keyboard]
                      | _ =>
                          [sendMediaGroup ADMIN_CHAT_ID (map file_id files);
                           sendMessage ADMIN_CHAT_ID caption keyboard]
                      end in
                    Stop (set_flow uid None s)
                      (app notify
                         [reply "Your submission is pending admin approval. You will be prompted for account details if approved. Thank you!"
                            no_markup])
                | _, _ =>
                    (* [createTxStmt.run] throws on an undefined parameter *)
                    Stop s []
                end
            end
        | _ => not_in_sale
        end
    | None => not_in_sale
    end
  else Next s.

Inductive Action := approve | reject.

(** The regular expression [/^(approve|reject):(\d+)$/] and its two groups. *)
Definition match_action (data : string) : option (Action * string) :=
  let digits_of (rest : string) (a : Action) :=
    if Js.truthy rest && Js.all_digits rest then Some (a, rest) else None in
  if Js.startsWith "approve:" data then digits_of (Js.drop 8 data) approve
  else if Js.startsWith "reject:" data then digits_of (Js.drop 7 data) reject
  else None.

(** [bot.action(/^(approve|reject):(\d+)$/)] *)
Definition on_action (u : Update) (data : string) (s : State) : Outcome :=
  match match_action data with
  | None => Next s
  | Some (action, digits) =>
      let admin := from_id (from u) in
      if negb (admin =? ADMIN_CHAT_ID) then
        Stop s [answerCbQuery "Only admin can perform this action." true]
      else
        let txId := Js.parseInt digits in
        match getTxByIdStmt_get txId s with
        | None => Stop s [answerCbQuery "Transaction not found." true]
        | Some txRow =>
            match action with
            | reject =>
                let s :=
                  updateTxStatusStmt_run txId rejected
                    (Js.cat ["Rejected by admin "; Js.of_Z admin; " at "; now u]) s in
                Stop s
                  [editMessageText
                     (Js.cat ["Transaction "; Js.of_Z txId; " has been REJECTED by admin."]);
                   sendMessage (Tx.user_id txRow)
                     (Js.cat ["Your transaction (ID: "; Js.of_Z txId;
                              ") was rejected by the admin. You may contact support for details."])
                     no_markup;
                   answerCbQuery "Rejected." false]
            | approve =>
                let s :=
                  updateTxStatusStmt_run txId approved
                    (Js.cat ["Approved by admin "; Js.of_Z admin; " at "; now u]) s in
                let saved := saved_details (Tx.user_id txRow) s in
                let prompt :=
                  if saved_and_not_empty saved then
                      Js.cat ["Your transaction (ID: "; Js.of_Z txId; ") was approved."; Js.nl;
                              "We have saved account details:"; Js.nl;
                              Object.render (default [] saved); Js.nl; Js.nl;
                              "Reply "; Js.dq; "CONFIRM"; Js.dq;
                              " to use these details, or send new account details in the format:";
                              Js.nl; "field1:value1"; Js.nl; "field2:value2"]
                  else
                      Js.cat ["Your transaction (ID: "; Js.of_Z txId; ") was approved."; Js.nl;
                              "Please send your account details now in the format (each on new line):";
                              Js.nl; "account_name:John Doe"; Js.nl;
                              "account_number:0123456789"; Js.nl; "bank:ABC Bank"; Js.nl; Js.nl;
                              "Or send any payment receiving details your prefer."] in
                let accountText :=
                  match saved with
                  | Some details =>
                      Js.cat ["Saved account details:"; Js.nl; Object.render details]
                  | None => "No saved account details for this user."
                  end in
                let adminMsg :=
                  Js.cat ["Transaction "; Js.of_Z txId; " APPROVED."; Js.nl;
                          "From user: "; Js.of_Z (Tx.user_id txRow); Js.nl;
                          "Amount: "; Tx.amount txRow; Js.nl;
                          "Type: "; Tx.currency_or_card txRow; Js.nl; Js.nl;
                          accountText; Js.nl; Js.nl;
                          "Proof file_ids:"; Js.nl;
                          Js.join_lines (map file_id (Tx.proof_files txRow))] in
                Stop s
                  [editMessageText
                     (Js.cat ["Transaction "; Js.of_Z txId; " has been APPROVED by admin."]);
                   sendMessage (Tx.user_id txRow) prompt no_markup;
                   sendMessage ADMIN_CHAT_ID adminMsg no_markup;
                   answerCbQuery "Approved." false]
            end
        end
  end.

(** The loop of the second text handler that builds [obj] from the lines of
    [text]. *)
Definition parse_details (text : string) : Obj :=
  let lines := List.filter Js.truthy (map Js.trim (Js.split_lines text)) in
  fold_left
    (fun obj line =>
       let idx := Js.indexOf ":" line in
       if 0 <? idx then
         let k := Js.trim (Js.slice line 0 idx) in
         let v := Js.trim (Js.slice_from line (idx + 1)) in
         if Js.truthy k then Object.set k v obj else obj
       else obj)
    lines [].

(** Second [bot.on('text')]: replies of a user after an approval. *)
Definition on_text_reply (u : Update) (text : string) (s : State) : Outcome :=
  let text := Js.trim text in
  let uid := from_id (from u) in
  let saved := saved_details uid s in
  match latestApproved_get uid s with
  | Some latestApproved =>
      if String.eqb (Js.toUpperCase text) "CONFIRM" && saved_truthy saved then
          let s :=
            updateTxStatusStmt_run (Tx.id latestApproved) completed
              (Js.cat ["User confirmed saved details at "; now u]) s in
          Stop s
            [reply "Thanks — your saved details have been attached to the transaction. Admin has been notified."
               no_markup;
             sendMessage ADMIN_CHAT_ID
               (Js.cat ["Transaction "; Js.of_Z (Tx.id latestApproved);
                        " completed. User "; Js.of_Z uid; " confirmed saved details:";
                        Js.nl; Object.render (default [] saved)])
               no_markup]
      else if Js.includes ":" text then
            let obj := parse_details text in
            match Object.keys obj with
            | [] =>
                Stop s [reply "Could not parse account details. Use format key:value each on its own line."
                          no_markup]
            | _ =>
                let s := upsertAccountStmt_run uid obj s in
                let s :=
                  updateTxStatusStmt_run (Tx.id latestApproved) completed
                    (Js.cat ["User provided details at "; now u]) s in
                Stop s
                  [reply "Thanks! Your account details were saved and sent to the admin."
                     no_markup;
                   sendMessage ADMIN_CHAT_ID
                     (Js.cat ["Transaction "; Js.of_Z (Tx.id latestApproved);
                              " completed by user "; Js.of_Z uid; ". Account details:";
                              Js.nl; Object.render obj])
                     no_markup]
            end
      else Next s
  | None => Next s
  end.

(** [text.replace(/^\/broadcast\s*/i, '')] *)
Definition strip_broadcast (text : string) : string :=
  if Js.startsWith "/broadcast" (Js.toLowerCase text)
  then Js.trimStart (Js.drop 10 text) else text.

(** The send to chat [id] inside the [try] of the broadcast loop goes
    through; when it throws, the [catch] skips [sent++]. *)
Definition delivered (u : Update) (id : Z) : bool :=
  negb (existsb (Z.eqb id) (refused u)).

(** [bot.command('broadcast')]: one message per user row, and [sent] counts
    the sends that went through. *)
Definition command_broadcast (u : Update) (text : string) (entities : list Entity)
    (s : State) : Outcome :=
  if is_command "broadcast" text entities then
    if negb (from_id (from u) =? ADMIN_CHAT_ID) then
      Stop s [reply "Only admin can use this command." no_markup]
    else
      let text := Js.trim (strip_broadcast text) in
      if negb (Js.truthy text) then
        Stop s [reply "Usage: /broadcast Your message here" no_markup]
      else
        let users := listUsersStmt_all s in
        let sends :=
          map (fun id => sendMessage id (Js.cat ["📣 Broadcast:"; Js.nl; Js.nl; text]) no_markup)
            (List.filter (delivered u) users) in
        Stop s
          (app sends
             [reply (Js.cat ["Broadcast sent to ~"; Js.of_Z (Z.of_nat (List.length sends));
                             " users."]) no_markup])
  else Next s.

(** [bot.command('help')] *)
Definition command_help (text : string) (entities : list Entity) (s : State) : Outcome :=
  if is_command "help" text entities then
    Stop s [reply (Js.cat ["Commands:"; Js.nl; "/start"; Js.nl; "Sell Crypto"; Js.nl;
                           "Sell Giftcard"; Js.nl; "My Account"; Js.nl;
                           "/admin commands: /broadcast <message>"]) no_markup]
  else Next s.

(** [h1] then, when it calls [next()], [h2]. *)
Definition and_then (o : Outcome) (h : State -> Outcome) : Outcome :=
  match o with
  | Stop s out => Stop s out
  | Next s => h s
  end.

Definition finish (o : Outcome) : State * list Output :=
  match o with
  | Stop s out => (s, out)
  | Next s => (s, [])
  end.

(** The middleware chain, in the order of registration. *)
Definition dispatch (u : Update) (s : State) : Outcome :=
  match body u with
  | Text text entities =>
      and_then (on_start u text entities s) (fun s =>
      and_then (hears_my_account u text s) (fun s =>
      and_then (hears_sell u text s) (fun s =>
      and_then (on_text_flow u text s) (fun s =>
      and_then (command_done u text entities s) (fun s =>
      and_then (on_text_reply u text s) (fun s =>
      and_then (command_broadcast u text entities s) (fun s =>
      command_help text entities s)))))))
  | Photo photo larger => on_photo u photo larger s
  | Callback data => on_action u data s
  | Other => Next s
  end.

(** One update handled to completion. *)
Definition handle (u : Update) (s : State) : State * list Output :=
  finish (dispatch u (store_user u s)).

(** The updates handled one after the other. *)
Definition run (us : list Update) (s : State) : State :=
  fold_left (fun s u => fst (handle u s)) us s.

(** The store after each update of [us]. *)
Fixpoint trace (us : list Update) (s : State) : list State :=
  match us with
  | [] => []
  | u :: rest => let s' := fst (handle u s) in s' :: trace rest s'
  end.

(** ** Observations the properties are stated with *)

(** The status of transaction [id], if the row exists. *)
Definition status_of (id : Z) (s : State) : option Status :=
  option_map Tx.status (getTxByIdStmt_get id s).

(** Consecutive repetitions removed. *)
Fixpoint compress (l : list Status) : list Status :=
  match l with
  | a :: rest =>
      match rest with
      | b :: _ => if Status_eqb a b then compress rest else a :: compress rest
      | [] => [a]
      end
  | [] => []
  end.

(** The successive statuses of transaction [id] along a list of stores. *)
Definition status_history (id : Z) (ss : list State) : list Status :=
  compress (omap (status_of id) ss).

Definition lifecycle (h : list Status) : Prop :=
  h `prefix_of` [pending; approved; completed] \/ h `prefix_of` [pending; rejected].

Definition is_photo (u : Update) : bool :=
  match body u with Photo _ _ => true | _ => false end.

(** What a photo update adds to [flow.proof]. *)
Definition proof_of_photo (u : Update) : list ProofFile :=
  match body u with
  | Photo photo larger =>
      [{| file_id := photo_file_id (List.last larger photo); file_type := "photo";
          date := now u |}]
  | _ => []
  end.

(** The store an outcome leaves. *)
Definition outcome_state (o : Outcome) : State :=
  match o with Stop s _ => s | Next s => s end.

(** Both tables are as they were. *)
Definition same_data (s s' : State) : Prop :=
  users s' = users s /\ transactions s' = transactions s.

Definition status_of_action (a : Action) : Status :=
  match a with approve => approved | reject => rejected end.

(** The update is not a decision of the administrator that takes
    transaction [txId] out of a status other than [pending]: a decision on
    [txId] finds it pending, or already in the status it sets. *)
Definition decision_in_order (txId : Z) (u : Update) (s : State) : bool :=
  match body u with
  | Callback data =>
      match match_action data with
      | Some (a, digits) =>
          if (from_id (from u) =? ADMIN_CHAT_ID) && (Js.parseInt digits =? txId) then
            match status_of txId s with
            | Some st => Status_eqb st pending || Status_eqb st (status_of_action a)
            | None => true
            end
          else true
      | None => true
      end
  | _ => true
  end.

(** Every decision on [txId] along the run is in order. *)
Fixpoint decisions_in_order (txId : Z) (us : list Update) (s : State) : bool :=
  match us with
  | [] => true
  | u :: rest =>
      decision_in_order txId u s && decisions_in_order txId rest (fst (handle u s))
  end.

(** What handling [u] can do to table [transactions]. *)
Inductive tx_change (u : Update) (s s' : State) : Prop :=
| tx_same :
    transactions s' = transactions s -> tx_change u s s'
| tx_created row :
    transactions s' = app (transactions s) [row] ->
    Tx.id row = next_rowid (transactions s) ->
    Tx.status row = pending ->
    Tx.user_id row = from_id (from u) ->
    Tx.proof_files row <> [] ->
    tx_change u s s'
| tx_completed latest note :
    latestApproved_get (from_id (from u)) s = Some latest ->
    transactions s' =
      transactions (updateTxStatusStmt_run (Tx.id latest) completed note s) ->
    tx_change u s s'
| tx_decided data a digits note :
    body u = Callback data ->
    match_action data = Some (a, digits) ->
    from_id (from u) = ADMIN_CHAT_ID ->
    is_Some (getTxByIdStmt_get (Js.parseInt digits) s) ->
    transactions s' =
      transactions
        (updateTxStatusStmt_run (Js.parseInt digits) (status_of_action a) note s) ->
    tx_change u s s'.

(** What handling [u] can do to the stored account details. *)
Definition details_change (u : Update) (s s' : State) : Prop :=
  forall uid,
    saved_details uid s' = saved_details uid s
    \/ (uid = from_id (from u)
        /\ exists text entities,
             body u = Text text entities
             /\ saved_details uid s' = Some (parse_details (Js.trim text))
             /\ Object.keys (parse_details (Js.trim text)) <> []).

Definition changes (u : Update) (s s' : State) : Prop :=
  tx_change u s s' /\ details_change u s s'.

(** An outcome that called [next()] left both tables alone. *)
Definition outcome_ok (u : Update) (s : State) (o : Outcome) : Prop :=
  match o with
  | Stop s' _ => changes u s s'
  | Next s' => same_data s s'
  end.

(** Row ids are unique, as the primary key demands. *)
Definition unique_ids (s : State) : Prop := List.NoDup (map Tx.id (transactions s)).

(** One step of a transaction's life: created as [pending], decided while
    [pending], completed while [approved]. *)
Definition status_step (o o' : option Status) : Prop :=
  o' = o
  \/ (o = None /\ o' = Some pending)
  \/ (o = Some pending /\ (o' = Some approved \/ o' = Some rejected))
  \/ (o = Some approved /\ o' = Some completed).

(** The histories that can follow the current status. *)
Definition paths_from (o : option Status) : list (list Status) :=
  match o with
  | None =>
      [[]; [pending]; [pending; approved]; [pending; approved; completed];
       [pending; rejected]]
  | Some pending =>
      [[pending]; [pending; approved]; [pending; approved; completed];
       [pending; rejected]]
  | Some approved => [[approved]; [approved; completed]]
  | Some rejected => [[rejected]]
  | Some completed => [[completed]]
  end.

(** Stored details are a mapping with at least one key, none of them empty. *)
Definition details_ok (o : Obj) : Prop :=
  o <> [] /\ Forall (fun e => fst e <> EmptyString) o.

(** The first text handler consumes the next text of user [uid]. *)
Definition awaiting_text (uid : Z) (s : State) : bool :=
  match flow_of uid s with
  | Some flow =>
      match Flow.step flow with
      | choose_type | currency => true
      | await_admin_note => uid =? ADMIN_CHAT_ID
      | await_proof => false
      end
  | None => false
  end.

(** A text that reaches the first text handler: neither [/start] nor one of
    the three menu labels. *)
Definition free_text (text : string) (entities : list Entity) : bool :=
  negb (is_command "start" text entities)
  && negb (hears "My Account" text)
  && negb (hears "Sell Crypto" text || hears "Sell Giftcard" text).

(** ** The details parser

    What one pass of the loop stores for a line, as a function of the
    line. *)

Fixpoint split_first_colon (line : string) : option (string * string) :=
  match line with
  | EmptyString => None
  | String c r =>
      if Ascii.eqb c ":"%char then Some (EmptyString, r)
      else match split_first_colon r with
           | Some (k, v) => Some (String c k, v)
           | None => None
           end
  end.

Definition pair_of_line (line : string) : option (string * string) :=
  match split_first_colon (Js.trim line) with
  | Some (k, v) =>
      if Js.truthy (Js.trim k) then Some (Js.trim k, Js.trim v) else None
  | None => None
  end.

(** ** The details parser in the words of the specification

    Split on newlines, trim each line, split it at its first [:], and
    discard the lines that give no non-empty key; the result is a mapping
    from keys to values.  Trimming is written on its own here: the white
    space is dropped from the front of the characters, and from the front
    of their reversal. *)

Fixpoint drop_spaces (l : list ascii) : list ascii :=
  match l with
  | [] => []
  | c :: r => if Js.is_space c then drop_spaces r else l
  end.

Definition spec_trim (x : string) : string :=
  string_of_list_ascii
    (rev (drop_spaces (rev (drop_spaces (list_ascii_of_string x))))).

Definition spec_pair_of_line (line : string) : option (string * string) :=
  match split_first_colon (spec_trim line) with
  | Some (k, v) =>
      match spec_trim k with
      | EmptyString => None
      | k' => Some (k', spec_trim v)
      end
  | None => None
  end.

Definition spec_parse_details (text : string) : gmap string string :=
  fold_left (fun m kv => <[fst kv := snd kv]> m)
    (omap spec_pair_of_line (Js.split_lines text)) ∅.

(** ** Sample updates *)

Definition sample_admin : Z := 1000.

Definition boss : From :=
  {| from_id := 1000; from_username := Some "boss"; first_name := "Bo";
     last_name := None |}.
Definition alice : From :=
  {| from_id := 7; from_username := Some "alice"; first_name := "Alice";
     last_name := Some "Liddell" |}.
Definition mallory : From :=
  {| from_id := 9; from_username := None; first_name := "Mallory";
     last_name := None |}.

Definition sample_now : string := "2024-05-01T10:00:00.000Z".

Definition text_update (f : From) (t : string) : Update :=
  {| from := f; now := sample_now; body := Text t []; refused := [] |}.

Definition command_update (f : From) (t : string) : Update :=
  {| from := f; now := sample_now;
     body := Text t [{| etype := bot_command; offset := 0; elength := String.length t |}];
     refused := [] |}.

Definition photo_update (f : From) (file : string) : Update :=
  {| from := f; now := sample_now;
     body := Photo {| photo_file_id := String.append file "-small" |}
                   [{| photo_file_id := file |}];
     refused := [] |}.

Definition button_update (f : From) (data : string) : Update :=
  {| from := f; now := sample_now; body := Callback data; refused := [] |}.

(** A complete sale by alice. *)
Definition sample_sale : list Update :=
  [text_update alice "Sell Crypto"; text_update alice "50"; text_update alice "BTC";
   photo_update alice "file-1"; command_update alice "/done"].

(** Alice's first sale approved and settled with details a and b, her
    second sale approved and not yet settled. *)
Definition sample_settled_then_approved : list Update :=
  app sample_sale
    (button_update boss "approve:1"
     :: text_update alice (Js.cat ["a: 1"; Js.nl; "b: 2"])
     :: app sample_sale [button_update boss "approve:2"]).

(** Case analysis on the eight bits of a character. *)
Ltac char_cases c :=
  destruct c as [[] [] [] [] [] [] [] []]; try discriminate.

(** ** Observations on sessions, rows and flows *)

(** What handling [u] can do to the sender's Flow. *)
Inductive flow_next (u : Update) : option Flow.t -> option Flow.t -> Prop :=
| flow_kept old : flow_next u old old
| flow_started old type :
    flow_next u old
      (Some {| Flow.step := choose_type; Flow.type := type; Flow.amount := None;
               Flow.currency_or_card := None; Flow.proof := None |})
| flow_amount f text entities :
    body u = Text text entities -> Flow.step f = choose_type ->
    flow_next u (Some f)
      (Some {| Flow.step := currency; Flow.type := Flow.type f;
               Flow.amount := Some (Js.trim text);
               Flow.currency_or_card := Flow.currency_or_card f;
               Flow.proof := Flow.proof f |})
| flow_counterparty f text entities :
    body u = Text text entities -> Flow.step f = currency ->
    flow_next u (Some f)
      (Some {| Flow.step := await_proof; Flow.type := Flow.type f;
               Flow.amount := Flow.amount f;
               Flow.currency_or_card := Some (Js.trim text);
               Flow.proof := Flow.proof f |})
| flow_photo f :
    is_photo u = true -> Flow.step f = await_proof ->
    flow_next u (Some f)
      (Some {| Flow.step := Flow.step f; Flow.type := Flow.type f;
               Flow.amount := Flow.amount f;
               Flow.currency_or_card := Flow.currency_or_card f;
               Flow.proof := Some (app (default [] (Flow.proof f)) (proof_of_photo u)) |})
| flow_submitted f amount currency_or_card :
    Flow.step f = await_proof -> default [] (Flow.proof f) <> [] ->
    Flow.amount f = Some amount -> Flow.currency_or_card f = Some currency_or_card ->
    flow_next u (Some f) None.

(** What handling [u] can do to the session map: nothing, or one write of
    the sender's session. *)
Definition sessions_change (u : Update) (s s' : State) : Prop :=
  sessions s' = sessions s
  \/ exists new,
       sessions s' = <[from_id (from u) := {| flow := new |}]> (sessions s)
       /\ flow_next u (flow_of (from_id (from u)) s) new.

Definition sessions_outcome (u : Update) (s : State) (o : Outcome) : Prop :=
  match o with
  | Stop s' _ => sessions_change u s s'
  | Next s' => s' = s \/ s' = ensure_session (from_id (from u)) s
  end.

(** The fields a Flow holds at each step. *)
Definition flow_ok (f : Flow.t) : Prop :=
  match Flow.step f with
  | choose_type =>
      Flow.amount f = None /\ Flow.currency_or_card f = None /\ Flow.proof f = None
  | currency =>
      is_Some (Flow.amount f) /\ Flow.currency_or_card f = None /\ Flow.proof f = None
  | await_proof =>
      is_Some (Flow.amount f) /\ is_Some (Flow.currency_or_card f)
      /\ Flow.proof f <> Some []
  | await_admin_note => False
  end.

(** What handling [u] can do to table [users] once the sender is stored. *)
Definition users_change (u : Update) (s s' : State) : Prop :=
  users s' = users s
  \/ exists obj,
       users s' = alter (with_account_details obj) (from_id (from u)) (users s).

Definition users_outcome (u : Update) (s : State) (o : Outcome) : Prop :=
  match o with
  | Stop s' _ => users_change u s s'
  | Next s' => users s' = users s
  end.

(** Two rows of [users] that differ at most in [account_details]. *)
Definition same_identity (r r' : User.t) : Prop :=
  User.id r' = User.id r /\ User.username r' = User.username r
  /\ User.full_name r' = User.full_name r /\ User.created_at r' = User.created_at r.

(** Two rows of [transactions] that differ at most in [status] and
    [admin_note]. *)
Definition same_submission (r r' : Tx.t) : Prop :=
  Tx.id r' = Tx.id r /\ Tx.user_id r' = Tx.user_id r /\ Tx.type r' = Tx.type r
  /\ Tx.amount r' = Tx.amount r /\ Tx.currency_or_card r' = Tx.currency_or_card r
  /\ Tx.proof_files r' = Tx.proof_files r /\ Tx.created_at r' = Tx.created_at r.

(** The row ids 1, 2, ..., n. *)
Definition ids_upto (n : nat) : list Z := map Z.of_nat (seq 1 n).

(** A key or value as the details parser stores it. *)
Definition trimmed (x : string) : Prop := Js.trim x = x.

(** The callback data of the two buttons under a submission. *)
Definition button_data (a : Action) (txId : Z) : string :=
  match a with
  | approve => String.append "approve:" (Js.of_Z txId)
  | reject => String.append "reject:" (Js.of_Z txId)
  end.

(** The key [k'] stays in front of a new key [k]: the test of [Object.add]
    fails at [k']. *)
Definition stays_before (k' k : string) : bool :=
  negb (Object.is_index k
        && (negb (Object.is_index k') || (Js.parseInt k <? Js.parseInt k'))).

(** Keys in the order [Object.entries] enumerates them. *)
Fixpoint enumeration_order (ks : list string) : Prop :=
  match ks with
  | [] => True
  | k :: rest =>
      Forall (fun k' => stays_before k k' = true) rest /\ enumeration_order rest
  end.

(** ** Sample stores and rows *)

(** A message that starts with the command [name], followed by [rest]. *)
Definition command_with (f : From) (name rest : string) : Update :=
  {| from := f; now := sample_now;
     body := Text (String.append name rest)
               [{| etype := bot_command; offset := 0;
                   elength := String.length name |}];
     refused := [] |}.

(** The steps of alice's sale, up to the amount, the currency and the
    proof. *)
Definition sample_until_amount : list Update := [text_update alice "Sell Crypto"].
Definition sample_until_currency : list Update :=
  [text_update alice "Sell Crypto"; text_update alice "50"].
Definition sample_until_done : list Update :=
  [text_update alice "Sell Crypto"; text_update alice "50"; text_update alice "BTC";
   photo_update alice "file-1"].

Definition sample_proof : ProofFile :=
  {| file_id := "file-1"; file_type := "photo"; date := sample_now |}.

(** The Flow and the row of that sale. *)
Definition sample_flow : Flow.t :=
  {| Flow.step := await_proof; Flow.type := crypto; Flow.amount := Some "50";
     Flow.currency_or_card := Some "BTC"; Flow.proof := Some [sample_proof] |}.

Definition sample_row : Tx.t :=
  {| Tx.id := 1; Tx.user_id := 7; Tx.type := crypto; Tx.amount := "50";
     Tx.currency_or_card := "BTC"; Tx.status := pending;
     Tx.proof_files := [sample_proof]; Tx.created_at := sample_now;
     Tx.admin_note := None |}.

(** The sale approved, then settled with the details a and b. *)
Definition sample_approved : list Update :=
  app sample_sale [button_update boss "approve:1"].
Definition sample_settled : list Update :=
  app sample_approved [text_update alice (Js.cat ["a: 1"; Js.nl; "b: 2"])].

(** Two sales of alice; the administrator approves the first one twice and
    the second one once, alice settles the second, the administrator then
    rejects that settled sale, and alice settles the first. *)
Definition sample_stray_decisions : list Update :=
  app sample_sale
    (app sample_sale
       [button_update boss "approve:1"; button_update boss "approve:1";
        button_update boss "approve:2"; text_update alice "a: 1";
        button_update boss "reject:2"; text_update alice "b: 2"]).

(** A broadcast of the administrator while alice has blocked the bot. *)
Definition sample_blocked_broadcast : Update :=
  {| from := boss; now := sample_now;
     body := Text "/broadcast Rates changed "
               [{| etype := bot_command; offset := 0; elength := 10 |}];
     refused := [7] |}.

(** * Properties *)

(** ** Strings *)

Lemma startsWith_cons a n s :
  Js.startsWith (String a n) s = true ->
  exists r, s = String a r /\ Js.startsWith n r = true.
Proof.
  destruct s as [|b r]; simpl; [discriminate|].
  intros H. apply andb_true_iff in H as [Hb Hn].
  apply Ascii.eqb_eq in Hb. subst b. eauto.
Qed.

Lemma take_startsWith n : forall text, Js.startsWith (Js.take n text) text = true.
Proof.
  induction n as [|n IH]; intros [|c r]; simpl; auto.
  rewrite Ascii.eqb_refl. simpl. apply IH.
Qed.

Lemma is_command_startsWith name text entities :
  is_command name text entities = true ->
  Js.startsWith (String "/"%char name) text = true.
Proof.
  unfold is_command. intros H. apply existsb_exists in H as (e & _ & He).
  destruct (etype e); [|discriminate].
  apply andb_true_iff in He as [_ He]. apply String.eqb_eq in He.
  rewrite <- He. apply take_startsWith.
Qed.

Lemma trimEnd_cons c r :
  Js.is_space c = false -> exists r', Js.trimEnd (String c r) = String c r'.
Proof.
  intros Hc. simpl. destruct (Js.trimEnd r); [rewrite Hc|]; eauto.
Qed.

Lemma trim_cons c r :
  Js.is_space c = false -> exists r', Js.trim (String c r) = String c r'.
Proof.
  intros Hc. unfold Js.trim. simpl. rewrite Hc. now apply trimEnd_cons.
Qed.

Lemma map_chars_cons_inv f s a p :
  Js.map_chars f s = String a p ->
  exists c r, s = String c r /\ f c = a /\ Js.map_chars f r = p.
Proof.
  destruct s as [|c r]; simpl; [discriminate|].
  intros H. injection H as H1 H2. eauto.
Qed.

Lemma indexOf_lower_bound needle s : -1 <= Js.indexOf needle s.
Proof.
  induction s as [|c r IH]; simpl.
  - destruct (Js.startsWith needle EmptyString); lia.
  - destruct (Js.startsWith needle (String c r)); [lia|].
    destruct (Js.indexOf needle r <? 0) eqn:E; [lia|].
    apply Z.ltb_ge in E. lia.
Qed.

(** [includes] with a one-character needle is membership. *)
Lemma includes_char_cons c d r :
  Js.includes (String c EmptyString) (String d r)
  = Ascii.eqb d c || Js.includes (String c EmptyString) r.
Proof.
  unfold Js.includes. cbn [Js.indexOf Js.startsWith].
  destruct (Ascii.eqb d c); simpl.
  - now destruct r.
  - pose proof (indexOf_lower_bound (String c EmptyString) r) as Hlb.
    destruct (Js.indexOf (String c EmptyString) r <? 0) eqn:E.
    + apply Z.ltb_lt in E. symmetry. apply Z.leb_gt. lia.
    + apply Z.ltb_ge in E. transitivity true; [|symmetry]; apply Z.leb_le; lia.
Qed.

Lemma includes_char_nil c : Js.includes (String c EmptyString) EmptyString = false.
Proof. reflexivity. Qed.

Lemma includes_trimStart c s :
  Js.includes (String c EmptyString) (Js.trimStart s) = true ->
  Js.includes (String c EmptyString) s = true.
Proof.
  induction s as [|d r IH]; simpl; auto.
  destruct (Js.is_space d); auto.
  intros H. rewrite includes_char_cons. rewrite (IH H). apply orb_true_r.
Qed.

Lemma includes_trimEnd c s :
  Js.includes (String c EmptyString) (Js.trimEnd s) = true ->
  Js.includes (String c EmptyString) s = true.
Proof.
  induction s as [|d r IH]; simpl; auto.
  rewrite includes_char_cons.
  destruct (Js.trimEnd r) as [|e r'] eqn:E.
  - destruct (Js.is_space d).
    + rewrite includes_char_nil. discriminate.
    + rewrite includes_char_cons, includes_char_nil, orb_false_r.
      intros ->. reflexivity.
  - rewrite includes_char_cons. intros H.
    apply orb_true_iff in H as [H|H]; [now rewrite H|].
    rewrite (IH H). apply orb_true_r.
Qed.

Lemma includes_trim c s :
  Js.includes (String c EmptyString) (Js.trim s) = true ->
  Js.includes (String c EmptyString) s = true.
Proof. intros H. now apply includes_trimStart, includes_trimEnd. Qed.

Lemma includes_map_chars f c s :
  Js.includes (String c EmptyString) s = true ->
  Js.includes (String (f c) EmptyString) (Js.map_chars f s) = true.
Proof.
  induction s as [|d r IH]; simpl.
  - rewrite includes_char_nil. discriminate.
  - rewrite !includes_char_cons. intros H.
    apply orb_true_iff in H as [H|H].
    + apply Ascii.eqb_eq in H. subst d. now rewrite Ascii.eqb_refl.
    + rewrite (IH H). apply orb_true_r.
Qed.

(** ** Which handler a text reaches *)

Lemma slash_not_hears r :
  hears "My Account" (String "/"%char r) = false
  /\ hears "Sell Crypto" (String "/"%char r) = false
  /\ hears "Sell Giftcard" (String "/"%char r) = false.
Proof. repeat split; reflexivity. Qed.

Lemma command_not_menu name text entities :
  is_command name text entities = true ->
  hears "My Account" text = false
  /\ hears "Sell Crypto" text = false /\ hears "Sell Giftcard" text = false.
Proof.
  intros H. apply is_command_startsWith, startsWith_cons in H as (r & -> & _).
  apply slash_not_hears.
Qed.

Lemma done_not_start text entities :
  is_command "done" text entities = true ->
  is_command "start" text entities = false.
Proof.
  intros Hd. destruct (is_command "start" text entities) eqn:Hs; [|reflexivity].
  apply is_command_startsWith, startsWith_cons in Hd as (r & -> & Hd).
  apply startsWith_cons in Hd as (r1 & -> & _).
  apply is_command_startsWith, startsWith_cons in Hs as (r2 & Hr & Hs).
  injection Hr as <-. apply startsWith_cons in Hs as (r3 & Hr & _).
  discriminate Hr.
Qed.

Lemma done_free_text text entities :
  is_command "done" text entities = true -> free_text text entities = true.
Proof.
  intros H. unfold free_text. rewrite (done_not_start _ _ H).
  destruct (command_not_menu _ _ _ H) as (-> & -> & ->). reflexivity.
Qed.

Lemma hears_first literal text a p :
  Js.toLowerCase literal = String a p ->
  hears literal text = true ->
  exists c r, text = String c r /\ Js.lower_char c = a.
Proof.
  unfold hears. intros Hl H. apply String.eqb_eq in H. rewrite Hl in H.
  apply map_chars_cons_inv in H as (c & r & -> & Hc & _). eauto.
Qed.

(** An intent selection is neither [/start] nor the account label. *)
Lemma sell_reaches_handler text entities :
  hears "Sell Crypto" text || hears "Sell Giftcard" text = true ->
  is_command "start" text entities = false /\ hears "My Account" text = false.
Proof.
  intros H. split.
  - destruct (is_command "start" text entities) eqn:Hs; [|reflexivity].
    destruct (command_not_menu _ _ _ Hs) as (_ & H1 & H2).
    rewrite H1, H2 in H. discriminate.
  - unfold hears in *. apply orb_true_iff in H as [H|H];
      apply String.eqb_eq in H; rewrite H; reflexivity.
Qed.

Lemma confirm_not_command name text entities :
  Js.toUpperCase (Js.trim text) = "CONFIRM" ->
  is_command name text entities = false.
Proof.
  intros Hc. destruct (is_command name text entities) eqn:H; [|reflexivity].
  apply is_command_startsWith, startsWith_cons in H as (r & -> & _).
  destruct (trim_cons "/"%char r eq_refl) as (r' & Hr).
  rewrite Hr in Hc. discriminate Hc.
Qed.

Lemma confirm_first_char c r (a : ascii) :
  Js.lower_char c = a -> Js.is_space a = false -> Js.upper_char a <> "C"%char ->
  Js.toUpperCase (Js.trim (String c r)) <> "CONFIRM".
Proof.
  intros Hl Hs Hu Hc.
  assert (Hsc : Js.is_space c = false).
  { subst a. revert Hs. char_cases c; vm_compute; congruence. }
  destruct (trim_cons c r Hsc) as (r' & Hr). rewrite Hr in Hc.
  injection Hc as Hc _. apply Hu. subst a. revert Hc.
  char_cases c; vm_compute; congruence.
Qed.

Lemma confirm_not_menu text :
  Js.toUpperCase (Js.trim text) = "CONFIRM" ->
  hears "My Account" text = false
  /\ hears "Sell Crypto" text = false /\ hears "Sell Giftcard" text = false.
Proof.
  intros Hc.
  assert (forall literal a p,
            Js.toLowerCase literal = String a p -> Js.is_space a = false ->
            Js.upper_char a <> "C"%char -> hears literal text = false) as Hno.
  { intros literal a p Hl Hs Hu.
    destruct (hears literal text) eqn:H; [|reflexivity].
    destruct (hears_first _ _ _ _ Hl H) as (c & r & -> & Hlc).
    now destruct (confirm_first_char c r a Hlc Hs Hu). }
  repeat split; eapply Hno; try reflexivity; vm_compute; congruence.
Qed.

Lemma colon_not_menu text :
  Js.includes ":" (Js.trim text) = true ->
  hears "My Account" text = false
  /\ hears "Sell Crypto" text = false /\ hears "Sell Giftcard" text = false.
Proof.
  intros Hc. apply includes_trim in Hc.
  apply (includes_map_chars Js.lower_char) in Hc.
  change (Js.map_chars Js.lower_char text) with (Js.toLowerCase text) in Hc.
  unfold hears.
  repeat split;
    match goal with
    | |- String.eqb ?a ?b = false =>
        destruct (String.eqb a b) eqn:E; [|reflexivity];
        apply String.eqb_eq in E; rewrite E in Hc; vm_compute in Hc; discriminate
    end.
Qed.

Lemma colon_not_confirm text :
  Js.includes ":" text = true ->
  String.eqb (Js.toUpperCase text) "CONFIRM" = false.
Proof.
  intros Hc. apply (includes_map_chars Js.upper_char) in Hc.
  change (Js.map_chars Js.upper_char text) with (Js.toUpperCase text) in Hc.
  destruct (String.eqb (Js.toUpperCase text) "CONFIRM") eqn:E; [|reflexivity].
  apply String.eqb_eq in E. rewrite E in Hc. vm_compute in Hc. discriminate.
Qed.

(** ** The store under the prepared statements *)

Lemma store_user_transactions u s : transactions (store_user u s) = transactions s.
Proof.
  unfold store_user, insertUserStmt_run. now destruct (users s !! from_id (from u)).
Qed.

Lemma store_user_sessions u s : sessions (store_user u s) = sessions s.
Proof.
  unfold store_user, insertUserStmt_run. now destruct (users s !! from_id (from u)).
Qed.

Lemma store_user_known u s :
  is_Some (users s !! from_id (from u)) -> store_user u s = s.
Proof.
  intros [row Hrow]. unfold store_user, insertUserStmt_run. now rewrite Hrow.
Qed.

Lemma store_user_registered u s : is_Some (users (store_user u s) !! from_id (from u)).
Proof.
  unfold store_user, insertUserStmt_run.
  destruct (users s !! from_id (from u)) eqn:E; simpl.
  - rewrite E. eauto.
  - rewrite lookup_insert_eq. eauto.
Qed.

Lemma store_user_keeps u s uid row :
  users s !! uid = Some row -> users (store_user u s) !! uid = Some row.
Proof.
  intros Hrow. unfold store_user, insertUserStmt_run.
  destruct (users s !! from_id (from u)) eqn:E; simpl; auto.
  rewrite lookup_insert_ne; auto. congruence.
Qed.

Lemma store_user_saved u uid s :
  saved_details uid (store_user u s) = saved_details uid s.
Proof.
  unfold saved_details, getUserStmt_get, store_user, insertUserStmt_run.
  destruct (users s !! from_id (from u)) eqn:E; simpl; auto.
  destruct (decide (from_id (from u) = uid)) as [<-|Hne].
  - now rewrite lookup_insert_eq, E.
  - now rewrite lookup_insert_ne.
Qed.

Lemma store_user_flow u uid s : flow_of uid (store_user u s) = flow_of uid s.
Proof. unfold flow_of, session_of. now rewrite store_user_sessions. Qed.

Lemma latestApproved_get_ext uid s s' :
  transactions s' = transactions s ->
  latestApproved_get uid s' = latestApproved_get uid s.
Proof. unfold latestApproved_get. now intros ->. Qed.

Lemma getTxByIdStmt_get_ext id s s' :
  transactions s' = transactions s ->
  getTxByIdStmt_get id s' = getTxByIdStmt_get id s.
Proof. unfold getTxByIdStmt_get. now intros ->. Qed.

Lemma status_of_ext id s s' :
  transactions s' = transactions s -> status_of id s' = status_of id s.
Proof. unfold status_of. intros H. now rewrite (getTxByIdStmt_get_ext _ _ _ H). Qed.

Lemma saved_details_ext uid s s' :
  users s' = users s -> saved_details uid s' = saved_details uid s.
Proof. unfold saved_details, getUserStmt_get. now intros ->. Qed.

Lemma flow_of_ext uid s s' :
  sessions s' = sessions s -> flow_of uid s' = flow_of uid s.
Proof. unfold flow_of, session_of. now intros ->. Qed.

Lemma ensure_session_users uid s : users (ensure_session uid s) = users s.
Proof. unfold ensure_session. now destruct (session_of uid s). Qed.

Lemma ensure_session_transactions uid s :
  transactions (ensure_session uid s) = transactions s.
Proof. unfold ensure_session. now destruct (session_of uid s). Qed.

Lemma ensure_session_flow uid uid' s :
  flow_of uid' (ensure_session uid s) = flow_of uid' s.
Proof.
  unfold ensure_session. destruct (session_of uid s) eqn:E; auto.
  unfold flow_of, session_of in *. simpl.
  destruct (decide (uid = uid')) as [<-|Hne].
  - now rewrite lookup_insert_eq, E.
  - now rewrite lookup_insert_ne.
Qed.

Lemma ensure_session_known uid s flow :
  flow_of uid s = Some flow -> ensure_session uid s = s.
Proof.
  unfold flow_of, ensure_session. now destruct (session_of uid s).
Qed.

Lemma ensure_session_idem uid s :
  ensure_session uid (ensure_session uid s) = ensure_session uid s.
Proof.
  unfold ensure_session at 1.
  destruct (session_of uid (ensure_session uid s)) eqn:E; auto.
  exfalso. revert E. unfold ensure_session.
  destruct (session_of uid s) eqn:E'; [congruence|].
  unfold session_of. simpl. now rewrite lookup_insert_eq.
Qed.

Lemma set_flow_users uid f s : users (set_flow uid f s) = users s.
Proof. reflexivity. Qed.

Lemma set_flow_transactions uid f s : transactions (set_flow uid f s) = transactions s.
Proof. reflexivity. Qed.

Lemma set_flow_same uid f s : flow_of uid (set_flow uid f s) = f.
Proof. unfold flow_of, session_of, set_flow. simpl. now rewrite lookup_insert_eq. Qed.

Lemma set_flow_other uid uid' f s :
  uid <> uid' -> flow_of uid' (set_flow uid f s) = flow_of uid' s.
Proof.
  intros Hne. unfold flow_of, session_of, set_flow. simpl.
  now rewrite lookup_insert_ne.
Qed.

Lemma upsert_saved_same uid obj s :
  is_Some (users s !! uid) ->
  saved_details uid (upsertAccountStmt_run uid obj s) = Some obj.
Proof.
  intros [row Hrow].
  unfold saved_details, getUserStmt_get, upsertAccountStmt_run. simpl.
  rewrite lookup_alter_eq, Hrow. reflexivity.
Qed.

Lemma upsert_saved_other uid uid' obj s :
  uid <> uid' ->
  saved_details uid' (upsertAccountStmt_run uid obj s) = saved_details uid' s.
Proof.
  intros Hne. unfold saved_details, getUserStmt_get, upsertAccountStmt_run. simpl.
  now rewrite lookup_alter_ne.
Qed.

Lemma upsert_saved uid uid' obj s :
  saved_details uid' (upsertAccountStmt_run uid obj s) = saved_details uid' s
  \/ uid' = uid /\ saved_details uid' (upsertAccountStmt_run uid obj s) = Some obj.
Proof.
  destruct (decide (uid = uid')) as [<-|Hne].
  - destruct (users s !! uid) eqn:E.
    + right. split; auto. apply upsert_saved_same. eauto.
    + left. unfold saved_details, getUserStmt_get, upsertAccountStmt_run. simpl.
      now rewrite lookup_alter_eq, E.
  - left. now apply upsert_saved_other.
Qed.

(** ** Handlers that call [next()] *)

Lemma on_start_next u text entities s :
  is_command "start" text entities = false -> on_start u text entities s = Next s.
Proof. unfold on_start. now intros ->. Qed.

Lemma hears_my_account_next u text s :
  hears "My Account" text = false -> hears_my_account u text s = Next s.
Proof. unfold hears_my_account. now intros ->. Qed.

Lemma hears_sell_next u text s :
  hears "Sell Crypto" text || hears "Sell Giftcard" text = false ->
  hears_sell u text s = Next s.
Proof. unfold hears_sell. now intros ->. Qed.

Lemma on_text_flow_next u text s :
  awaiting_text (from_id (from u)) s = false ->
  on_text_flow u text s = Next (ensure_session (from_id (from u)) s).
Proof.
  unfold awaiting_text, on_text_flow. rewrite ensure_session_flow.
  destruct (flow_of (from_id (from u)) s) as [flow|]; auto.
  destruct (Flow.step flow); try discriminate; auto.
  now intros ->.
Qed.

Lemma command_done_next u text entities s :
  is_command "done" text entities = false -> command_done u text entities s = Next s.
Proof. unfold command_done. now intros ->. Qed.

Lemma command_broadcast_next u text entities s :
  is_command "broadcast" text entities = false ->
  command_broadcast u text entities s = Next s.
Proof. unfold command_broadcast. now intros ->. Qed.

Lemma command_help_next text entities s :
  is_command "help" text entities = false -> command_help text entities s = Next s.
Proof. unfold command_help. now intros ->. Qed.

(** A text that is neither [/start] nor a menu label goes to the first text
    handler. *)
Lemma dispatch_free_text u text entities s :
  body u = Text text entities -> free_text text entities = true ->
  dispatch u s =
    and_then (on_text_flow u text s) (fun s =>
    and_then (command_done u text entities s) (fun s =>
    and_then (on_text_reply u text s) (fun s =>
    and_then (command_broadcast u text entities s) (fun s =>
    command_help text entities s)))).
Proof.
  intros Hb Hf. unfold dispatch. rewrite Hb. unfold free_text in Hf.
  apply andb_true_iff in Hf as [Hf H3]. apply andb_true_iff in Hf as [H1 H2].
  apply negb_true_iff in H1, H2, H3.
  rewrite on_start_next by assumption. cbn [and_then].
  rewrite hears_my_account_next by assumption. cbn [and_then].
  rewrite hears_sell_next by assumption. reflexivity.
Qed.

(** ** The sale flow, step by step *)

Lemma handle_intent u text entities s :
  body u = Text text entities ->
  hears "Sell Crypto" text || hears "Sell Giftcard" text = true ->
  exists type out,
    handle u s =
      (set_flow (from_id (from u))
         (Some {| Flow.step := choose_type; Flow.type := type; Flow.amount := None;
                  Flow.currency_or_card := None; Flow.proof := None |})
         (ensure_session (from_id (from u)) (store_user u s)), out).
Proof.
  intros Hb Hs. destruct (sell_reaches_handler text entities Hs) as [H1 H2].
  unfold handle, dispatch. rewrite Hb.
  rewrite on_start_next by assumption. cbn [and_then].
  rewrite hears_my_account_next by assumption. cbn [and_then].
  unfold hears_sell. rewrite Hs. cbn [and_then finish]. eauto.
Qed.

Lemma handle_amount u text entities s flow :
  body u = Text text entities -> free_text text entities = true ->
  flow_of (from_id (from u)) s = Some flow -> Flow.step flow = choose_type ->
  handle u s =
    (set_flow (from_id (from u))
       (Some {| Flow.step := currency; Flow.type := Flow.type flow;
                Flow.amount := Some (Js.trim text);
                Flow.currency_or_card := Flow.currency_or_card flow;
                Flow.proof := Flow.proof flow |})
       (store_user u s),
     [reply match Flow.type flow with
            | crypto => "Which cryptocurrency? (e.g., BTC, USDT)"
            | giftcard => "Which gift card? (e.g., iTunes $50, Google Play $25)"
            end no_markup]).
Proof.
  intros Hb Hf Hflow Hstep. unfold handle.
  rewrite (dispatch_free_text _ _ _ _ Hb Hf).
  rewrite <- (store_user_flow u) in Hflow.
  unfold on_text_flow. rewrite (ensure_session_known _ _ _ Hflow), Hflow, Hstep.
  reflexivity.
Qed.

Lemma handle_counterparty u text entities s flow :
  body u = Text text entities -> free_text text entities = true ->
  flow_of (from_id (from u)) s = Some flow -> Flow.step flow = currency ->
  fst (handle u s) =
    set_flow (from_id (from u))
       (Some {| Flow.step := await_proof; Flow.type := Flow.type flow;
                Flow.amount := Flow.amount flow;
                Flow.currency_or_card := Some (Js.trim text);
                Flow.proof := Flow.proof flow |})
       (store_user u s).
Proof.
  intros Hb Hf Hflow Hstep. unfold handle.
  rewrite (dispatch_free_text _ _ _ _ Hb Hf).
  rewrite <- (store_user_flow u) in Hflow.
  unfold on_text_flow. rewrite (ensure_session_known _ _ _ Hflow), Hflow, Hstep.
  reflexivity.
Qed.

Lemma handle_photo u photo larger s flow :
  body u = Photo photo larger ->
  flow_of (from_id (from u)) s = Some flow -> Flow.step flow = await_proof ->
  handle u s =
    (set_flow (from_id (from u))
       (Some {| Flow.step := await_proof; Flow.type := Flow.type flow;
                Flow.amount := Flow.amount flow;
                Flow.currency_or_card := Flow.currency_or_card flow;
                Flow.proof := Some (app (default [] (Flow.proof flow)) (proof_of_photo u)) |})
       (store_user u s),
     [reply "Image received. Send more images or /done when finished." no_markup]).
Proof.
  intros Hb Hflow Hstep. unfold handle, dispatch, proof_of_photo. rewrite Hb.
  rewrite <- (store_user_flow u) in Hflow.
  unfold on_photo. rewrite (ensure_session_known _ _ _ Hflow), Hflow, Hstep.
  reflexivity.
Qed.

Lemma command_done_stops u text entities s k :
  is_command "done" text entities = true ->
  and_then (command_done u text entities s) k = command_done u text entities s.
Proof.
  intros Hd. unfold command_done. rewrite Hd.
  destruct (flow_of _ _) as [flow|]; [|reflexivity].
  destruct (Flow.step flow); try reflexivity.
  destruct (default [] (Flow.proof flow)); [reflexivity|].
  destruct (Flow.amount flow); [|reflexivity].
  destruct (Flow.currency_or_card flow); reflexivity.
Qed.

Lemma dispatch_done u text entities s :
  body u = Text text entities -> is_command "done" text entities = true ->
  awaiting_text (from_id (from u)) s = false ->
  dispatch u s =
    command_done u text entities (ensure_session (from_id (from u)) s).
Proof.
  intros Hb Hd Ha.
  rewrite (dispatch_free_text _ _ _ _ Hb (done_free_text _ _ Hd)).
  rewrite (on_text_flow_next _ _ _ Ha). cbn [and_then].
  now apply command_done_stops.
Qed.

Lemma awaiting_proof_not_text uid s flow :
  flow_of uid s = Some flow -> Flow.step flow = await_proof ->
  awaiting_text uid s = false.
Proof. unfold awaiting_text. now intros -> ->. Qed.

Lemma handle_done_empty u text entities s flow :
  body u = Text text entities -> is_command "done" text entities = true ->
  flow_of (from_id (from u)) s = Some flow -> Flow.step flow = await_proof ->
  default [] (Flow.proof flow) = [] ->
  handle u s =
    (store_user u s,
     [reply "Please upload at least one proof image before sending /done." no_markup]).
Proof.
  intros Hb Hd Hflow Hstep Hproof. unfold handle.
  rewrite <- (store_user_flow u) in Hflow.
  rewrite (dispatch_done _ _ _ _ Hb Hd (awaiting_proof_not_text _ _ _ Hflow Hstep)).
  unfold command_done. rewrite Hd, ensure_session_idem.
  rewrite (ensure_session_known _ _ _ Hflow), Hflow, Hstep, Hproof.
  reflexivity.
Qed.

Lemma handle_done_created u text entities s flow file files amount currency_or_card :
  body u = Text text entities -> is_command "done" text entities = true ->
  flow_of (from_id (from u)) s = Some flow -> Flow.step flow = await_proof ->
  Flow.proof flow = Some (file :: files) ->
  Flow.amount flow = Some amount ->
  Flow.currency_or_card flow = Some currency_or_card ->
  fst (handle u s) =
    set_flow (from_id (from u)) None
      (fst (createTxStmt_run (from_id (from u)) (Flow.type flow) amount currency_or_card
              pending (file :: files) (now u) (store_user u s))).
Proof.
  intros Hb Hd Hflow Hstep Hproof Ham Hcur. unfold handle.
  rewrite <- (store_user_flow u) in Hflow.
  rewrite (dispatch_done _ _ _ _ Hb Hd (awaiting_proof_not_text _ _ _ Hflow Hstep)).
  unfold command_done. rewrite Hd, ensure_session_idem.
  rewrite (ensure_session_known _ _ _ Hflow), Hflow, Hstep, Hproof, Ham, Hcur.
  reflexivity.
Qed.

Lemma run_app us1 us2 s : run (app us1 us2) s = run us2 (run us1 s).
Proof. unfold run. apply fold_left_app. Qed.

Lemma run_cons u us s : run (u :: us) s = run us (fst (handle u s)).
Proof. reflexivity. Qed.

(** Photos sent while the flow awaits proof accumulate in [flow.proof]. *)
Lemma run_photos uid : forall ps s flow,
  Forall (fun u => is_photo u = true) ps ->
  Forall (fun u => from_id (from u) = uid) ps ->
  flow_of uid s = Some flow -> Flow.step flow = await_proof ->
  exists flow',
    flow_of uid (run ps s) = Some flow'
    /\ Flow.step flow' = await_proof
    /\ Flow.type flow' = Flow.type flow
    /\ Flow.amount flow' = Flow.amount flow
    /\ Flow.currency_or_card flow' = Flow.currency_or_card flow
    /\ (ps <> [] -> Flow.proof flow' =
          Some (app (default [] (Flow.proof flow)) (concat (map proof_of_photo ps))))
    /\ transactions (run ps s) = transactions s.
Proof.
  induction ps as [|p ps IH]; intros s flow Hph Hfrom Hflow Hstep.
  - exists flow. repeat split; auto. congruence.
  - inversion Hph as [|? ? Hp Hps]; subst. inversion Hfrom as [|? ? Hu Hus]; subst.
    unfold is_photo in Hp. destruct (body p) as [| photo larger | |] eqn:Hb; try discriminate.
    pose proof (handle_photo p photo larger s flow Hb Hflow Hstep) as Hh.
    rewrite run_cons, Hh. cbn [fst].
    destruct (IH _ _ Hps Hus
                (set_flow_same (from_id (from p))
                   (Some {| Flow.step := await_proof; Flow.type := Flow.type flow;
                            Flow.amount := Flow.amount flow;
                            Flow.currency_or_card := Flow.currency_or_card flow;
                            Flow.proof := Some (app (default [] (Flow.proof flow))
                                                    (proof_of_photo p)) |})
                   (store_user p s)) eq_refl)
      as (flow' & H1 & H2 & H3 & H4 & H5 & H6 & H7).
    exists flow'. repeat split; auto.
    + intros _. destruct ps as [|q qs].
      * simpl in H1. rewrite set_flow_same in H1. injection H1 as <-. simpl.
        now rewrite app_nil_r.
      * rewrite H6 by discriminate. cbn [Flow.proof default map concat].
        unfold id. now rewrite <- app_assoc.
    + rewrite H7. cbn [set_flow transactions set_sessions].
      apply store_user_transactions.
Qed.

Lemma proof_of_photo_not_empty u : is_photo u = true -> proof_of_photo u <> [].
Proof.
  unfold is_photo, proof_of_photo. destruct (body u); discriminate.
Qed.

(** ** Table [transactions] *)

Lemma latestApproved_fold (P : Tx.t -> Prop) uid : forall txs best,
  (forall r, In r txs -> Tx.user_id r = uid -> Tx.status r = approved -> P r) ->
  (forall b, best = Some b -> P b) ->
  forall latest,
    fold_left
      (fun best r =>
         if (Tx.user_id r =? uid) && Status_eqb (Tx.status r) approved then
           match best with
           | Some b => if Tx.id b <? Tx.id r then Some r else best
           | None => Some r
           end
         else best) txs best = Some latest ->
    P latest.
Proof.
  induction txs as [|r txs IH]; intros best Hin Hbest latest; simpl.
  - apply Hbest.
  - apply IH.
    + intros r' Hr'. apply Hin. now right.
    + assert (Hr : Tx.user_id r = uid -> Tx.status r = approved -> P r)
        by (apply Hin; now left).
      destruct (Tx.user_id r =? uid) eqn:E1; simpl; [|exact Hbest].
      destruct (Tx.status r) eqn:E2; simpl; try exact Hbest.
      apply Z.eqb_eq in E1.
      destruct best as [b|].
      * destruct (Tx.id b <? Tx.id r); [|exact Hbest].
        intros b' Hb'. injection Hb' as <-. auto.
      * intros b' Hb'. injection Hb' as <-. auto.
Qed.

Lemma latestApproved_spec uid s latest :
  latestApproved_get uid s = Some latest ->
  In latest (transactions s) /\ Tx.user_id latest = uid /\ Tx.status latest = approved.
Proof.
  unfold latestApproved_get.
  apply (latestApproved_fold
           (fun r => In r (transactions s) /\ Tx.user_id r = uid /\ Tx.status r = approved)).
  - auto.
  - discriminate.
Qed.

Lemma find_id_In id : forall txs row,
  In row txs -> Tx.id row = id -> is_Some (find (fun r => Tx.id r =? id) txs).
Proof.
  induction txs as [|r txs IH]; intros row Hin Hid; simpl; [contradiction|].
  destruct (Tx.id r =? id) eqn:E; [eauto|].
  destruct Hin as [->|Hin]; [|eauto].
  apply Z.eqb_neq in E. contradiction.
Qed.

Lemma find_id_unique id : forall txs row,
  List.NoDup (map Tx.id txs) -> In row txs -> Tx.id row = id ->
  find (fun r => Tx.id r =? id) txs = Some row.
Proof.
  induction txs as [|r txs IH]; intros row Hnd Hin Hid; simpl; [contradiction|].
  inversion Hnd as [|? ? Hnotin Hnd']; subst.
  destruct Hin as [->|Hin].
  - now rewrite Z.eqb_refl.
  - destruct (Tx.id r =? Tx.id row) eqn:E; [|eauto].
    apply Z.eqb_eq in E. exfalso. apply Hnotin. rewrite E.
    apply List.in_map. exact Hin.
Qed.

Lemma find_id_update id id' st note : forall txs,
  find (fun r => Tx.id r =? id')
    (map (fun r => if Tx.id r =? id then with_status st note r else r) txs)
  = match find (fun r => Tx.id r =? id') txs with
    | Some r => Some (if Tx.id r =? id then with_status st note r else r)
    | None => None
    end.
Proof.
  induction txs as [|r txs IH]; simpl; auto.
  destruct (Tx.id r =? id) eqn:E; simpl;
    destruct (Tx.id r =? id') eqn:E'; simpl; rewrite ?E; auto.
Qed.

Lemma status_update id id' st note s :
  status_of id' (updateTxStatusStmt_run id st note s)
  = match status_of id' s with
    | Some old => Some (if id' =? id then st else old)
    | None => None
    end.
Proof.
  unfold status_of, getTxByIdStmt_get, updateTxStatusStmt_run. simpl.
  rewrite find_id_update.
  destruct (find (fun r => Tx.id r =? id') (transactions s)) as [r|] eqn:E; simpl; auto.
  apply find_some in E as [_ E]. apply Z.eqb_eq in E. rewrite E.
  now destruct (id' =? id).
Qed.

Lemma update_ids id st note txs :
  map Tx.id (map (fun r => if Tx.id r =? id then with_status st note r else r) txs)
  = map Tx.id txs.
Proof.
  rewrite map_map. apply map_ext. intros r. now destruct (Tx.id r =? id).
Qed.

Lemma next_rowid_above txs row : In row txs -> Tx.id row < next_rowid txs.
Proof.
  unfold next_rowid. induction txs as [|r txs IH]; simpl; [contradiction|].
  intros [->|Hin]; [lia|]. specialize (IH Hin). lia.
Qed.

Lemma next_rowid_fresh txs : ~ In (next_rowid txs) (map Tx.id txs).
Proof.
  intros Hin. apply List.in_map_iff in Hin as (row & Hid & Hin).
  apply next_rowid_above in Hin. lia.
Qed.

Lemma find_id_app id txs row :
  find (fun r => Tx.id r =? id) (app txs [row])
  = match find (fun r => Tx.id r =? id) txs with
    | Some r => Some r
    | None => if Tx.id row =? id then Some row else None
    end.
Proof.
  induction txs as [|r txs IH]; simpl; auto.
  destruct (Tx.id r =? id); auto.
Qed.

Lemma find_id_fresh txs : find (fun r => Tx.id r =? next_rowid txs) txs = None.
Proof.
  destruct (find _ txs) as [r|] eqn:E; auto.
  apply find_some in E as [Hin E]. apply Z.eqb_eq in E.
  apply next_rowid_above in Hin. lia.
Qed.

(** ** What one update can change *)

Lemma same_data_refl s : same_data s s.
Proof. now split. Qed.

Lemma same_data_trans s1 s2 s3 : same_data s1 s2 -> same_data s2 s3 -> same_data s1 s3.
Proof. intros [H1 H2] [H3 H4]. split; congruence. Qed.

Lemma same_data_ensure_session uid s : same_data s (ensure_session uid s).
Proof. split; [apply ensure_session_users | apply ensure_session_transactions]. Qed.

Lemma same_data_set_flow uid f s : same_data s (set_flow uid f s).
Proof. now split. Qed.

Lemma tx_change_ext u s0 s s' :
  transactions s0 = transactions s -> tx_change u s0 s' -> tx_change u s s'.
Proof.
  intros Ht [H | row H1 H2 H3 H4 H5 | latest note H1 H2 | data a digits note H1 H2 H3 H4 H5].
  - apply tx_same. congruence.
  - apply (tx_created _ _ _ row); congruence.
  - apply (tx_completed _ _ _ latest note).
    + now rewrite <- (latestApproved_get_ext _ _ _ Ht).
    + rewrite H2. unfold updateTxStatusStmt_run. simpl. now rewrite Ht.
  - apply (tx_decided _ _ _ data a digits note); auto.
    + now rewrite <- (getTxByIdStmt_get_ext _ _ _ Ht).
    + rewrite H5. unfold updateTxStatusStmt_run. simpl. now rewrite Ht.
Qed.

Lemma details_change_ext u s0 s s' :
  (forall uid, saved_details uid s0 = saved_details uid s) ->
  details_change u s0 s' -> details_change u s s'.
Proof.
  intros Hs H uid. rewrite <- Hs. apply H.
Qed.

Lemma changes_ext u s0 s s' :
  transactions s0 = transactions s ->
  (forall uid, saved_details uid s0 = saved_details uid s) ->
  changes u s0 s' -> changes u s s'.
Proof.
  intros Ht Hs [H1 H2]. split;
    [eapply tx_change_ext | eapply details_change_ext]; eauto.
Qed.

Lemma same_data_changes u s s' : same_data s s' -> changes u s s'.
Proof.
  intros [Hu Ht]. split.
  - now apply tx_same.
  - intros uid. left. now apply saved_details_ext.
Qed.

Lemma changes_after_same_data u s s1 s' :
  same_data s s1 -> changes u s1 s' -> changes u s s'.
Proof.
  intros [Hu Ht]. apply changes_ext; auto.
  intros uid. now apply saved_details_ext.
Qed.

Lemma frame_outcome_ok u s o : same_data s (outcome_state o) -> outcome_ok u s o.
Proof. destruct o; simpl; auto. apply same_data_changes. Qed.

Lemma outcome_ok_after_same_data u s s1 o :
  same_data s s1 -> outcome_ok u s1 o -> outcome_ok u s o.
Proof.
  intros H. destruct o; simpl.
  - now apply changes_after_same_data.
  - now apply same_data_trans.
Qed.

Lemma outcome_ok_and_then u s o k :
  outcome_ok u s o -> (forall s1, outcome_ok u s1 (k s1)) ->
  outcome_ok u s (and_then o k).
Proof.
  destruct o as [s' out | s1]; simpl; auto.
  intros H Hk. now apply (outcome_ok_after_same_data u s s1).
Qed.

Lemma outcome_ok_finish u s o : outcome_ok u s o -> changes u s (fst (finish o)).
Proof. destruct o; simpl; auto. apply same_data_changes. Qed.

Lemma on_start_frame u text entities s :
  same_data s (outcome_state (on_start u text entities s)).
Proof. unfold on_start. destruct (is_command _ _ _); apply same_data_refl. Qed.

Lemma hears_my_account_frame u text s :
  same_data s (outcome_state (hears_my_account u text s)).
Proof.
  unfold hears_my_account. destruct (hears _ _); [|apply same_data_refl].
  destruct (getUserStmt_get _ _) as [[? ? ? [?|] ?]|]; apply same_data_refl.
Qed.

Lemma hears_sell_frame u text s :
  same_data s (outcome_state (hears_sell u text s)).
Proof.
  unfold hears_sell. destruct (_ || _); [|apply same_data_refl].
  cbn [outcome_state].
  eapply same_data_trans; [apply same_data_ensure_session | apply same_data_set_flow].
Qed.

Lemma on_text_flow_frame u text s :
  same_data s (outcome_state (on_text_flow u text s)).
Proof.
  unfold on_text_flow.
  destruct (flow_of _ _) as [flow|]; [|apply same_data_ensure_session].
  destruct (Flow.step flow); cbn [outcome_state];
    try (eapply same_data_trans; [apply same_data_ensure_session | apply same_data_set_flow]);
    try apply same_data_ensure_session.
  destruct (_ =? _); apply same_data_ensure_session.
Qed.

Lemma on_photo_frame u photo larger s :
  same_data s (outcome_state (on_photo u photo larger s)).
Proof.
  unfold on_photo.
  destruct (flow_of _ _) as [flow|]; [|apply same_data_ensure_session].
  destruct (Flow.step flow); cbn [outcome_state];
    first [ apply same_data_ensure_session
          | eapply same_data_trans;
            [apply same_data_ensure_session | apply same_data_set_flow] ].
Qed.

Lemma command_broadcast_frame u text entities s :
  same_data s (outcome_state (command_broadcast u text entities s)).
Proof.
  unfold command_broadcast. destruct (is_command _ _ _); [|apply same_data_refl].
  destruct (negb _); [apply same_data_refl|].
  destruct (negb _); apply same_data_refl.
Qed.

Lemma command_help_frame text entities s :
  same_data s (outcome_state (command_help text entities s)).
Proof. unfold command_help. destruct (is_command _ _ _); apply same_data_refl. Qed.

Lemma command_done_ok u text entities s :
  outcome_ok u s (command_done u text entities s).
Proof.
  unfold command_done. destruct (is_command _ _ _); [|apply same_data_refl].
  pose proof (same_data_ensure_session (from_id (from u)) s) as Hs.
  set (s1 := ensure_session (from_id (from u)) s) in *.
  destruct (flow_of _ s1) as [flow|]; [|now apply same_data_changes].
  destruct (Flow.step flow); try now apply same_data_changes.
  destruct (default [] (Flow.proof flow)) as [|file files] eqn:Hp;
    [now apply same_data_changes|].
  destruct (Flow.amount flow) as [amount|]; [|now apply same_data_changes].
  destruct (Flow.currency_or_card flow) as [cur|]; [|now apply same_data_changes].
  cbn [createTxStmt_run outcome_ok].
  apply (changes_after_same_data u s s1 _ Hs). split.
  - eapply tx_created; cbn; try reflexivity. discriminate.
  - intros uid. left. reflexivity.
Qed.

Lemma on_text_reply_ok u text entities s :
  body u = Text text entities -> outcome_ok u s (on_text_reply u text s).
Proof.
  intros Hb. unfold on_text_reply.
  destruct (latestApproved_get _ _) as [latest|] eqn:Hl; [|apply same_data_refl].
  destruct (_ && _).
  { split.
    - now apply (tx_completed _ _ _ latest
                   (Js.cat ["User confirmed saved details at "; now u])).
    - intros uid. left. reflexivity. }
  destruct (Js.includes _ _); [|apply same_data_refl].
  destruct (Object.keys (parse_details (Js.trim text))) as [|k ks] eqn:Hk;
    [apply same_data_changes, same_data_refl|].
  split.
  - now apply (tx_completed _ _ _ latest
                 (Js.cat ["User provided details at "; now u])).
  - intros uid.
    destruct (upsert_saved (from_id (from u)) uid (parse_details (Js.trim text)) s)
      as [H | [H1 H2]].
    + left. exact H.
    + right. split; [exact H1|]. exists text, entities. repeat split; auto.
      rewrite Hk. discriminate.
Qed.

Lemma on_action_ok u data s :
  body u = Callback data -> outcome_ok u s (on_action u data s).
Proof.
  intros Hb. unfold on_action.
  destruct (match_action data) as [[a digits]|] eqn:Hm; [|apply same_data_refl].
  destruct (from_id (from u) =? ADMIN_CHAT_ID) eqn:Ha;
    [|apply same_data_changes, same_data_refl].
  apply Z.eqb_eq in Ha. cbn [negb].
  destruct (getTxByIdStmt_get _ _) as [txRow|] eqn:Hg;
    [|apply same_data_changes, same_data_refl].
  destruct a; (split; [|intros uid; left; reflexivity]).
  - eapply (tx_decided _ _ _ data approve digits); eauto; reflexivity.
  - eapply (tx_decided _ _ _ data reject digits); eauto; reflexivity.
Qed.

Lemma dispatch_ok u s : outcome_ok u s (dispatch u s).
Proof.
  unfold dispatch. destruct (body u) as [text entities | photo larger | data |] eqn:Hb.
  - apply outcome_ok_and_then; [apply frame_outcome_ok, on_start_frame|]. intros s1.
    apply outcome_ok_and_then; [apply frame_outcome_ok, hears_my_account_frame|]. intros s2.
    apply outcome_ok_and_then; [apply frame_outcome_ok, hears_sell_frame|]. intros s3.
    apply outcome_ok_and_then; [apply frame_outcome_ok, on_text_flow_frame|]. intros s4.
    apply outcome_ok_and_then; [apply command_done_ok|]. intros s5.
    apply outcome_ok_and_then; [now apply (on_text_reply_ok u text entities)|]. intros s6.
    apply outcome_ok_and_then; [apply frame_outcome_ok, command_broadcast_frame|]. intros s7.
    apply frame_outcome_ok, command_help_frame.
  - apply frame_outcome_ok, on_photo_frame.
  - now apply on_action_ok.
  - apply same_data_refl.
Qed.

(** Every update changes the tables in one of the listed ways only. *)
Lemma handle_changes u s : changes u s (fst (handle u s)).
Proof.
  unfold handle.
  apply (changes_ext u (store_user u s)).
  - apply store_user_transactions.
  - intros uid. apply store_user_saved.
  - apply outcome_ok_finish, dispatch_ok.
Qed.

(** ** Status steps *)

Lemma handle_unique_ids u s : unique_ids s -> unique_ids (fst (handle u s)).
Proof.
  unfold unique_ids. intros Hnd.
  destruct (handle_changes u s) as [[H | row H1 H2 _ _ _ | latest note _ H | data a digits note _ _ _ _ H] _];
    rewrite ?H, ?H1.
  - exact Hnd.
  - rewrite map_app. simpl. apply NoDup_app_remove_l with (l := []). simpl.
    apply List.NoDup_rev in Hnd. rewrite <- (rev_involutive (map Tx.id (transactions s) ++ [Tx.id row])).
    apply List.NoDup_rev. rewrite rev_app_distr. simpl. constructor; auto.
    rewrite <- in_rev, H2. apply next_rowid_fresh.
  - unfold updateTxStatusStmt_run. simpl. now rewrite update_ids.
  - unfold updateTxStatusStmt_run. simpl. now rewrite update_ids.
Qed.

Lemma status_of_unique s row :
  unique_ids s -> In row (transactions s) ->
  status_of (Tx.id row) s = Some (Tx.status row).
Proof.
  intros Hnd Hin. unfold status_of, getTxByIdStmt_get.
  now rewrite (find_id_unique (Tx.id row) _ row Hnd Hin eq_refl).
Qed.

Lemma handle_status_step u s id :
  unique_ids s -> decision_in_order id u s = true ->
  status_step (status_of id s) (status_of id (fst (handle u s))).
Proof.
  intros Hnd Hguard. unfold status_step.
  destruct (handle_changes u s) as [[H | row H1 H2 H3 _ _ | latest note Hl H | data a digits note Hb Hm Ha Hg H] _].
  - left. now apply status_of_ext.
  - unfold status_of, getTxByIdStmt_get. rewrite H1, find_id_app.
    destruct (find (fun r => Tx.id r =? id) (transactions s)) as [r|] eqn:E; simpl; auto.
    destruct (Tx.id row =? id); simpl; auto. right. left. now rewrite H3.
  - rewrite (status_of_ext _ _ _ H), status_update.
    destruct (status_of id s) as [old|] eqn:E; auto.
    destruct (id =? Tx.id latest) eqn:Eid; auto.
    apply Z.eqb_eq in Eid. subst id.
    apply latestApproved_spec in Hl as (Hin & _ & Hst).
    rewrite (status_of_unique _ _ Hnd Hin), Hst in E. injection E as <-.
    right. right. right. auto.
  - rewrite (status_of_ext _ _ _ H), status_update.
    destruct (status_of id s) as [old|] eqn:E; auto.
    destruct (id =? Js.parseInt digits) eqn:Eid; auto.
    apply Z.eqb_eq in Eid. subst id.
    unfold decision_in_order in Hguard.
    rewrite Hb, Hm, Ha, !Z.eqb_refl, E in Hguard. cbn [andb] in Hguard.
    destruct old, a; try discriminate Hguard; cbn [status_of_action];
      first [ now left | right; right; left; split; auto ].
Qed.

Lemma compress_step o o' l :
  status_step o o' ->
  In (compress (omap id (o' :: l))) (paths_from o') ->
  In (compress (omap id (o :: o' :: l))) (paths_from o).
Proof.
  intros [-> | [[-> ->] | [[-> [-> | ->]] | [-> ->]]]].
  - destruct o as [st|]; [|auto].
    change (omap id (Some st :: Some st :: l)) with (st :: st :: omap id l).
    change (omap id (Some st :: l)) with (st :: omap id l).
    cbn [compress]. now destruct st.
  - change (omap id (None :: Some pending :: l)) with (pending :: omap id l).
    change (omap id (Some pending :: l)) with (pending :: omap id l).
    cbn [paths_from]. intros H. now right.
  - change (omap id (Some pending :: Some approved :: l))
      with (pending :: approved :: omap id l).
    change (omap id (Some approved :: l)) with (approved :: omap id l).
    cbn [compress Status_eqb paths_from]. intros [<- | [<- | []]]; simpl; auto.
  - change (omap id (Some pending :: Some rejected :: l))
      with (pending :: rejected :: omap id l).
    change (omap id (Some rejected :: l)) with (rejected :: omap id l).
    cbn [compress Status_eqb paths_from]. intros [<- | []]; simpl; auto.
  - change (omap id (Some approved :: Some completed :: l))
      with (approved :: completed :: omap id l).
    change (omap id (Some completed :: l)) with (completed :: omap id l).
    cbn [compress Status_eqb paths_from]. intros [<- | []]; simpl; auto.
Qed.

Lemma history_from txId : forall us s,
  unique_ids s -> decisions_in_order txId us s = true ->
  In (compress (omap id (status_of txId s :: map (status_of txId) (trace us s))))
     (paths_from (status_of txId s)).
Proof.
  induction us as [|u us IH]; intros s Hnd Hg.
  - simpl. destruct (status_of txId s) as [[]|]; simpl; auto.
  - simpl in Hg. apply andb_true_iff in Hg as [Hg1 Hg2].
    cbn [trace map]. apply compress_step.
    + now apply handle_status_step.
    + apply IH; auto. now apply handle_unique_ids.
Qed.

Lemma omap_status txId ss :
  omap (status_of txId) ss = omap id (map (status_of txId) ss).
Proof.
  induction ss as [|s ss IH]; [reflexivity|]. simpl.
  destruct (status_of txId s); simpl; [f_equal|]; apply IH.
Qed.

Lemma paths_lifecycle h : In h (paths_from None) -> lifecycle h.
Proof.
  unfold lifecycle. simpl.
  intros [<- | [<- | [<- | [<- | [<- | []]]]]];
    first [ left; eexists; reflexivity | right; eexists; reflexivity ].
Qed.

(** ** The details parser *)

Lemma indexOf_colon_cons c r :
  Js.indexOf ":" (String c r) =
    if Ascii.eqb c ":"%char then 0
    else if Js.indexOf ":" r <? 0 then -1 else Js.indexOf ":" r + 1.
Proof.
  cbn [Js.indexOf Js.startsWith]. rewrite andb_true_r. reflexivity.
Qed.

Lemma split_first_colon_indexOf line :
  match split_first_colon line with
  | Some (k, v) =>
      0 <= Js.indexOf ":" line
      /\ k = Js.slice line 0 (Js.indexOf ":" line)
      /\ v = Js.slice_from line (Js.indexOf ":" line + 1)
  | None => Js.indexOf ":" line = -1
  end.
Proof.
  induction line as [|c r IH]; [reflexivity|].
  rewrite indexOf_colon_cons. cbn [split_first_colon].
  destruct (Ascii.eqb c ":"%char); [repeat split; lia|].
  destruct (split_first_colon r) as [[k v]|].
  - destruct IH as (Hi & -> & ->).
    destruct (Js.indexOf ":" r <? 0) eqn:E; [apply Z.ltb_lt in E; lia|].
    unfold Js.slice, Js.slice_from.
    replace (Z.to_nat (Js.indexOf ":" r + 1 + 1)) with (S (Z.to_nat (Js.indexOf ":" r + 1))) by lia.
    replace (Z.to_nat (Js.indexOf ":" r + 1) - Z.to_nat 0)%nat
      with (S (Z.to_nat (Js.indexOf ":" r) - Z.to_nat 0)) by lia.
    repeat split; first [lia | reflexivity].
  - rewrite IH. reflexivity.
Qed.

Lemma trim_empty : Js.trim EmptyString = EmptyString.
Proof. reflexivity. Qed.

(** The loop of the handler and the description of the specification agree
    line by line. *)
Lemma parse_lines_agree : forall lines obj,
  fold_left
    (fun obj line =>
       let idx := Js.indexOf ":" line in
       if 0 <? idx then
         let k := Js.trim (Js.slice line 0 idx) in
         let v := Js.trim (Js.slice_from line (idx + 1)) in
         if Js.truthy k then Object.set k v obj else obj
       else obj)
    (List.filter Js.truthy (map Js.trim lines)) obj
  = fold_left (fun obj kv => Object.set (fst kv) (snd kv) obj)
      (omap pair_of_line lines) obj.
Proof.
  induction lines as [|line lines IH]; intros obj; [reflexivity|].
  cbn [map List.filter].
  change (omap pair_of_line (line :: lines))
    with (match pair_of_line line with
          | Some kv => kv :: omap pair_of_line lines
          | None => omap pair_of_line lines
          end).
  unfold pair_of_line at 1.
  pose proof (split_first_colon_indexOf (Js.trim line)) as Hs.
  destruct (Js.truthy (Js.trim line)) eqn:Ht.
  - cbn [fold_left]. rewrite IH. cbv zeta.
    destruct (split_first_colon (Js.trim line)) as [[k v]|].
    + destruct Hs as (Hi & -> & ->).
      destruct (0 <? Js.indexOf ":" (Js.trim line)) eqn:E.
      * destruct (Js.truthy (Js.trim (Js.slice _ _ _))); reflexivity.
      * apply Z.ltb_ge in E.
        replace (Js.indexOf ":" (Js.trim line)) with 0 by lia.
        reflexivity.
    + rewrite Hs. reflexivity.
  - destruct (Js.trim line); [|discriminate]. cbn [split_first_colon]. apply IH.
Qed.

Lemma update_keys_ok k v o :
  k <> EmptyString ->
  Forall (fun e => fst e <> EmptyString) o ->
  Forall (fun e => fst e <> EmptyString) (Object.update k v o).
Proof.
  intros Hk Ho. unfold Object.update. apply Forall_map.
  eapply Forall_impl; [exact Ho|]. intros e He. simpl.
  now destruct (String.eqb (fst e) k).
Qed.

Lemma add_keys_ok k v o :
  k <> EmptyString ->
  Forall (fun e => fst e <> EmptyString) o ->
  Forall (fun e => fst e <> EmptyString) (Object.add k v o).
Proof.
  intros Hk. induction o as [|[k' v'] o IH]; intros Ho; simpl.
  - constructor; auto.
  - inversion Ho; subst. destruct (_ && _); constructor; auto.
Qed.

Lemma set_keys_ok k v o :
  k <> EmptyString ->
  Forall (fun e => fst e <> EmptyString) o ->
  Forall (fun e => fst e <> EmptyString) (Object.set k v o).
Proof.
  intros Hk Ho. unfold Object.set.
  destruct (String.eqb k "__proto__"); auto.
  destruct (Object.has k o); [now apply update_keys_ok | now apply add_keys_ok].
Qed.

Lemma truthy_not_empty k : Js.truthy k = true -> k <> EmptyString.
Proof. now destruct k. Qed.

Lemma parse_details_keys_ok text :
  Forall (fun e => fst e <> EmptyString) (parse_details text).
Proof.
  unfold parse_details.
  generalize (List.filter Js.truthy (map Js.trim (Js.split_lines text))).
  assert (Forall (fun e : string * string => fst e <> EmptyString) []) as H0 by constructor.
  revert H0. generalize (@nil (string * string)) as obj.
  intros obj H0 lines. revert obj H0.
  induction lines as [|line lines IH]; intros obj H0; simpl; auto.
  apply IH.
  destruct (0 <? _); auto.
  destruct (Js.truthy _) eqn:Hk; auto.
  apply set_keys_ok; auto. now apply truthy_not_empty.
Qed.

Lemma keys_not_empty (o : Obj) : Object.keys o <> [] -> o <> [].
Proof. now destruct o. Qed.

(** ** The second text handler *)

Lemma dispatch_reply u text entities s :
  body u = Text text entities -> free_text text entities = true ->
  awaiting_text (from_id (from u)) s = false ->
  is_command "done" text entities = false ->
  dispatch u s =
    and_then (on_text_reply u text (ensure_session (from_id (from u)) s)) (fun s =>
    and_then (command_broadcast u text entities s) (fun s =>
    command_help text entities s)).
Proof.
  intros Hb Hf Ha Hd. rewrite (dispatch_free_text _ _ _ _ Hb Hf).
  rewrite (on_text_flow_next _ _ _ Ha). cbn [and_then].
  rewrite (command_done_next _ _ _ _ Hd). reflexivity.
Qed.

Lemma on_text_reply_confirm u text s latest details :
  latestApproved_get (from_id (from u)) s = Some latest ->
  Js.toUpperCase (Js.trim text) = "CONFIRM" ->
  saved_details (from_id (from u)) s = Some details ->
  exists out,
    on_text_reply u text s =
      Stop (updateTxStatusStmt_run (Tx.id latest) completed
              (Js.cat ["User confirmed saved details at "; now u]) s) out.
Proof.
  intros Hl Hc Hs. unfold on_text_reply. rewrite Hl, Hc, Hs. cbn [String.eqb].
  eexists. reflexivity.
Qed.

Lemma on_text_reply_details u text s latest :
  latestApproved_get (from_id (from u)) s = Some latest ->
  Js.includes ":" (Js.trim text) = true ->
  Object.keys (parse_details (Js.trim text)) <> [] ->
  exists out,
    on_text_reply u text s =
      Stop (updateTxStatusStmt_run (Tx.id latest) completed
              (Js.cat ["User provided details at "; now u])
              (upsertAccountStmt_run (from_id (from u)) (parse_details (Js.trim text)) s))
           out.
Proof.
  intros Hl Hc Hk. unfold on_text_reply.
  rewrite Hl, (colon_not_confirm _ Hc), Hc. cbn [andb].
  destruct (Object.keys (parse_details (Js.trim text))); [congruence|].
  eexists. reflexivity.
Qed.

Lemma on_text_reply_retry u text s latest :
  latestApproved_get (from_id (from u)) s = Some latest ->
  Js.includes ":" (Js.trim text) = true ->
  Object.keys (parse_details (Js.trim text)) = [] ->
  on_text_reply u text s =
    Stop s [reply "Could not parse account details. Use format key:value each on its own line."
              no_markup].
Proof.
  intros Hl Hc Hk. unfold on_text_reply.
  rewrite Hl, (colon_not_confirm _ Hc), Hc, Hk. reflexivity.
Qed.

Lemma on_text_reply_next u text s :
  latestApproved_get (from_id (from u)) s = None
  \/ (String.eqb (Js.toUpperCase (Js.trim text)) "CONFIRM"
      && saved_truthy (saved_details (from_id (from u)) s) = false
      /\ Js.includes ":" (Js.trim text) = false) ->
  on_text_reply u text s = Next s.
Proof.
  unfold on_text_reply. intros [-> | [-> ->]]; [reflexivity|].
  now destruct (latestApproved_get _ _).
Qed.

Lemma status_completed id note s row :
  In row (transactions s) -> Tx.id row = id ->
  status_of id (updateTxStatusStmt_run id completed note s) = Some completed.
Proof.
  intros Hin Hid. rewrite status_update.
  destruct (find_id_In id _ row Hin Hid) as [r Hr].
  unfold status_of, getTxByIdStmt_get. rewrite Hr. simpl. now rewrite Z.eqb_refl.
Qed.

Lemma free_text_intro text entities :
  is_command "start" text entities = false ->
  hears "My Account" text = false ->
  hears "Sell Crypto" text = false -> hears "Sell Giftcard" text = false ->
  free_text text entities = true.
Proof. unfold free_text. now intros -> -> -> ->. Qed.

Lemma saved_row uid s details :
  saved_details uid s = Some details -> is_Some (users s !! uid).
Proof.
  unfold saved_details, getUserStmt_get. destruct (users s !! uid); [eauto|discriminate].
Qed.

Lemma awaiting_text_store_user u uid s :
  awaiting_text uid (store_user u s) = awaiting_text uid s.
Proof. unfold awaiting_text. now rewrite store_user_flow. Qed.

(** ** Stored account details along a run *)

Lemma handle_details_ok u s :
  (forall uid details, saved_details uid s = Some details -> details_ok details) ->
  forall uid details,
    saved_details uid (fst (handle u s)) = Some details -> details_ok details.
Proof.
  intros Hinv uid details Hd.
  destruct (handle_changes u s) as [_ Hc].
  destruct (Hc uid) as [H | (_ & text & entities & _ & H & Hk)].
  - apply (Hinv uid). congruence.
  - rewrite H in Hd. injection Hd as <-. split.
    + now apply keys_not_empty.
    + apply parse_details_keys_ok.
Qed.

Lemma run_details_ok : forall us s,
  (forall uid details, saved_details uid s = Some details -> details_ok details) ->
  forall uid details,
    saved_details uid (run us s) = Some details -> details_ok details.
Proof.
  induction us as [|u us IH]; intros s Hinv; [exact Hinv|].
  rewrite run_cons. apply IH. now apply handle_details_ok.
Qed.

Lemma init_no_details uid : saved_details uid init = None.
Proof. reflexivity. Qed.

(** ** Objects and parsed details *)

Lemma has_In k o : Object.has k o = true <-> In k (Object.keys o).
Proof.
  unfold Object.has, Object.keys. rewrite existsb_exists, List.in_map_iff. split.
  - intros (e & He & Hk). apply String.eqb_eq in Hk. eauto.
  - intros (e & Hk & He). exists e. split; auto. now apply String.eqb_eq.
Qed.

Lemma update_keys k v o : Object.keys (Object.update k v o) = Object.keys o.
Proof.
  unfold Object.keys, Object.update. rewrite map_map. apply map_ext_in.
  intros e _. destruct (String.eqb (fst e) k) eqn:E; auto.
  apply String.eqb_eq in E. now rewrite E.
Qed.

Lemma add_keys_In k v o x :
  In x (Object.keys (Object.add k v o)) <-> x = k \/ In x (Object.keys o).
Proof.
  induction o as [|[k' v'] o IH]; simpl.
  - intuition.
  - destruct (_ && _); simpl; [intuition|]. rewrite IH. intuition.
Qed.

Lemma add_keys_NoDup k v o :
  ~ In k (Object.keys o) -> List.NoDup (Object.keys o) ->
  List.NoDup (Object.keys (Object.add k v o)).
Proof.
  induction o as [|[k' v'] o IH]; simpl; intros Hk Hnd.
  - constructor; [auto | constructor].
  - inversion Hnd as [|? ? Hk' Hnd']; subst.
    destruct (_ && _); simpl.
    + constructor; auto.
    + constructor; [|apply IH; auto].
      rewrite add_keys_In. intuition.
Qed.

Lemma set_keys_NoDup k v o :
  List.NoDup (Object.keys o) -> List.NoDup (Object.keys (Object.set k v o)).
Proof.
  intros Hnd. unfold Object.set.
  destruct (String.eqb k "__proto__"); auto.
  destruct (Object.has k o) eqn:E.
  - now rewrite update_keys.
  - apply add_keys_NoDup; auto. rewrite <- has_In, E. discriminate.
Qed.

Lemma set_keys_In k v o x :
  In x (Object.keys (Object.set k v o)) ->
  In x (Object.keys o) \/ (x = k /\ k <> "__proto__").
Proof.
  unfold Object.set. destruct (String.eqb k "__proto__") eqn:Ep; [auto|].
  apply String.eqb_neq in Ep.
  destruct (Object.has k o).
  - rewrite update_keys. auto.
  - rewrite add_keys_In. intuition.
Qed.

Lemma get_update_same k v o :
  Object.has k o = true -> Object.get k (Object.update k v o) = Some v.
Proof.
  induction o as [|[k' v'] o IH]; simpl; [discriminate|].
  destruct (String.eqb k' k) eqn:E; simpl.
  - now rewrite String.eqb_refl.
  - rewrite E. exact IH.
Qed.

Lemma get_update_other k k' v o :
  k' <> k -> Object.get k' (Object.update k v o) = Object.get k' o.
Proof.
  intros Hne. induction o as [|[k0 v0] o IH]; simpl; auto.
  destruct (String.eqb k0 k) eqn:E; simpl.
  - apply String.eqb_eq in E. subst k0.
    apply not_eq_sym, String.eqb_neq in Hne. rewrite Hne. exact IH.
  - destruct (String.eqb k0 k'); auto.
Qed.

Lemma get_add_same k v o :
  Object.has k o = false -> Object.get k (Object.add k v o) = Some v.
Proof.
  induction o as [|[k' v'] o IH]; simpl; intros Hh.
  - now rewrite String.eqb_refl.
  - apply orb_false_iff in Hh as [Hk Hh].
    destruct (_ && _); simpl.
    + now rewrite String.eqb_refl.
    + rewrite Hk. auto.
Qed.

Lemma get_add_other k k' v o :
  k' <> k -> Object.get k' (Object.add k v o) = Object.get k' o.
Proof.
  intros Hne. apply not_eq_sym, String.eqb_neq in Hne.
  induction o as [|[k0 v0] o IH]; simpl.
  - now rewrite Hne.
  - destruct (_ && _); simpl.
    + now rewrite Hne.
    + destruct (String.eqb k0 k'); auto.
Qed.

Lemma set_entries P k v o :
  P (k, v) -> Forall P o -> Forall P (Object.set k v o).
Proof.
  intros Hkv Ho. unfold Object.set.
  destruct (String.eqb k "__proto__"); auto.
  destruct (Object.has k o).
  - unfold Object.update. apply Forall_map.
    eapply Forall_impl; [exact Ho|]. intros e He. simpl.
    now destruct (String.eqb (fst e) k).
  - clear -Hkv Ho. induction o as [|[k' v'] o IH]; simpl.
    + constructor; auto.
    + inversion Ho; subst. destruct (_ && _); constructor; auto.
Qed.

(** A property of every pair the loop assigns holds of every entry of the
    parsed object. *)
Lemma parse_details_entries (P : string * string -> Prop) text :
  (forall line,
     In line (map Js.trim (Js.split_lines text)) ->
     0 < Js.indexOf ":" line ->
     Js.truthy (Js.trim (Js.slice line 0 (Js.indexOf ":" line))) = true ->
     P (Js.trim (Js.slice line 0 (Js.indexOf ":" line)),
        Js.trim (Js.slice_from line (Js.indexOf ":" line + 1)))) ->
  Forall P (parse_details text).
Proof.
  unfold parse_details. intros HP.
  assert (Hl : forall line,
            In line (List.filter Js.truthy (map Js.trim (Js.split_lines text))) ->
            In line (map Js.trim (Js.split_lines text))).
  { intros line Hin. now apply List.filter_In in Hin. }
  revert Hl. generalize (List.filter Js.truthy (map Js.trim (Js.split_lines text))).
  intros lines. assert (H0 : Forall P []) by constructor. revert H0.
  generalize (@nil (string * string)).
  induction lines as [|line lines IH]; intros obj H0 Hl; simpl; auto.
  apply IH; [|intros l Hin; apply Hl; now right].
  destruct (0 <? Js.indexOf ":" line) eqn:E; auto.
  destruct (Js.truthy _) eqn:Hk; auto.
  apply set_entries; auto. apply HP; auto.
  - apply Hl. now left.
  - now apply Z.ltb_lt.
Qed.

Lemma parse_details_keys_NoDup text : List.NoDup (Object.keys (parse_details text)).
Proof.
  unfold parse_details.
  generalize (List.filter Js.truthy (map Js.trim (Js.split_lines text))).
  intros lines. assert (H0 : List.NoDup (Object.keys [])) by constructor. revert H0.
  generalize (@nil (string * string)).
  induction lines as [|line lines IH]; intros obj H0; simpl; auto.
  apply IH. destruct (0 <? _); auto. destruct (Js.truthy _); auto.
  now apply set_keys_NoDup.
Qed.

Lemma parse_details_no_proto text : ~ In "__proto__" (Object.keys (parse_details text)).
Proof.
  unfold parse_details.
  generalize (List.filter Js.truthy (map Js.trim (Js.split_lines text))).
  intros lines. assert (H0 : ~ In "__proto__" (Object.keys [])) by (simpl; auto).
  revert H0. generalize (@nil (string * string)).
  induction lines as [|line lines IH]; intros obj H0; simpl; auto.
  apply IH. destruct (0 <? _); auto. destruct (Js.truthy _); auto.
  intros Hin. apply set_keys_In in Hin as [Hin | [Hk Hp]]; auto.
Qed.


(** ** The parser of the specification *)

Lemma trimStart_drop_spaces s :
  list_ascii_of_string (Js.trimStart s) = drop_spaces (list_ascii_of_string s).
Proof.
  induction s as [|c r IH]; [reflexivity|].
  cbn [Js.trimStart list_ascii_of_string drop_spaces].
  destruct (Js.is_space c); [exact IH | reflexivity].
Qed.

Lemma drop_spaces_snoc l c :
  drop_spaces (app l [c])
  = match drop_spaces l with
    | [] => if Js.is_space c then [] else [c]
    | d :: r => app (d :: r) [c]
    end.
Proof.
  induction l as [|a l IH]; [reflexivity|].
  cbn [app drop_spaces]. destruct (Js.is_space a); [exact IH | reflexivity].
Qed.

Lemma trimEnd_rev s :
  list_ascii_of_string (Js.trimEnd s)
  = rev (drop_spaces (rev (list_ascii_of_string s))).
Proof.
  induction s as [|c r IH]; [reflexivity|].
  cbn [list_ascii_of_string rev]. rewrite drop_spaces_snoc.
  change (Js.trimEnd (String c r))
    with (match Js.trimEnd r with
          | EmptyString => if Js.is_space c then EmptyString else String c EmptyString
          | String d r' => String c (String d r')
          end).
  destruct (drop_spaces (rev (list_ascii_of_string r))) as [|d l] eqn:E.
  - destruct (Js.trimEnd r); [|discriminate IH].
    now destruct (Js.is_space c).
  - rewrite rev_app_distr. cbn [rev app] in *.
    destruct (Js.trimEnd r) as [|e r'].
    + exfalso. destruct (rev l); discriminate IH.
    + cbn [list_ascii_of_string] in *. now rewrite IH.
Qed.

Lemma trim_spec_trim s : Js.trim s = spec_trim s.
Proof.
  unfold spec_trim, Js.trim.
  rewrite <- trimStart_drop_spaces, <- trimEnd_rev.
  now rewrite string_of_list_ascii_of_string.
Qed.

Lemma pair_of_line_spec line : pair_of_line line = spec_pair_of_line line.
Proof.
  unfold pair_of_line, spec_pair_of_line. rewrite <- trim_spec_trim.
  destruct (split_first_colon (Js.trim line)) as [[k v]|]; [|reflexivity].
  rewrite <- !trim_spec_trim. now destruct (Js.trim k).
Qed.

Lemma omap_pair_of_line (lines : list string) :
  omap pair_of_line lines = omap spec_pair_of_line lines.
Proof.
  induction lines as [|l lines IH]; [reflexivity|].
  cbn [omap list_omap]. rewrite pair_of_line_spec.
  destruct (spec_pair_of_line l); [f_equal|]; exact IH.
Qed.

Lemma get_In k v o :
  List.NoDup (Object.keys o) -> (In (k, v) o <-> Object.get k o = Some v).
Proof.
  induction o as [|[k' v'] o IH]; intros Hnd; cbn [In Object.get].
  - split; [contradiction | discriminate].
  - inversion Hnd as [|? ? Hk' Hnd']; subst.
    destruct (String.eqb k' k) eqn:E.
    + apply String.eqb_eq in E. subst k'. split.
      * intros [H | H]; [congruence|].
        exfalso. apply Hk'. apply (List.in_map fst) in H. exact H.
      * intros H. left. congruence.
    + apply String.eqb_neq in E. rewrite <- (IH Hnd'). split.
      * intros [H | H]; [congruence | exact H].
      * auto.
Qed.

Lemma get_set k k0 v0 o :
  k0 <> "__proto__" ->
  Object.get k (Object.set k0 v0 o)
  = if String.eqb k k0 then Some v0 else Object.get k o.
Proof.
  intros Hp. unfold Object.set.
  apply String.eqb_neq in Hp. rewrite Hp.
  destruct (String.eqb k k0) eqn:E.
  - apply String.eqb_eq in E. subst k0.
    destruct (Object.has k o) eqn:Hh.
    + now apply get_update_same.
    + now apply get_add_same.
  - apply String.eqb_neq in E.
    destruct (Object.has k0 o).
    + now apply get_update_other.
    + now apply get_add_other.
Qed.

(** The object built by [obj[k] = v] holds what the mapping holds, the key
    [__proto__] apart. *)
Lemma assign_follows_insert : forall (pairs : list (string * string)) (obj : Obj)
    (m : gmap string string),
  (forall k, k <> "__proto__" -> Object.get k obj = m !! k) ->
  forall k, k <> "__proto__" ->
    Object.get k (fold_left (fun obj kv => Object.set (fst kv) (snd kv) obj) pairs obj)
    = fold_left (fun m kv => <[fst kv := snd kv]> m) pairs m !! k.
Proof.
  induction pairs as [|[k0 v0] pairs IH]; intros obj m Hinv k Hk; [now apply Hinv|].
  cbn [fold_left fst snd]. apply IH; [|exact Hk].
  intros k' Hk'. destruct (String.eqb k0 "__proto__") eqn:Ep.
  - apply String.eqb_eq in Ep. subst k0.
    unfold Object.set. cbn [String.eqb Ascii.eqb Bool.eqb]. cbv iota.
    rewrite lookup_insert_ne by congruence. now apply Hinv.
  - apply String.eqb_neq in Ep. rewrite (get_set _ _ _ _ Ep).
    destruct (String.eqb k' k0) eqn:E.
    + apply String.eqb_eq in E. subst k0. now rewrite lookup_insert_eq.
    + apply String.eqb_neq in E. rewrite lookup_insert_ne by congruence.
      now apply Hinv.
Qed.

Lemma parse_details_entries_spec text k v :
  In (k, v) (Object.entries (parse_details text))
  <-> k <> "__proto__" /\ spec_parse_details text !! k = Some v.
Proof.
  pose proof (parse_details_keys_NoDup text) as Hnd.
  pose proof (parse_details_no_proto text) as Hp.
  assert (Hget : forall k', k' <> "__proto__" ->
            Object.get k' (parse_details text) = spec_parse_details text !! k').
  { intros k' Hk'. unfold parse_details, spec_parse_details. cbv zeta.
    rewrite parse_lines_agree, omap_pair_of_line.
    apply assign_follows_insert; [|exact Hk'].
    intros k'' _. now rewrite lookup_empty. }
  unfold Object.entries. rewrite (get_In k v _ Hnd). split.
  - intros Hg. assert (Hk : k <> "__proto__").
    { intros ->. apply Hp. apply (proj2 (get_In _ v _ Hnd)) in Hg.
      apply (List.in_map fst) in Hg. exact Hg. }
    split; [exact Hk|]. now rewrite <- (Hget k Hk).
  - intros [Hk Hs]. now rewrite (Hget k Hk).
Qed.

(** * The claims *)

(** C1 (as amended).  Take any transaction and any sequence of updates
    handled from the empty store in which each decision of the
    administrator on that transaction finds it pending, or already in the
    status the decision sets (decisions on other transactions are free).
    The successive statuses of the transaction form a prefix of pending,
    approved, completed or of pending, rejected; so once rejected or
    completed it never changes status again. *)
Theorem status_history_is_lifecycle (us : list Update) (txId : Z) :
  decisions_in_order txId us init = true ->
  lifecycle (status_history txId (trace us init)).
Proof.
  intros Hg. apply paths_lifecycle.
  pose proof (history_from txId us init (List.NoDup_nil _) Hg) as H.
  unfold status_history. rewrite omap_status. exact H.
Qed.

(** C2 (as amended).  An approve or reject action sent by anyone but the
    administrator, for any transaction id, changes no transaction, no
    session and no stored account details, and every known user row stays
    as it is; the only effect on the store is that the sender's row is
    registered when the sender was unknown.  The sender gets the alert
    "Only admin can perform this action." *)
Theorem foreign_decision_is_refused (u : Update) (data : string) (a : Action)
    (digits : string) (s : State) :
  body u = Callback data ->
  match_action data = Some (a, digits) ->
  from_id (from u) <> ADMIN_CHAT_ID ->
  handle u s =
    (store_user u s, [answerCbQuery "Only admin can perform this action." true])
  /\ transactions (store_user u s) = transactions s
  /\ sessions (store_user u s) = sessions s
  /\ (forall uid, saved_details uid (store_user u s) = saved_details uid s)
  /\ (forall uid row, users s !! uid = Some row ->
                      users (store_user u s) !! uid = Some row)
  /\ (is_Some (users s !! from_id (from u)) -> store_user u s = s).
Proof.
  intros Hb Hm Hne. repeat split.
  - unfold handle, dispatch, on_action. rewrite Hb, Hm.
    apply Z.eqb_neq in Hne. rewrite Hne. reflexivity.
  - apply store_user_transactions.
  - apply store_user_sessions.
  - intros uid. apply store_user_saved.
  - intros uid row. apply store_user_keeps.
  - apply store_user_known.
Qed.

(** C3 (as amended).  Whatever the store, when a user selects an intent,
    then sends an amount text and a counterparty text that are neither the
    /start command nor one of the menu labels (My Account, Sell Crypto,
    Sell Giftcard), then at least one photo, then the /done command,
    exactly one transaction is added: it is pending, belongs to the user,
    carries the trimmed amount and counterparty and one attachment per
    photo (at least one), and the user's Flow is absent afterwards. *)
Theorem sale_flow_creates_one_pending (s : State) (uid : Z)
    (u1 u2 u3 p u5 : Update) (ps : list Update)
    (t1 t2 t3 t5 : string) (e1 e2 e3 e5 : list Entity) :
  Forall (fun u => from_id (from u) = uid) (u1 :: u2 :: u3 :: p :: app ps [u5]) ->
  body u1 = Text t1 e1 ->
  hears "Sell Crypto" t1 || hears "Sell Giftcard" t1 = true ->
  body u2 = Text t2 e2 -> free_text t2 e2 = true ->
  body u3 = Text t3 e3 -> free_text t3 e3 = true ->
  Forall (fun u => is_photo u = true) (p :: ps) ->
  body u5 = Text t5 e5 -> is_command "done" t5 e5 = true ->
  let s' := run (u1 :: u2 :: u3 :: p :: app ps [u5]) s in
  exists tx,
    transactions s' = app (transactions s) [tx]
    /\ Tx.status tx = pending
    /\ Tx.user_id tx = uid
    /\ Tx.amount tx = Js.trim t2
    /\ Tx.currency_or_card tx = Js.trim t3
    /\ Tx.proof_files tx = concat (map proof_of_photo (p :: ps))
    /\ Tx.proof_files tx <> []
    /\ flow_of uid s' = None.
Proof.
  intros Hfrom Hb1 Hsell Hb2 Hf2 Hb3 Hf3 Hph Hb5 Hdone s'. subst s'.
  inversion Hfrom as [|? ? Hu1 Hfrom1]; subst. clear Hfrom.
  inversion Hfrom1 as [|? ? Hu2 Hfrom2]; subst. clear Hfrom1.
  inversion Hfrom2 as [|? ? Hu3 Hfrom3]; subst. clear Hfrom2.
  change (p :: app ps [u5]) with (app (p :: ps) [u5]) in Hfrom3.
  apply Forall_app in Hfrom3 as [Hps Hu5].
  inversion Hu5 as [|? ? Hu5' _]; subst. clear Hu5.
  (* intent *)
  destruct (handle_intent u1 t1 e1 s Hb1 Hsell) as (type & out1 & H1).
  rewrite run_cons, H1. cbn [fst].
  set (s1 := set_flow _ _ _).
  assert (Hflow1 : flow_of (from_id (from u2)) s1 = Some
            {| Flow.step := choose_type; Flow.type := type; Flow.amount := None;
               Flow.currency_or_card := None; Flow.proof := None |}).
  { rewrite Hu2. apply set_flow_same. }
  assert (Ht1 : transactions s1 = transactions s).
  { subst s1. cbn [set_flow set_sessions transactions].
    now rewrite ensure_session_transactions, store_user_transactions. }
  (* amount *)
  rewrite run_cons, (handle_amount u2 t2 e2 s1 _ Hb2 Hf2 Hflow1 eq_refl). cbn [fst].
  set (s2 := set_flow _ _ _).
  assert (Hflow2 : flow_of (from_id (from u3)) s2 = Some
            {| Flow.step := currency; Flow.type := type; Flow.amount := Some (Js.trim t2);
               Flow.currency_or_card := None; Flow.proof := None |}).
  { rewrite Hu3, <- Hu2. apply set_flow_same. }
  assert (Ht2 : transactions s2 = transactions s).
  { subst s2. cbn [set_flow set_sessions transactions].
    now rewrite store_user_transactions. }
  (* counterparty *)
  rewrite run_cons, (handle_counterparty u3 t3 e3 s2 _ Hb3 Hf3 Hflow2 eq_refl).
  set (s3 := set_flow _ _ _).
  assert (Hflow3 : flow_of (from_id (from u1)) s3 = Some
            {| Flow.step := await_proof; Flow.type := type;
               Flow.amount := Some (Js.trim t2);
               Flow.currency_or_card := Some (Js.trim t3); Flow.proof := None |}).
  { rewrite <- Hu3. apply set_flow_same. }
  assert (Ht3 : transactions s3 = transactions s).
  { subst s3. cbn [set_flow set_sessions transactions].
    now rewrite store_user_transactions. }
  (* photos *)
  change (p :: app ps [u5]) with (app (p :: ps) [u5]). rewrite run_app.
  destruct (run_photos (from_id (from u1)) (p :: ps) s3 _ Hph Hps Hflow3 eq_refl)
    as (flow & Hflow4 & Hstep & Htype & Ham & Hcur & Hproof & Ht4).
  specialize (Hproof ltac:(discriminate)). cbn [Flow.proof default] in Hproof.
  set (s4 := run (p :: ps) s3) in *.
  destruct (concat (map proof_of_photo (p :: ps))) as [|file files] eqn:Hfiles.
  { exfalso. inversion Hph; subst. simpl in Hfiles.
    apply app_eq_nil in Hfiles as [Hnil _].
    now apply (proof_of_photo_not_empty p). }
  (* done *)
  rewrite <- Hu5' in Hflow4.
  cbn [run fold_left].
  rewrite (handle_done_created u5 t5 e5 s4 flow file files (Js.trim t2) (Js.trim t3)
             Hb5 Hdone Hflow4 Hstep Hproof Ham Hcur).
  eexists. repeat split.
  - cbn [createTxStmt_run fst set_flow set_sessions set_transactions transactions].
    rewrite store_user_transactions, Ht4, Ht3. reflexivity.
  - reflexivity.
  - simpl. exact Hu5'.
  - reflexivity.
  - reflexivity.
  - reflexivity.
  - discriminate.
  - rewrite <- Hu5'. apply set_flow_same.
Qed.

(** C4.  When the user's Flow awaits proof and holds no attachment, the
    /done command creates no transaction, leaves the Flow (and every
    session) as it was, and the reply asks to upload at least one proof
    image. *)
Theorem done_without_proof_creates_nothing (u : Update) (text : string)
    (entities : list Entity) (s : State) (flow : Flow.t) :
  body u = Text text entities ->
  is_command "done" text entities = true ->
  flow_of (from_id (from u)) s = Some flow ->
  Flow.step flow = await_proof ->
  default [] (Flow.proof flow) = [] ->
  transactions (fst (handle u s)) = transactions s
  /\ flow_of (from_id (from u)) (fst (handle u s)) = Some flow
  /\ sessions (fst (handle u s)) = sessions s
  /\ snd (handle u s) =
       [reply "Please upload at least one proof image before sending /done." no_markup].
Proof.
  intros Hb Hd Hflow Hstep Hproof.
  rewrite (handle_done_empty u text entities s flow Hb Hd Hflow Hstep Hproof).
  cbn [fst snd]. repeat split.
  - apply store_user_transactions.
  - now rewrite store_user_flow.
  - apply store_user_sessions.
Qed.

(** C5 (as amended).  A user has a latest approved transaction T and stored
    account details, and the user's Flow is not waiting for an amount or a
    counterparty.  A text that is CONFIRM once trimmed and upper-cased sets
    T to completed and leaves the stored account details of every user, and
    table users as a whole, unchanged. *)
Theorem confirm_completes_latest (u : Update) (text : string)
    (entities : list Entity) (s : State) (latest : Tx.t) (details : Obj) :
  body u = Text text entities ->
  Js.toUpperCase (Js.trim text) = "CONFIRM" ->
  latestApproved_get (from_id (from u)) s = Some latest ->
  saved_details (from_id (from u)) s = Some details ->
  awaiting_text (from_id (from u)) s = false ->
  status_of (Tx.id latest) (fst (handle u s)) = Some completed
  /\ (forall uid, saved_details uid (fst (handle u s)) = saved_details uid s)
  /\ users (fst (handle u s)) = users s.
Proof.
  intros Hb Hc Hl Hs Ha.
  pose proof (confirm_not_menu text Hc) as (H1 & H2 & H3).
  pose proof (free_text_intro text entities
                (confirm_not_command "start" text entities Hc) H1 H2 H3) as Hf.
  unfold handle.
  rewrite (store_user_known u s (saved_row _ _ _ Hs)).
  rewrite (dispatch_reply u text entities s Hb Hf Ha
             (confirm_not_command "done" text entities Hc)).
  set (s1 := ensure_session (from_id (from u)) s).
  assert (Hl1 : latestApproved_get (from_id (from u)) s1 = Some latest).
  { rewrite <- Hl. apply latestApproved_get_ext, ensure_session_transactions. }
  assert (Hs1 : saved_details (from_id (from u)) s1 = Some details).
  { rewrite <- Hs. apply saved_details_ext, ensure_session_users. }
  destruct (on_text_reply_confirm u text s1 latest details Hl1 Hc Hs1) as (out & ->).
  cbn [and_then finish fst]. repeat split.
  - apply latestApproved_spec in Hl1 as (Hin & _ & _).
    now apply (status_completed _ _ _ latest).
  - intros uid. apply saved_details_ext. apply ensure_session_users.
  - apply ensure_session_users.
Qed.

(** C6 (as amended).  A user has a latest approved transaction T and the
    user's Flow is not waiting for an amount or a counterparty.  A text that
    is neither the /start nor the /done command, contains ':' and parses to
    at least one key/value pair replaces the user's stored account details
    by exactly the parsed mapping, sets T to completed and leaves the
    details of the other users unchanged. *)
Theorem details_replace_and_complete (u : Update) (text : string)
    (entities : list Entity) (s : State) (latest : Tx.t) :
  body u = Text text entities ->
  is_command "start" text entities = false ->
  is_command "done" text entities = false ->
  Js.includes ":" (Js.trim text) = true ->
  Object.keys (parse_details (Js.trim text)) <> [] ->
  latestApproved_get (from_id (from u)) s = Some latest ->
  awaiting_text (from_id (from u)) s = false ->
  saved_details (from_id (from u)) (fst (handle u s)) = Some (parse_details (Js.trim text))
  /\ (forall k, Object.get k (parse_details (Js.trim text)) = None ->
                forall obj, saved_details (from_id (from u)) (fst (handle u s)) = Some obj ->
                            Object.get k obj = None)
  /\ status_of (Tx.id latest) (fst (handle u s)) = Some completed
  /\ (forall uid, uid <> from_id (from u) ->
                  saved_details uid (fst (handle u s)) = saved_details uid s).
Proof.
  intros Hb Hstart Hdone Hc Hk Hl Ha.
  pose proof (colon_not_menu text Hc) as (H1 & H2 & H3).
  pose proof (free_text_intro text entities Hstart H1 H2 H3) as Hf.
  rewrite <- (awaiting_text_store_user u) in Ha.
  unfold handle.
  rewrite (dispatch_reply u text entities (store_user u s) Hb Hf Ha Hdone).
  set (s1 := ensure_session (from_id (from u)) (store_user u s)).
  assert (Hl1 : latestApproved_get (from_id (from u)) s1 = Some latest).
  { rewrite <- Hl. apply latestApproved_get_ext. subst s1.
    now rewrite ensure_session_transactions, store_user_transactions. }
  assert (Hrow : is_Some (users s1 !! from_id (from u))).
  { subst s1. rewrite ensure_session_users. apply store_user_registered. }
  destruct (on_text_reply_details u text s1 latest Hl1 Hc Hk) as (out & ->).
  cbn [and_then finish fst].
  assert (Hsaved : saved_details (from_id (from u))
            (updateTxStatusStmt_run (Tx.id latest) completed
               (Js.cat ["User provided details at "; now u])
               (upsertAccountStmt_run (from_id (from u)) (parse_details (Js.trim text)) s1))
          = Some (parse_details (Js.trim text))).
  { now apply (upsert_saved_same (from_id (from u)) _ s1). }
  repeat split.
  - exact Hsaved.
  - intros k Hget obj Hobj. rewrite Hsaved in Hobj. now injection Hobj as <-.
  - apply latestApproved_spec in Hl1 as (Hin & _ & _).
    now apply (status_completed _ _ _ latest).
  - intros uid Hne.
    transitivity (saved_details uid s1).
    + apply (upsert_saved_other (from_id (from u)) uid _ s1). congruence.
    + subst s1. rewrite <- (store_user_saved u uid s).
      apply saved_details_ext, ensure_session_users.
Qed.

(** C7.  The details parser of the second text handler against the parser
    the specification describes: split on newlines, trim each line, split
    it at its first ':' and drop the lines without a non-empty key, the
    pairs forming a mapping.  The object the code builds holds exactly the
    pairs of that mapping whose key is not __proto__; a line with the key
    __proto__ has a non-empty key, yet the code keeps no pair for it: the
    text "__proto__: x" gives the one pair in the mapping and the empty
    object in the code.  The text "   :   \nvalid: 1" parses to exactly
    valid = "1" on both sides.  And when the user has a latest approved
    transaction and sends a text that contains ':' from which the code
    keeps no pair, the handler replies with the retry message and leaves
    the store as it is: the transaction is still approved and no account
    details change. *)
Theorem details_parser_drops_proto_key :
  (forall text k v,
     In (k, v) (Object.entries (parse_details text))
     <-> k <> "__proto__" /\ spec_parse_details text !! k = Some v)
  /\ spec_parse_details "__proto__: x" = {[ "__proto__" := "x" ]}
  /\ parse_details "__proto__: x" = []
  /\ spec_parse_details (Js.cat ["   :   "; Js.nl; "valid: 1"]) = {[ "valid" := "1" ]}
  /\ parse_details (Js.cat ["   :   "; Js.nl; "valid: 1"]) = [("valid", "1")]
  /\ parse_details (Js.trim (Js.cat ["   :   "; Js.nl; "valid: 1"])) = [("valid", "1")]
  /\ (forall (u : Update) (text : string) (s : State) (latest : Tx.t),
        latestApproved_get (from_id (from u)) s = Some latest ->
        Js.includes ":" (Js.trim text) = true ->
        Object.keys (parse_details (Js.trim text)) = [] ->
        on_text_reply u text s =
          Stop s [reply "Could not parse account details. Use format key:value each on its own line."
                    no_markup]
        /\ In latest (transactions s) /\ Tx.status latest = approved).
Proof.
  split; [exact parse_details_entries_spec|].
  split; [vm_compute; reflexivity|]. split; [reflexivity|].
  split; [vm_compute; reflexivity|]. split; [reflexivity|]. split; [reflexivity|].
  intros u text s latest Hl Hc Hk. split.
  - now apply (on_text_reply_retry u text s latest).
  - apply latestApproved_spec in Hl as (Hin & _ & Hst). auto.
Qed.

(** C8 (as amended).  A user without a Flow sends a text that reaches the
    second text handler (it is neither /start nor /done nor one of the menu
    labels) and that this handler declines: the user has no latest approved
    transaction, or the text has no ':' and is not, trimmed and upper-cased,
    CONFIRM from a user with stored details.  No transaction, no stored
    account details and no Flow change; the only possible changes are the
    registration of the sender's row and of an empty session, so a known
    sender with a session leaves the store as it was.  The statement is
    about the store only; it holds whichever of the later handlers
    (/broadcast, /help) answers. *)
Theorem unhandled_text_keeps_data (u : Update) (text : string)
    (entities : list Entity) (s : State) :
  body u = Text text entities ->
  is_command "start" text entities = false ->
  is_command "done" text entities = false ->
  hears "My Account" text = false ->
  hears "Sell Crypto" text = false ->
  hears "Sell Giftcard" text = false ->
  flow_of (from_id (from u)) s = None ->
  (latestApproved_get (from_id (from u)) s = None
   \/ (String.eqb (Js.toUpperCase (Js.trim text)) "CONFIRM"
       && saved_truthy (saved_details (from_id (from u)) s) = false
       /\ Js.includes ":" (Js.trim text) = false)) ->
  fst (handle u s) = ensure_session (from_id (from u)) (store_user u s)
  /\ transactions (fst (handle u s)) = transactions s
  /\ (forall uid, saved_details uid (fst (handle u s)) = saved_details uid s)
  /\ (forall uid, flow_of uid (fst (handle u s)) = flow_of uid s)
  /\ (is_Some (users s !! from_id (from u)) ->
      is_Some (sessions s !! from_id (from u)) -> fst (handle u s) = s).
Proof.
  intros Hb Hstart Hdone H1 H2 H3 Hflow Hdecl.
  pose proof (free_text_intro text entities Hstart H1 H2 H3) as Hf.
  assert (Ha : awaiting_text (from_id (from u)) (store_user u s) = false).
  { unfold awaiting_text. now rewrite store_user_flow, Hflow. }
  assert (Hh : fst (handle u s) = ensure_session (from_id (from u)) (store_user u s)).
  { unfold handle.
    rewrite (dispatch_reply u text entities _ Hb Hf Ha Hdone).
    rewrite on_text_reply_next.
    - cbn [and_then]. unfold command_broadcast, command_help.
      destruct (is_command "broadcast" text entities).
      + destruct (negb (from_id (from u) =? ADMIN_CHAT_ID)); [reflexivity|].
        destruct (negb (Js.truthy (Js.trim (strip_broadcast text)))); reflexivity.
      + cbn [and_then]. destruct (is_command "help" text entities); reflexivity.
    - destruct Hdecl as [Hl | [Hc Hi]]; [left | right].
      + rewrite <- Hl. apply latestApproved_get_ext.
        now rewrite ensure_session_transactions, store_user_transactions.
      + split; auto.
        replace (saved_details (from_id (from u))
                   (ensure_session (from_id (from u)) (store_user u s)))
          with (saved_details (from_id (from u)) s); [exact Hc|].
        rewrite <- (store_user_saved u (from_id (from u)) s). symmetry.
        apply saved_details_ext, ensure_session_users. }
  rewrite Hh. repeat split.
  - now rewrite ensure_session_transactions, store_user_transactions.
  - intros uid. rewrite <- (store_user_saved u uid s).
    apply saved_details_ext, ensure_session_users.
  - intros uid. now rewrite ensure_session_flow, store_user_flow.
  - intros Hrow [ss Hss]. rewrite (store_user_known u s Hrow).
    unfold ensure_session, session_of. now rewrite Hss.
Qed.

(** C9 (as amended).  When the user's Flow awaits the amount, a text that is
    neither the /start command nor one of the menu labels (My Account, Sell
    Crypto, Sell Giftcard) is stored, trimmed and otherwise unchecked, as
    the Flow's amount, and the Flow goes on to await the counterparty; the
    reply asks for the currency or the card. *)
Theorem amount_text_advances_flow (u : Update) (text : string)
    (entities : list Entity) (s : State) (flow : Flow.t) :
  body u = Text text entities ->
  free_text text entities = true ->
  flow_of (from_id (from u)) s = Some flow ->
  Flow.step flow = choose_type ->
  flow_of (from_id (from u)) (fst (handle u s)) =
    Some {| Flow.step := currency; Flow.type := Flow.type flow;
            Flow.amount := Some (Js.trim text);
            Flow.currency_or_card := Flow.currency_or_card flow;
            Flow.proof := Flow.proof flow |}
  /\ transactions (fst (handle u s)) = transactions s
  /\ snd (handle u s) =
       [reply match Flow.type flow with
              | crypto => "Which cryptocurrency? (e.g., BTC, USDT)"
              | giftcard => "Which gift card? (e.g., iTunes $50, Google Play $25)"
              end no_markup].
Proof.
  intros Hb Hf Hflow Hstep.
  rewrite (handle_amount u text entities s flow Hb Hf Hflow Hstep).
  cbn [fst snd]. repeat split.
  - apply set_flow_same.
  - cbn [set_flow set_sessions transactions]. apply store_user_transactions.
Qed.

(** C10.  Whatever the store, the account details an update leaves for a
    user are the ones that were there or a newly stored mapping, and a newly
    stored mapping has at least one entry and only non-empty keys.  So on
    every store reached from the empty one through the handlers, the
    details stored for a user are absent or such a mapping, and the test of
    the approval handler (saved and not empty) and the test of the second
    text handler (saved) give the same answer. *)
Theorem stored_details_never_empty :
  (forall (u : Update) (s : State) (uid : Z),
     saved_details uid (fst (handle u s)) = saved_details uid s
     \/ exists details,
          saved_details uid (fst (handle u s)) = Some details
          /\ details_ok details
          /\ exists k v, In (k, v) details /\ k <> EmptyString)
  /\ (forall (us : list Update) (uid : Z),
        (forall details,
           saved_details uid (run us init) = Some details ->
           details_ok details /\ exists k v, In (k, v) details /\ k <> EmptyString)
        /\ saved_and_not_empty (saved_details uid (run us init))
           = saved_truthy (saved_details uid (run us init))).
Proof.
  assert (Hentry : forall details : Obj,
            details_ok details -> exists k v, In (k, v) details /\ k <> EmptyString).
  { intros details [Hne Hkeys]. destruct details as [|[k v] rest]; [congruence|].
    exists k, v. split; [now left|]. now inversion Hkeys. }
  split.
  - intros u s uid. destruct (handle_changes u s) as [_ Hc].
    destruct (Hc uid) as [H | (_ & text & entities & _ & H & Hk)]; [now left|].
    right. exists (parse_details (Js.trim text)).
    assert (Hok : details_ok (parse_details (Js.trim text))).
    { split; [now apply keys_not_empty | apply parse_details_keys_ok]. }
    auto.
  - intros us uid.
    assert (Hok : forall details,
              saved_details uid (run us init) = Some details -> details_ok details).
    { apply (run_details_ok us init). intros uid' details. discriminate. }
    split.
    + intros details Hd. split; auto.
    + destruct (saved_details uid (run us init)) as [details|]; [|reflexivity].
      destruct (Hok details eq_refl) as [Hne _].
      destruct details; [congruence|reflexivity].
Qed.

(** * Further properties of the handlers *)

(** ** Sessions *)

Lemma sessions_same_change u s s' : sessions s' = sessions s -> sessions_change u s s'.
Proof. intros H. now left. Qed.

Lemma ensure_session_sessions uid s :
  sessions (ensure_session uid s) = sessions s
  \/ (session_of uid s = None
      /\ sessions (ensure_session uid s) = <[uid := {| flow := None |}]> (sessions s)).
Proof.
  unfold ensure_session. destruct (session_of uid s) eqn:E; [now left|]. right. auto.
Qed.

Lemma ensure_session_change u s :
  sessions_change u s (ensure_session (from_id (from u)) s).
Proof.
  destruct (ensure_session_sessions (from_id (from u)) s) as [H | [Hn H]].
  - now left.
  - right. exists None. split; [exact H|].
    unfold flow_of. rewrite Hn. constructor.
Qed.

Lemma set_flow_ensure_sessions uid f s :
  sessions (set_flow uid f (ensure_session uid s))
  = <[uid := {| flow := f |}]> (sessions s).
Proof.
  unfold set_flow. cbn [sessions set_sessions].
  destruct (ensure_session_sessions uid s) as [-> | [_ ->]]; [reflexivity|].
  apply insert_insert_eq.
Qed.

Lemma sessions_change_after_ensure u s s' :
  sessions_change u (ensure_session (from_id (from u)) s) s' ->
  sessions_change u s s'.
Proof.
  intros [H | (new & H & Hn)].
  - destruct (ensure_session_change u s) as [H' | (new & H1 & H2)].
    + left. congruence.
    + right. exists new. split; congruence.
  - right. exists new. rewrite ensure_session_flow in Hn. split; [|exact Hn].
    rewrite H. destruct (ensure_session_sessions (from_id (from u)) s) as [-> | [_ ->]];
      [reflexivity | apply insert_insert_eq].
Qed.

Lemma sessions_outcome_after_ensure u s o :
  sessions_outcome u (ensure_session (from_id (from u)) s) o ->
  sessions_outcome u s o.
Proof.
  destruct o as [s' out | s']; cbn [sessions_outcome].
  - apply sessions_change_after_ensure.
  - rewrite ensure_session_idem. intros [-> | ->]; now right.
Qed.

Lemma sessions_outcome_and_then u s o k :
  sessions_outcome u s o -> (forall s1, sessions_outcome u s1 (k s1)) ->
  sessions_outcome u s (and_then o k).
Proof.
  destruct o as [s' out | s1]; cbn [sessions_outcome and_then]; auto.
  intros [-> | ->] Hk; [apply Hk|].
  apply sessions_outcome_after_ensure, Hk.
Qed.

Lemma sessions_outcome_finish u s o :
  sessions_outcome u s o -> sessions_change u s (fst (finish o)).
Proof.
  destruct o as [s' out | s']; cbn [sessions_outcome finish fst]; auto.
  intros [-> | ->]; [now left | apply ensure_session_change].
Qed.

(** A handler that leaves the store alone. *)
Lemma sessions_outcome_idle u s o :
  outcome_state o = s -> sessions_outcome u s o.
Proof.
  destruct o as [s' out | s']; cbn [outcome_state sessions_outcome]; intros ->.
  - now left.
  - now left.
Qed.

Lemma on_start_sessions u text entities s :
  sessions_outcome u s (on_start u text entities s).
Proof.
  apply sessions_outcome_idle. unfold on_start. now destruct (is_command _ _ _).
Qed.

Lemma hears_my_account_sessions u text s :
  sessions_outcome u s (hears_my_account u text s).
Proof.
  apply sessions_outcome_idle. unfold hears_my_account.
  destruct (hears _ _); [|reflexivity].
  now destruct (getUserStmt_get _ _) as [[? ? ? [?|] ?]|].
Qed.

Lemma hears_sell_sessions u text s :
  sessions_outcome u s (hears_sell u text s).
Proof.
  unfold hears_sell. destruct (_ || _); [|now left].
  right. eexists. split; [apply set_flow_ensure_sessions | constructor].
Qed.

Lemma on_text_flow_sessions u text entities s :
  body u = Text text entities -> sessions_outcome u s (on_text_flow u text s).
Proof.
  intros Hb. unfold on_text_flow. rewrite ensure_session_flow.
  destruct (flow_of (from_id (from u)) s) as [f|] eqn:Hf; [|now right].
  destruct (Flow.step f) eqn:Hs; cbn [sessions_outcome].
  - right. eexists. split; [apply set_flow_ensure_sessions|]. rewrite Hf.
    now apply (flow_amount u f text entities).
  - right. eexists. split; [apply set_flow_ensure_sessions|]. rewrite Hf.
    now apply (flow_counterparty u f text entities).
  - now right.
  - destruct (_ =? _); cbn [sessions_outcome];
      [apply ensure_session_change | now right].
Qed.

Lemma on_photo_sessions u photo larger s :
  body u = Photo photo larger -> sessions_outcome u s (on_photo u photo larger s).
Proof.
  intros Hb. unfold on_photo. rewrite ensure_session_flow.
  destruct (flow_of (from_id (from u)) s) as [f|] eqn:Hf;
    [|apply ensure_session_change].
  destruct (Flow.step f) eqn:Hs; cbn [sessions_outcome];
    try apply ensure_session_change.
  right. eexists. split; [apply set_flow_ensure_sessions|]. rewrite Hf.
  replace [{| file_id := photo_file_id (List.last larger photo); file_type := "photo";
              date := now u |}] with (proof_of_photo u)
    by (unfold proof_of_photo; now rewrite Hb).
  rewrite <- Hs. apply flow_photo; [|exact Hs].
  unfold is_photo. now rewrite Hb.
Qed.

Lemma command_done_sessions u text entities s :
  sessions_outcome u s (command_done u text entities s).
Proof.
  unfold command_done. destruct (is_command _ _ _); [|now left].
  rewrite ensure_session_flow.
  destruct (flow_of (from_id (from u)) s) as [f|] eqn:Hf;
    [|apply ensure_session_change].
  destruct (Flow.step f) eqn:Hs; try apply ensure_session_change.
  destruct (default [] (Flow.proof f)) as [|file files] eqn:Hp;
    [apply ensure_session_change|].
  destruct (Flow.amount f) as [amount|] eqn:Ha; [|apply ensure_session_change].
  destruct (Flow.currency_or_card f) as [cur|] eqn:Hc; [|apply ensure_session_change].
  cbn [createTxStmt_run sessions_outcome]. right. exists None. split.
  - unfold set_flow. cbn [sessions set_sessions set_transactions].
    destruct (ensure_session_sessions (from_id (from u)) s) as [-> | [_ ->]];
      [reflexivity | apply insert_insert_eq].
  - rewrite Hf. apply (flow_submitted u f amount cur); auto. rewrite Hp. discriminate.
Qed.

Lemma on_text_reply_sessions u text s :
  sessions_outcome u s (on_text_reply u text s).
Proof.
  unfold on_text_reply.
  destruct (latestApproved_get _ _); [|now left].
  destruct (_ && _); [now left|].
  destruct (Js.includes _ _); [|now left].
  destruct (Object.keys _); now left.
Qed.

Lemma command_broadcast_sessions u text entities s :
  sessions_outcome u s (command_broadcast u text entities s).
Proof.
  apply sessions_outcome_idle. unfold command_broadcast.
  destruct (is_command _ _ _); [|reflexivity].
  destruct (negb _); [reflexivity|]. now destruct (negb _).
Qed.

Lemma command_help_sessions u text entities s :
  sessions_outcome u s (command_help text entities s).
Proof.
  apply sessions_outcome_idle. unfold command_help. now destruct (is_command _ _ _).
Qed.

Lemma on_action_sessions u data s : sessions_outcome u s (on_action u data s).
Proof.
  unfold on_action.
  destruct (match_action data) as [[a digits]|]; [|now left].
  destruct (negb _); [now left|].
  destruct (getTxByIdStmt_get _ _); [|now left].
  destruct a; now left.
Qed.

Lemma dispatch_sessions u s : sessions_outcome u s (dispatch u s).
Proof.
  unfold dispatch. destruct (body u) as [text entities | photo larger | data |] eqn:Hb.
  - apply sessions_outcome_and_then; [apply on_start_sessions|]. intros s1.
    apply sessions_outcome_and_then; [apply hears_my_account_sessions|]. intros s2.
    apply sessions_outcome_and_then; [apply hears_sell_sessions|]. intros s3.
    apply sessions_outcome_and_then; [now apply (on_text_flow_sessions u text entities)|].
    intros s4.
    apply sessions_outcome_and_then; [apply command_done_sessions|]. intros s5.
    apply sessions_outcome_and_then; [apply on_text_reply_sessions|]. intros s6.
    apply sessions_outcome_and_then; [apply command_broadcast_sessions|]. intros s7.
    apply command_help_sessions.
  - now apply on_photo_sessions.
  - apply on_action_sessions.
  - now left.
Qed.

(** Every update writes at most the sender's session, by one of the steps
    of [flow_next]. *)
Lemma handle_sessions u s : sessions_change u s (fst (handle u s)).
Proof.
  unfold handle.
  destruct (sessions_outcome_finish u _ _ (dispatch_sessions u (store_user u s)))
    as [H | (new & H & Hn)].
  - left. now rewrite H, store_user_sessions.
  - right. exists new. rewrite store_user_flow in Hn. split; [|exact Hn].
    now rewrite H, store_user_sessions.
Qed.

(** ** Table [users] *)

Lemma users_outcome_frame u s o : same_data s (outcome_state o) -> users_outcome u s o.
Proof. destruct o; intros [H _]; cbn in *; [now left | exact H]. Qed.

Lemma users_outcome_ext u s1 s o :
  users s1 = users s -> users_outcome u s1 o -> users_outcome u s o.
Proof.
  intros H. destruct o as [s' out | s']; cbn [users_outcome]; [|congruence].
  unfold users_change. now rewrite H.
Qed.

Lemma users_outcome_and_then u s o k :
  users_outcome u s o -> (forall s1, users_outcome u s1 (k s1)) ->
  users_outcome u s (and_then o k).
Proof.
  destruct o as [s' out | s1]; cbn [users_outcome and_then]; auto.
  intros H Hk. now apply (users_outcome_ext u s1).
Qed.

Lemma command_done_users u text entities s :
  users_outcome u s (command_done u text entities s).
Proof.
  unfold command_done. destruct (is_command _ _ _); [|reflexivity].
  assert (H : users (ensure_session (from_id (from u)) s) = users s)
    by apply ensure_session_users.
  destruct (flow_of _ _) as [f|]; [|now left].
  destruct (Flow.step f); try now left.
  destruct (default [] (Flow.proof f)); [now left|].
  destruct (Flow.amount f); [|now left].
  destruct (Flow.currency_or_card f); now left.
Qed.

Lemma on_text_reply_users u text s : users_outcome u s (on_text_reply u text s).
Proof.
  unfold on_text_reply.
  destruct (latestApproved_get _ _); [|reflexivity].
  destruct (_ && _); [now left|].
  destruct (Js.includes _ _); [|reflexivity].
  destruct (Object.keys _); [now left|].
  right. eexists. reflexivity.
Qed.

Lemma on_action_users u data s : users_outcome u s (on_action u data s).
Proof.
  unfold on_action.
  destruct (match_action data) as [[a digits]|]; [|reflexivity].
  destruct (negb _); [now left|].
  destruct (getTxByIdStmt_get _ _); [|now left].
  destruct a; now left.
Qed.

Lemma dispatch_users u s : users_outcome u s (dispatch u s).
Proof.
  unfold dispatch. destruct (body u) as [text entities | photo larger | data |].
  - apply users_outcome_and_then; [apply users_outcome_frame, on_start_frame|]. intros s1.
    apply users_outcome_and_then; [apply users_outcome_frame, hears_my_account_frame|].
    intros s2.
    apply users_outcome_and_then; [apply users_outcome_frame, hears_sell_frame|]. intros s3.
    apply users_outcome_and_then; [apply users_outcome_frame, on_text_flow_frame|].
    intros s4.
    apply users_outcome_and_then; [apply command_done_users|]. intros s5.
    apply users_outcome_and_then; [apply on_text_reply_users|]. intros s6.
    apply users_outcome_and_then; [apply users_outcome_frame, command_broadcast_frame|].
    intros s7.
    apply users_outcome_frame, command_help_frame.
  - apply users_outcome_frame, on_photo_frame.
  - apply on_action_users.
  - reflexivity.
Qed.

(** After the sender is stored, an update rewrites at most the sender's
    [account_details]. *)
Lemma handle_users u s : users_change u (store_user u s) (fst (handle u s)).
Proof.
  unfold handle. pose proof (dispatch_users u (store_user u s)) as H.
  destruct (dispatch u (store_user u s)); cbn in *; [exact H | now left].
Qed.

Lemma store_user_identity u s uid row :
  users s !! uid = Some row ->
  users (store_user u s) !! uid = Some row.
Proof. apply store_user_keeps. Qed.

Lemma handle_row_kept u s uid row :
  users s !! uid = Some row ->
  exists row', users (fst (handle u s)) !! uid = Some row' /\ same_identity row row'.
Proof.
  intros Hrow. apply (store_user_keeps u) in Hrow.
  destruct (handle_users u s) as [H | (obj & H)]; rewrite H.
  - exists row. repeat split; auto.
  - destruct (decide (from_id (from u) = uid)) as [<- | Hne].
    + rewrite lookup_alter_eq, Hrow. eexists. split; [reflexivity|].
      repeat split; reflexivity.
    + rewrite lookup_alter_ne by exact Hne. exists row. repeat split; auto.
Qed.

Lemma handle_sender_stored u s : is_Some (users (fst (handle u s)) !! from_id (from u)).
Proof.
  destruct (store_user_registered u s) as [row Hrow].
  destruct (handle_users u s) as [H | (obj & H)]; rewrite H.
  - eauto.
  - rewrite lookup_alter_eq, Hrow. simpl. eauto.
Qed.

Lemma store_user_other_absent u s uid :
  uid <> from_id (from u) -> users s !! uid = None ->
  users (store_user u s) !! uid = None.
Proof.
  intros Hne Hn. unfold store_user, insertUserStmt_run.
  destruct (users s !! from_id (from u)); simpl; auto.
  rewrite lookup_insert_ne; auto.
Qed.

Lemma handle_other_absent u s uid :
  uid <> from_id (from u) -> users s !! uid = None ->
  users (fst (handle u s)) !! uid = None.
Proof.
  intros Hne Hn. pose proof (store_user_other_absent u s uid Hne Hn) as H0.
  destruct (handle_users u s) as [H | (obj & H)]; rewrite H; auto.
  rewrite lookup_alter_ne; auto.
Qed.

Lemma same_identity_trans r1 r2 r3 :
  same_identity r1 r2 -> same_identity r2 r3 -> same_identity r1 r3.
Proof. unfold same_identity. intuition congruence. Qed.

Lemma run_row_kept : forall us s uid row,
  users s !! uid = Some row ->
  exists row', users (run us s) !! uid = Some row' /\ same_identity row row'.
Proof.
  induction us as [|u us IH]; intros s uid row Hrow.
  - exists row. repeat split; auto.
  - rewrite run_cons.
    destruct (handle_row_kept u s uid row Hrow) as (r1 & H1 & Hs1).
    destruct (IH _ uid r1 H1) as (r2 & H2 & Hs2).
    exists r2. split; [exact H2 | now apply (same_identity_trans row r1 r2)].
Qed.

(** ** Table [transactions] along a run *)

Lemma run_unique_ids : forall us s, unique_ids s -> unique_ids (run us s).
Proof.
  induction us as [|u us IH]; intros s H; [exact H|].
  rewrite run_cons. apply IH. now apply handle_unique_ids.
Qed.

Lemma unique_ids_init : unique_ids init.
Proof. apply List.NoDup_nil. Qed.

Lemma same_submission_refl r : same_submission r r.
Proof. repeat split. Qed.

Lemma same_submission_trans r1 r2 r3 :
  same_submission r1 r2 -> same_submission r2 r3 -> same_submission r1 r3.
Proof. unfold same_submission. intuition congruence. Qed.

Lemma same_submission_update id st note txs :
  Forall2 same_submission txs
    (map (fun r => if Tx.id r =? id then with_status st note r else r) txs).
Proof.
  induction txs as [|r txs IH]; simpl; constructor; auto.
  destruct (Tx.id r =? id); repeat split.
Qed.

Lemma Forall2_same_submission_refl txs : Forall2 same_submission txs txs.
Proof. induction txs; constructor; auto. apply same_submission_refl. Qed.

(** The rows an update finds are still there afterwards, in place, with
    the submission they hold; at most one row is added. *)
Lemma handle_rows_kept u s :
  exists added,
    Forall2 same_submission (transactions s)
      (firstn (List.length (transactions s)) (transactions (fst (handle u s))))
    /\ List.length (transactions (fst (handle u s)))
       = (List.length (transactions s) + added)%nat
    /\ (added <= 1)%nat.
Proof.
  destruct (handle_changes u s) as [[H | row H1 _ _ _ _ | latest note _ H | data a digits note _ _ _ _ H] _].
  - exists 0%nat. rewrite H, firstn_all, Nat.add_0_r. repeat split; auto.
    apply Forall2_same_submission_refl.
  - exists 1%nat. rewrite H1, firstn_app, Nat.sub_diag, firstn_all, length_app.
    simpl. rewrite app_nil_r. repeat split; auto. apply Forall2_same_submission_refl.
  - exists 0%nat. rewrite H. unfold updateTxStatusStmt_run. cbn [transactions set_transactions].
    rewrite <- (length_map (fun r => if Tx.id r =? Tx.id latest
                                    then with_status completed note r else r)) at 1.
    rewrite firstn_all, length_map, Nat.add_0_r. repeat split; auto.
    apply same_submission_update.
  - exists 0%nat. rewrite H. unfold updateTxStatusStmt_run. cbn [transactions set_transactions].
    rewrite <- (length_map (fun r => if Tx.id r =? Js.parseInt digits
                                    then with_status (status_of_action a) note r else r)) at 1.
    rewrite firstn_all, length_map, Nat.add_0_r. repeat split; auto.
    apply same_submission_update.
Qed.

Lemma fold_max_ids_upto n : fold_right Z.max 0 (ids_upto n) = Z.of_nat n.
Proof.
  unfold ids_upto. induction n as [|n IH]; [reflexivity|].
  rewrite seq_S, map_app, fold_right_app. simpl.
  assert (H : forall l a, 0 <= a ->
            (forall x, In x l -> x <= a) -> fold_right Z.max a l = a).
  { induction l as [|x l IHl]; intros a Ha Hl; simpl; auto.
    rewrite IHl; auto.
    - apply Z.max_r. apply Hl. now left.
    - intros y Hy. apply Hl. now right. }
  rewrite H; try lia.
  intros x Hx. apply List.in_map_iff in Hx as (k & <- & Hk).
  apply in_seq in Hk. lia.
Qed.

Lemma handle_ids_upto u s :
  map Tx.id (transactions s) = ids_upto (List.length (transactions s)) ->
  map Tx.id (transactions (fst (handle u s)))
  = ids_upto (List.length (transactions (fst (handle u s)))).
Proof.
  intros Hids.
  destruct (handle_changes u s) as [[H | row H1 H2 _ _ _ | latest note _ H | data a digits note _ _ _ _ H] _].
  - now rewrite H.
  - rewrite H1, map_app, length_app, Hids. cbn [map List.length].
    rewrite Nat.add_1_r. unfold ids_upto at 2. rewrite seq_S, map_app.
    cbn [map]. f_equal. rewrite H2. unfold next_rowid.
    rewrite Hids, fold_max_ids_upto. f_equal. lia.
  - rewrite H. unfold updateTxStatusStmt_run. cbn [transactions set_transactions].
    now rewrite update_ids, length_map.
  - rewrite H. unfold updateTxStatusStmt_run. cbn [transactions set_transactions].
    now rewrite update_ids, length_map.
Qed.

Lemma handle_proofs_kept u s :
  Forall (fun r => Tx.proof_files r <> []) (transactions s) ->
  Forall (fun r => Tx.proof_files r <> []) (transactions (fst (handle u s))).
Proof.
  intros Hp.
  destruct (handle_changes u s) as [[H | row H1 _ _ _ H5 | latest note _ H | data a digits note _ _ _ _ H] _].
  - now rewrite H.
  - rewrite H1. apply Forall_app. split; auto.
  - rewrite H. unfold updateTxStatusStmt_run. cbn [transactions set_transactions].
    apply Forall_map. eapply Forall_impl; [exact Hp|]. intros r Hr. simpl.
    now destruct (Tx.id r =? Tx.id latest).
  - rewrite H. unfold updateTxStatusStmt_run. cbn [transactions set_transactions].
    apply Forall_map. eapply Forall_impl; [exact Hp|]. intros r Hr. simpl.
    now destruct (Tx.id r =? Js.parseInt digits).
Qed.
(** *** Trimming *)

Lemma trimEnd_idem s : Js.trimEnd (Js.trimEnd s) = Js.trimEnd s.
Proof.
  induction s as [|c r IH]; simpl; auto.
  destruct (Js.trimEnd r) as [|d r0] eqn:E.
  - destruct (Js.is_space c) eqn:Ec; simpl; auto. now rewrite Ec.
  - simpl in IH |- *. now rewrite IH.
Qed.

Lemma trimStart_head s :
  Js.trimStart s = EmptyString
  \/ exists c r, Js.trimStart s = String c r /\ Js.is_space c = false.
Proof.
  induction s as [|c r IH]; simpl; auto.
  destruct (Js.is_space c) eqn:E; auto. right. eauto.
Qed.

Lemma trim_head s :
  Js.trim s = EmptyString
  \/ exists c r, Js.trim s = String c r /\ Js.is_space c = false.
Proof.
  unfold Js.trim. destruct (trimStart_head s) as [-> | (c & r & -> & Hc)]; auto.
  right. destruct (trimEnd_cons c r Hc) as (r' & ->). eauto.
Qed.

Lemma trim_idem s : Js.trim (Js.trim s) = Js.trim s.
Proof.
  destruct (trim_head s) as [H | (c & r & H & Hc)].
  - rewrite H. reflexivity.
  - unfold Js.trim at 1. rewrite H. simpl Js.trimStart. rewrite Hc.
    rewrite <- H. unfold Js.trim. apply trimEnd_idem.
Qed.

Lemma includes_take c n : forall s,
  Js.includes (String c EmptyString) (Js.take n s) = true ->
  Js.includes (String c EmptyString) s = true.
Proof.
  induction n as [|n IH]; intros [|d r]; simpl; try (rewrite includes_char_nil; discriminate).
  rewrite !includes_char_cons. intros H. apply orb_true_iff in H as [H|H].
  - now rewrite H.
  - rewrite (IH r H). apply orb_true_r.
Qed.

Lemma includes_drop c n : forall s,
  Js.includes (String c EmptyString) (Js.drop n s) = true ->
  Js.includes (String c EmptyString) s = true.
Proof.
  induction n as [|n IH]; intros [|d r]; simpl; auto.
  intros H. rewrite includes_char_cons, (IH r H). apply orb_true_r.
Qed.

Lemma take_before_colon s :
  Js.includes ":" (Js.take (Z.to_nat (Js.indexOf ":" s)) s) = false.
Proof.
  induction s as [|c r IH]; [reflexivity|].
  rewrite indexOf_colon_cons.
  destruct (Ascii.eqb c ":"%char) eqn:Ec; [reflexivity|].
  pose proof (indexOf_lower_bound ":" r) as Hlb.
  destruct (Js.indexOf ":" r <? 0) eqn:E; [reflexivity|].
  apply Z.ltb_ge in E.
  replace (Z.to_nat (Js.indexOf ":" r + 1)) with (S (Z.to_nat (Js.indexOf ":" r))) by lia.
  cbn [Js.take]. now rewrite includes_char_cons, Ec, IH.
Qed.

Lemma split_lines_no_newline s :
  Forall (fun l => Js.includes Js.nl l = false) (Js.split_lines s).
Proof.
  induction s as [|c r IH]; simpl.
  - constructor; [reflexivity | constructor].
  - destruct (Ascii.eqb c "010"%char) eqn:Ec.
    + constructor; [reflexivity | exact IH].
    + destruct (Js.split_lines r) as [|l ls]; constructor.
      * unfold Js.nl. now rewrite includes_char_cons, Ec.
      * constructor.
      * inversion IH; subst. unfold Js.nl in *.
        now rewrite includes_char_cons, Ec.
      * now inversion IH.
Qed.

Lemma not_includes_trim c s :
  Js.includes (String c EmptyString) s = false ->
  Js.includes (String c EmptyString) (Js.trim s) = false.
Proof.
  intros H. destruct (Js.includes _ (Js.trim s)) eqn:E; auto.
  apply includes_trim in E. congruence.
Qed.

Lemma not_includes_slice c s b e :
  Js.includes (String c EmptyString) s = false ->
  Js.includes (String c EmptyString) (Js.slice s b e) = false.
Proof.
  intros H. unfold Js.slice. destruct (Js.includes _ (Js.take _ _)) eqn:E; auto.
  apply includes_take, includes_drop in E. congruence.
Qed.

Lemma not_includes_slice_from c s b :
  Js.includes (String c EmptyString) s = false ->
  Js.includes (String c EmptyString) (Js.slice_from s b) = false.
Proof.
  intros H. unfold Js.slice_from. destruct (Js.includes _ (Js.drop _ _)) eqn:E; auto.
  apply includes_drop in E. congruence.
Qed.

(** *** The order of the keys *)

Lemma add_keeps_order k v o :
  enumeration_order (Object.keys o) ->
  enumeration_order (Object.keys (Object.add k v o)).
Proof.
  induction o as [|[k' v'] o IH]; intros Ho.
  - simpl. split; [constructor | exact I].
  - destruct Ho as [Hk' Ho]. cbn [Object.add].
    destruct (Object.is_index k
              && (negb (Object.is_index k') || (Js.parseInt k <? Js.parseInt k'))) eqn:E.
    + cbn [Object.keys map fst enumeration_order]. split; [|split; assumption].
      apply andb_true_iff in E as [Hi E]. unfold stays_before.
      constructor.
      * rewrite Hi. destruct (Object.is_index k'); simpl; auto.
        simpl in E. apply Z.ltb_lt in E.
        apply negb_true_iff, Z.ltb_ge. lia.
      * rewrite Forall_forall. intros k2 Hk2. rewrite Forall_forall in Hk'.
        specialize (Hk' k2 Hk2). unfold stays_before in Hk'.
        apply negb_true_iff in Hk'. apply negb_true_iff.
        destruct (Object.is_index k2); [|reflexivity]. simpl in *.
        rewrite Hi. simpl. apply orb_false_iff in Hk' as [Hk1' Hlt].
        apply negb_false_iff in Hk1'. rewrite Hk1' in E. simpl in E.
        apply Z.ltb_lt in E. apply Z.ltb_ge in Hlt. apply Z.ltb_ge. lia.
    + cbn [Object.keys map fst enumeration_order]. split; [|now apply IH].
      rewrite Forall_forall. intros k2 Hk2.
      apply list_elem_of_In in Hk2.
      change (map fst (Object.add k v o)) with (Object.keys (Object.add k v o)) in Hk2.
      apply add_keys_In in Hk2 as [-> | Hk2].
      * unfold stays_before. now rewrite E.
      * rewrite Forall_forall in Hk'. apply Hk'. now apply list_elem_of_In.
Qed.

Lemma set_keeps_order k v o :
  enumeration_order (Object.keys o) ->
  enumeration_order (Object.keys (Object.set k v o)).
Proof.
  intros Ho. unfold Object.set.
  destruct (String.eqb k "__proto__"); auto.
  destruct (Object.has k o); [now rewrite update_keys | now apply add_keeps_order].
Qed.

Lemma parse_details_order text :
  enumeration_order (Object.keys (parse_details text)).
Proof.
  unfold parse_details.
  generalize (List.filter Js.truthy (map Js.trim (Js.split_lines text))).
  intros lines. assert (H0 : enumeration_order (Object.keys [])) by exact I.
  revert H0. generalize (@nil (string * string)).
  induction lines as [|line lines IH]; intros obj H0; simpl; auto.
  apply IH. destruct (0 <? _); auto. destruct (Js.truthy _); auto.
  now apply set_keeps_order.
Qed.

Lemma add_at_end k v o :
  Forall (fun k' => stays_before k' k = true) (Object.keys o) ->
  Object.add k v o = app o [(k, v)].
Proof.
  induction o as [|[k' v'] o IH]; intros Ho; [reflexivity|].
  inversion Ho as [|? ? Hk' Ho']; subst. cbn [Object.add].
  unfold stays_before in Hk'. apply negb_true_iff in Hk'. simpl fst in Hk'.
  rewrite Hk'. simpl. f_equal. now apply IH.
Qed.

Lemma order_app_last ks k :
  enumeration_order (app ks [k]) -> Forall (fun k' => stays_before k' k = true) ks.
Proof.
  induction ks as [|k0 ks IH]; simpl; [constructor|].
  intros [H1 H2]. constructor; [|now apply IH].
  rewrite Forall_forall in H1. apply H1. apply list_elem_of_In, in_or_app.
  right. now left.
Qed.

Lemma order_app_l ks : forall ks', enumeration_order (app ks ks') -> enumeration_order ks.
Proof.
  induction ks as [|k0 ks IH]; simpl; auto.
  intros ks' [H1 H2]. split; [|now apply (IH ks')].
  apply Forall_app in H1. tauto.
Qed.

(** Assigning the entries of an object in their order to a fresh object
    rebuilds it. *)
Lemma assign_entries_rebuilds : forall rest acc,
  enumeration_order (Object.keys (app acc rest)) ->
  List.NoDup (Object.keys (app acc rest)) ->
  ~ In "__proto__" (Object.keys rest) ->
  fold_left (fun obj kv => Object.set (fst kv) (snd kv) obj) rest acc = app acc rest.
Proof.
  induction rest as [|[k v] rest IH]; intros acc Ho Hnd Hp.
  - now rewrite app_nil_r.
  - cbn [fold_left fst snd].
    assert (Hset : Object.set k v acc = app acc [(k, v)]).
    { unfold Object.set.
      destruct (String.eqb k "__proto__") eqn:Ep.
      { apply String.eqb_eq in Ep. subst k. exfalso. apply Hp. now left. }
      destruct (Object.has k acc) eqn:Eh.
      { exfalso. apply has_In in Eh. unfold Object.keys in Hnd. rewrite map_app in Hnd.
        apply List.NoDup_remove_2 in Hnd. apply Hnd. apply in_or_app. now left. }
      apply add_at_end. apply order_app_last.
      unfold Object.keys in Ho. rewrite map_app in Ho. cbn [map fst] in Ho.
      change (map fst acc ++ k :: map fst rest)%list
        with (app (map fst acc) (app [k] (map fst rest))) in Ho.
      rewrite app_assoc in Ho. apply order_app_l in Ho. exact Ho. }
    rewrite Hset.
    replace (app acc ((k, v) :: rest)) with (app (app acc [(k, v)]) rest)
      by (rewrite <- app_assoc; reflexivity).
    apply IH.
    + rewrite <- app_assoc. exact Ho.
    + rewrite <- app_assoc. exact Hnd.
    + intros Hin. apply Hp. now right.
Qed.

(** *** Lines written as key: value *)

Lemma trimmed_trimEnd x : trimmed x -> Js.trimEnd x = x.
Proof.
  unfold trimmed, Js.trim. intros H. rewrite <- H at 1. rewrite trimEnd_idem. exact H.
Qed.

Lemma trimmed_head x :
  trimmed x -> x <> EmptyString ->
  exists c r, x = String c r /\ Js.is_space c = false.
Proof.
  intros Ht Hne. destruct (trim_head x) as [H | (c & r & H & Hc)]; rewrite Ht in H.
  - contradiction.
  - eauto.
Qed.

Lemma trimEnd_step c r :
  Js.trimEnd (String c r)
  = match Js.trimEnd r with
    | EmptyString => if Js.is_space c then EmptyString else String c EmptyString
    | String d r' => String c (String d r')
    end.
Proof. reflexivity. Qed.

Lemma append_cons c x y :
  String.append (String c x) y = String c (String.append x y).
Proof. reflexivity. Qed.

Lemma trimEnd_app x y :
  Js.trimEnd y <> EmptyString ->
  Js.trimEnd (String.append x y) = String.append x (Js.trimEnd y).
Proof.
  intros Hy. induction x as [|c x IH]; [reflexivity|].
  rewrite !append_cons, trimEnd_step, IH.
  destruct (String.append x (Js.trimEnd y)) eqn:E; [|reflexivity].
  exfalso. destruct x; [contradiction | rewrite append_cons in E; discriminate].
Qed.

Lemma trimEnd_colon r :
  Js.trimEnd (String ":"%char r) = String ":"%char (Js.trimEnd r).
Proof. rewrite trimEnd_step. now destruct (Js.trimEnd r). Qed.

Lemma trimEnd_space_value v :
  trimmed v -> Js.trim (Js.trimEnd (String " "%char v)) = v.
Proof.
  intros Hv. pose proof (trimmed_trimEnd v Hv) as He.
  rewrite trimEnd_step, He. destruct v as [|c r]; [reflexivity|].
  unfold Js.trim. cbn [Js.trimStart]. change (Js.is_space " "%char) with true.
  cbv iota. exact Hv.
Qed.

Lemma trim_key_line k v :
  trimmed k -> k <> EmptyString ->
  Js.trim (String.append k (String ":"%char (String " "%char v)))
  = String.append k (String ":"%char (Js.trimEnd (String " "%char v))).
Proof.
  intros Hk Hne. destruct (trimmed_head k Hk Hne) as (c & r & -> & Hc).
  unfold Js.trim. rewrite append_cons. cbn [Js.trimStart]. rewrite Hc.
  rewrite <- append_cons.
  rewrite trimEnd_app; rewrite trimEnd_colon; [reflexivity | discriminate].
Qed.

Lemma split_first_colon_app k r :
  Js.includes ":" k = false ->
  split_first_colon (String.append k (String ":"%char r)) = Some (k, r).
Proof.
  induction k as [|c k IH]; intros Hk; [reflexivity|].
  rewrite includes_char_cons in Hk. apply orb_false_iff in Hk as [Hc Hk].
  rewrite append_cons. cbn [split_first_colon]. rewrite Hc, (IH Hk). reflexivity.
Qed.

Lemma pair_of_key_line k v :
  k <> EmptyString -> trimmed k -> trimmed v -> Js.includes ":" k = false ->
  pair_of_line (String.append k (String.append ": " v)) = Some (k, v).
Proof.
  intros Hne Hk Hv Hc. unfold pair_of_line.
  change (String.append ": " v) with (String ":"%char (String " "%char v)).
  rewrite (trim_key_line k v Hk Hne), (split_first_colon_app _ _ Hc).
  unfold trimmed in Hk. rewrite Hk, (trimEnd_space_value v Hv).
  destruct k; [contradiction | reflexivity].
Qed.

Lemma includes_char_app c x y :
  Js.includes (String c EmptyString) (String.append x y)
  = Js.includes (String c EmptyString) x || Js.includes (String c EmptyString) y.
Proof.
  induction x as [|d x IH]; [reflexivity|].
  rewrite append_cons, !includes_char_cons, IH. apply orb_assoc.
Qed.

Lemma split_lines_single l : Js.includes Js.nl l = false -> Js.split_lines l = [l].
Proof.
  unfold Js.nl. induction l as [|c l IH]; [reflexivity|].
  rewrite includes_char_cons. intros H. apply orb_false_iff in H as [Hc Hl].
  cbn [Js.split_lines]. now rewrite Hc, (IH Hl).
Qed.

Lemma split_lines_app l x :
  Js.includes Js.nl l = false ->
  Js.split_lines (String.append l (String "010"%char x)) = l :: Js.split_lines x.
Proof.
  unfold Js.nl. induction l as [|c l IH]; [reflexivity|].
  rewrite includes_char_cons. intros H. apply orb_false_iff in H as [Hc Hl].
  rewrite append_cons. cbn [Js.split_lines]. now rewrite Hc, (IH Hl).
Qed.

Lemma split_join_lines : forall ls,
  ls <> [] -> Forall (fun l => Js.includes Js.nl l = false) ls ->
  Js.split_lines (Js.join_lines ls) = ls.
Proof.
  induction ls as [|l ls IH]; intros Hne Hall; [contradiction|].
  inversion Hall as [|? ? Hl Hls]; subst.
  destruct ls as [|l2 ls].
  - now apply split_lines_single.
  - change (Js.join_lines (l :: l2 :: ls))
      with (String.append l (String "010"%char (Js.join_lines (l2 :: ls)))).
    rewrite (split_lines_app _ _ Hl), IH; [reflexivity | discriminate | exact Hls].
Qed.

(** * Further properties *)

(** X1.  Handling any update leaves the sender with a row in [users]; a row
    that was there is still there with the same id, username, full name and
    creation date ([INSERT OR IGNORE] never overwrites, and only
    [account_details] is ever updated); and no row appears for anyone but
    the sender. *)
Theorem user_rows_are_kept (u : Update) (s : State) :
  is_Some (users (fst (handle u s)) !! from_id (from u))
  /\ (forall uid row,
        users s !! uid = Some row ->
        exists row', users (fst (handle u s)) !! uid = Some row' /\ same_identity row row')
  /\ (forall uid,
        uid <> from_id (from u) -> users s !! uid = None ->
        users (fst (handle u s)) !! uid = None).
Proof.
  split; [apply handle_sender_stored|]. split.
  - intros uid row. apply handle_row_kept.
  - intros uid. apply handle_other_absent.
Qed.

(** X2.  The profile stored for a user is the one of the first update seen
    from that user: whatever follows, the row keeps that update's username
    (null when empty), trimmed full name and time. *)
Theorem first_seen_profile_wins (u : Update) (us : list Update) (s : State) :
  users s !! from_id (from u) = None ->
  exists row,
    users (run (u :: us) s) !! from_id (from u) = Some row
    /\ User.id row = from_id (from u)
    /\ User.username row = or_null (from_username (from u))
    /\ User.full_name row =
         Js.trim (Js.cat [first_name (from u); " "; or_else (last_name (from u)) EmptyString])
    /\ User.created_at row = now u.
Proof.
  intros Hnew.
  assert (H0 : users (store_user u s) !! from_id (from u) =
               Some {| User.id := from_id (from u);
                       User.username := or_null (from_username (from u));
                       User.full_name :=
                         Js.trim (Js.cat [first_name (from u); " ";
                                          or_else (last_name (from u)) EmptyString]);
                       User.account_details := None; User.created_at := now u |}).
  { unfold store_user, insertUserStmt_run. rewrite Hnew. simpl.
    apply lookup_insert_eq. }
  assert (H1 : exists row1, users (fst (handle u s)) !! from_id (from u) = Some row1
                 /\ same_identity {| User.id := from_id (from u);
                       User.username := or_null (from_username (from u));
                       User.full_name :=
                         Js.trim (Js.cat [first_name (from u); " ";
                                          or_else (last_name (from u)) EmptyString]);
                       User.account_details := None; User.created_at := now u |} row1).
  { destruct (handle_users u s) as [H | (obj & H)]; rewrite H.
    - eexists. split; [exact H0 | repeat split].
    - rewrite lookup_alter_eq, H0. eexists. split; [reflexivity | repeat split]. }
  destruct H1 as (row1 & Hr1 & Hs1).
  rewrite run_cons.
  destruct (run_row_kept us _ _ _ Hr1) as (row & Hr & Hs).
  exists row. split; [exact Hr|].
  destruct (same_identity_trans _ _ _ Hs1 Hs) as (Ha & Hb & Hc & Hd).
  auto.
Qed.

(** X3.  Rows of [transactions] are never removed, moved or rewritten: along
    any run, the rows of the starting store stay at their place and keep
    their id, owner, type, amount, currency or card, proof files and
    creation date; only status and admin note can differ. *)
Theorem rows_are_never_removed : forall (us : list Update) (s : State),
  (List.length (transactions s) <= List.length (transactions (run us s)))%nat
  /\ Forall2 same_submission (transactions s)
       (firstn (List.length (transactions s)) (transactions (run us s))).
Proof.
  induction us as [|u us IH]; intros s.
  - change (run [] s) with s. split; [lia|]. rewrite firstn_all.
    apply Forall2_same_submission_refl.
  - rewrite run_cons.
    destruct (handle_rows_kept u s) as (added & H1 & H2 & _).
    destruct (IH (fst (handle u s))) as [H3 H4].
    split; [lia|].
    apply (Forall2_take _ _ _ (List.length (transactions s))) in H4.
    rewrite take_take, Nat.min_l in H4 by lia.
    eapply Forall2_trans; [|exact H1|exact H4].
    intros x y z. apply same_submission_trans.
Qed.

(** X4.  Starting from the empty store, the rows carry the ids 1, 2, ..., n
    in the order of their creation: [AUTOINCREMENT] gives each submission
    the next integer. *)
Theorem row_ids_count_up (us : list Update) :
  map Tx.id (transactions (run us init))
  = ids_upto (List.length (transactions (run us init))).
Proof.
  assert (H : forall us s,
            map Tx.id (transactions s) = ids_upto (List.length (transactions s)) ->
            map Tx.id (transactions (run us s))
            = ids_upto (List.length (transactions (run us s)))).
  { clear us. induction us as [|u us IH]; intros s Hs; [exact Hs|].
    rewrite run_cons. apply IH. now apply handle_ids_upto. }
  apply H. reflexivity.
Qed.

Lemma handle_owners_stored u s :
  Forall (fun r => is_Some (users s !! Tx.user_id r)) (transactions s) ->
  Forall (fun r => is_Some (users (fst (handle u s)) !! Tx.user_id r))
    (transactions (fst (handle u s))).
Proof.
  intros Ho.
  assert (Hkept : forall uid, is_Some (users s !! uid) ->
                              is_Some (users (fst (handle u s)) !! uid)).
  { intros uid [row Hrow]. destruct (handle_row_kept u s uid row Hrow) as (r & Hr & _).
    eauto. }
  destruct (handle_changes u s) as [[H | row H1 _ _ H4 _ | latest note _ H | data a digits note _ _ _ _ H] _];
    rewrite ?H, ?H1.
  - eapply Forall_impl; [exact Ho|]. intros r. apply Hkept.
  - apply Forall_app. split.
    + eapply Forall_impl; [exact Ho|]. intros r. apply Hkept.
    + constructor; [|constructor]. rewrite H4. apply handle_sender_stored.
  - unfold updateTxStatusStmt_run. cbn [transactions set_transactions].
    apply Forall_map. eapply Forall_impl; [exact Ho|]. intros r Hr.
    destruct (Tx.id r =? Tx.id latest); now apply Hkept.
  - unfold updateTxStatusStmt_run. cbn [transactions set_transactions].
    apply Forall_map. eapply Forall_impl; [exact Ho|]. intros r Hr.
    destruct (Tx.id r =? Js.parseInt digits); now apply Hkept.
Qed.

(** X5.  Starting from the empty store, every row of [transactions] holds at
    least one proof file and belongs to a user that has a row in
    [users]. *)
Theorem persisted_rows_hold_proof (us : list Update) :
  Forall (fun r => Tx.proof_files r <> []
                   /\ is_Some (users (run us init) !! Tx.user_id r))
    (transactions (run us init)).
Proof.
  assert (H : forall us s,
            Forall (fun r => Tx.proof_files r <> []) (transactions s) ->
            Forall (fun r => is_Some (users s !! Tx.user_id r)) (transactions s) ->
            Forall (fun r => Tx.proof_files r <> []) (transactions (run us s))
            /\ Forall (fun r => is_Some (users (run us s) !! Tx.user_id r))
                 (transactions (run us s))).
  { clear us. induction us as [|u us IH]; intros s H1 H2; [now split|].
    rewrite run_cons. apply IH; [now apply handle_proofs_kept | now apply handle_owners_stored]. }
  destruct (H us init) as [H1 H2]; try constructor.
  apply Forall_forall. intros r Hr. split.
  - rewrite Forall_forall in H1. now apply H1.
  - rewrite Forall_forall in H2. now apply H2.
Qed.

(** X6.  An approve or reject action of the administrator on an existing
    transaction sets its status to approved or rejected whatever the status
    was, records a note, leaves the status of every other transaction, the
    sessions and the stored account details as they were, and tells the
    owner; the answer to the button is "Approved." or "Rejected.". *)
Theorem admin_decision_sets_status (u : Update) (data : string) (a : Action)
    (digits : string) (s : State) (txRow : Tx.t) :
  body u = Callback data ->
  match_action data = Some (a, digits) ->
  from_id (from u) = ADMIN_CHAT_ID ->
  getTxByIdStmt_get (Js.parseInt digits) s = Some txRow ->
  getTxByIdStmt_get (Js.parseInt digits) (fst (handle u s)) =
    Some (with_status (status_of_action a)
            (Js.cat [match a with
                     | approve => "Approved by admin "
                     | reject => "Rejected by admin "
                     end; Js.of_Z (from_id (from u)); " at "; now u]) txRow)
  /\ status_of (Js.parseInt digits) (fst (handle u s)) = Some (status_of_action a)
  /\ (forall id, id <> Js.parseInt digits ->
                 status_of id (fst (handle u s)) = status_of id s)
  /\ sessions (fst (handle u s)) = sessions s
  /\ (forall uid, saved_details uid (fst (handle u s)) = saved_details uid s)
  /\ (exists edited told rest,
        snd (handle u s) =
          editMessageText edited :: sendMessage (Tx.user_id txRow) told no_markup
          :: app rest [answerCbQuery
                         match a with approve => "Approved." | reject => "Rejected." end
                         false]).
Proof.
  intros Hb Hm Ha Hg.
  assert (Hg' : getTxByIdStmt_get (Js.parseInt digits) (store_user u s) = Some txRow).
  { rewrite <- Hg. apply getTxByIdStmt_get_ext, store_user_transactions. }
  assert (Hst : status_of (Js.parseInt digits) (store_user u s) = Some (Tx.status txRow)).
  { unfold status_of. now rewrite Hg'. }
  assert (Hother : forall id, status_of id (store_user u s) = status_of id s).
  { intros id. apply status_of_ext, store_user_transactions. }
  unfold handle, dispatch, on_action. rewrite Hb, Hm, Ha, Z.eqb_refl, Hg'. cbn [negb].
  destruct a; cbn [finish fst snd status_of_action].
  - repeat split.
    + unfold getTxByIdStmt_get, updateTxStatusStmt_run in *.
      cbn [transactions set_transactions]. rewrite find_id_update, Hg'.
      apply find_some in Hg' as [_ Hid]. now rewrite Hid.
    + rewrite status_update, Hst, Z.eqb_refl. reflexivity.
    + intros id Hne. rewrite status_update, Hother.
      apply Z.eqb_neq in Hne. rewrite Hne. now destruct (status_of id s).
    + apply store_user_sessions.
    + intros uid. apply store_user_saved.
    + eexists _, _, [_]. reflexivity.
  - repeat split.
    + unfold getTxByIdStmt_get, updateTxStatusStmt_run in *.
      cbn [transactions set_transactions]. rewrite find_id_update, Hg'.
      apply find_some in Hg' as [_ Hid]. now rewrite Hid.
    + rewrite status_update, Hst, Z.eqb_refl. reflexivity.
    + intros id Hne. rewrite status_update, Hother.
      apply Z.eqb_neq in Hne. rewrite Hne. now destruct (status_of id s).
    + apply store_user_sessions.
    + intros uid. apply store_user_saved.
    + eexists _, _, []. reflexivity.
Qed.

(** X7.  An action of the administrator that names a transaction id without
    row changes nothing (beyond storing the sender) and is answered with
    the alert "Transaction not found.". *)
Theorem decision_on_unknown_transaction (u : Update) (data : string) (a : Action)
    (digits : string) (s : State) :
  body u = Callback data ->
  match_action data = Some (a, digits) ->
  from_id (from u) = ADMIN_CHAT_ID ->
  getTxByIdStmt_get (Js.parseInt digits) s = None ->
  handle u s = (store_user u s, [answerCbQuery "Transaction not found." true])
  /\ transactions (store_user u s) = transactions s
  /\ sessions (store_user u s) = sessions s.
Proof.
  intros Hb Hm Ha Hg. split; [|split].
  - unfold handle, dispatch, on_action. rewrite Hb, Hm, Ha, Z.eqb_refl. cbn [negb].
    rewrite (getTxByIdStmt_get_ext _ s (store_user u s)) by apply store_user_transactions.
    now rewrite Hg.
  - apply store_user_transactions.
  - apply store_user_sessions.
Qed.

(** *** Decimal numerals *)

Lemma parse_digits_uint d : forall d',
  Js.parse_digits (Z.of_N (DecimalPos.Unsigned.of_lu d')) (NilEmpty.string_of_uint d)
  = Z.of_N (DecimalPos.Unsigned.of_lu (Decimal.revapp d d')).
Proof.
  induction d as [|d IH|d IH|d IH|d IH|d IH|d IH|d IH|d IH|d IH|d IH]; intros d';
    [reflexivity|..];
    cbn [NilEmpty.string_of_uint Js.parse_digits Decimal.revapp];
    rewrite <- IH; f_equal;
    rewrite (DecimalPos.Unsigned.of_lu_eqn (_ d'));
    cbn [DecimalPos.Unsigned.hd DecimalPos.Unsigned.tl];
    rewrite N2Z.inj_add, N2Z.inj_mul;
    generalize (Z.of_N (DecimalPos.Unsigned.of_lu d')); intros x;
    match goal with
    | |- 10 * x + ?a = ?b + ?c * x =>
        let a' := eval vm_compute in a in
        let b' := eval vm_compute in b in
        let c' := eval vm_compute in c in
        change (10 * x + a' = b' + c' * x)
    end; lia.
Qed.

Lemma all_digits_uint d : Js.all_digits (NilEmpty.string_of_uint d) = true.
Proof. induction d; simpl; auto. Qed.

Lemma of_Z_parse n : 0 <= n -> Js.parseInt (Js.of_Z n) = n.
Proof.
  intros Hn. unfold Js.parseInt, Js.of_Z. destruct n as [|p|p]; [reflexivity| |lia].
  cbn [Z.to_int NilZero.string_of_int].
  pose proof (DecimalPos.Unsigned.to_uint_nonnil p) as Hnil.
  unfold NilZero.string_of_uint. destruct (Pos.to_uint p) eqn:E; [congruence|..];
    rewrite <- E;
    change 0 with (Z.of_N (DecimalPos.Unsigned.of_lu Decimal.Nil));
    rewrite parse_digits_uint;
    change (Decimal.revapp (Pos.to_uint p) Decimal.Nil) with (Decimal.rev (Pos.to_uint p));
    rewrite <- DecimalPos.Unsigned.of_uint_alt, DecimalPos.Unsigned.of_to; reflexivity.
Qed.

Lemma of_Z_digits n :
  0 <= n -> Js.truthy (Js.of_Z n) = true /\ Js.all_digits (Js.of_Z n) = true.
Proof.
  intros Hn. unfold Js.of_Z. destruct n as [|p|p]; [split; reflexivity| |lia].
  cbn [Z.to_int NilZero.string_of_int].
  pose proof (DecimalPos.Unsigned.to_uint_nonnil p) as Hnil.
  unfold NilZero.string_of_uint.
  destruct (Pos.to_uint p) eqn:E; [congruence|..];
    (split; [reflexivity | rewrite <- E; apply all_digits_uint]).
Qed.

(** X8.  The callback data written under a submission reads back: for every
    id that is not negative, the data of the Approve (Reject) button matches
    the action pattern with that action, and [parseInt] of its digits is the
    id. *)
Theorem button_data_round_trip (a : Action) (txId : Z) :
  0 <= txId ->
  exists digits,
    match_action (button_data a txId) = Some (a, digits)
    /\ Js.parseInt digits = txId.
Proof.
  intros Hn. exists (Js.of_Z txId). split; [|now apply of_Z_parse].
  destruct (of_Z_digits txId Hn) as [Ht Hd].
  destruct a; unfold match_action, button_data.
  - change (Js.startsWith "approve:" (String.append "approve:" (Js.of_Z txId))) with true.
    change (Js.drop 8 (String.append "approve:" (Js.of_Z txId))) with (Js.of_Z txId).
    cbv iota beta. now rewrite Ht, Hd.
  - change (Js.startsWith "approve:" (String.append "reject:" (Js.of_Z txId))) with false.
    change (Js.startsWith "reject:" (String.append "reject:" (Js.of_Z txId))) with true.
    change (Js.drop 7 (String.append "reject:" (Js.of_Z txId))) with (Js.of_Z txId).
    cbv iota beta. now rewrite Ht, Hd.
Qed.


(** X10.  A photo from a user whose Flow is absent, or not yet awaiting
    proof, is not collected: the reply says that no selling flow is open,
    and neither the Flow nor table [transactions] changes. *)
Theorem photo_outside_flow_is_refused (u : Update) (photo : PhotoSize)
    (larger : list PhotoSize) (s : State) :
  body u = Photo photo larger ->
  match flow_of (from_id (from u)) s with
  | Some flow => Flow.step flow <> await_proof
  | None => True
  end ->
  snd (handle u s) =
    [reply (Js.cat ["I received a photo but you are not in a selling flow. Use ";
                    Js.dq; "Sell Crypto"; Js.dq; " or "; Js.dq; "Sell Giftcard";
                    Js.dq; " to start."]) no_markup]
  /\ transactions (fst (handle u s)) = transactions s
  /\ (forall uid, flow_of uid (fst (handle u s)) = flow_of uid s).
Proof.
  intros Hb Hflow. unfold handle, dispatch. rewrite Hb.
  rewrite <- (store_user_flow u) in Hflow.
  assert (H : on_photo u photo larger (store_user u s) =
              Stop (ensure_session (from_id (from u)) (store_user u s))
                [reply (Js.cat ["I received a photo but you are not in a selling flow. Use ";
                    Js.dq; "Sell Crypto"; Js.dq; " or "; Js.dq; "Sell Giftcard";
                    Js.dq; " to start."]) no_markup]).
  { unfold on_photo. rewrite ensure_session_flow.
    destruct (flow_of _ _) as [flow|]; [|reflexivity].
    destruct (Flow.step flow); try reflexivity. congruence. }
  rewrite H. cbn [finish fst snd]. repeat split.
  - now rewrite ensure_session_transactions, store_user_transactions.
  - intros uid. now rewrite ensure_session_flow, store_user_flow.
Qed.

(** X11.  /done from a user without Flow creates nothing: the reply says
    that no sale is in progress, and the Flows and table [transactions]
    are as before. *)
Theorem done_outside_sale_is_refused (u : Update) (text : string)
    (entities : list Entity) (s : State) :
  body u = Text text entities ->
  is_command "done" text entities = true ->
  flow_of (from_id (from u)) s = None ->
  snd (handle u s) =
    [reply (Js.cat ["You are not in the middle of a sale. Start with ";
                    Js.dq; "Sell Crypto"; Js.dq; " or "; Js.dq;
                    "Sell Giftcard"; Js.dq; "."]) no_markup]
  /\ transactions (fst (handle u s)) = transactions s
  /\ (forall uid, flow_of uid (fst (handle u s)) = flow_of uid s).
Proof.
  intros Hb Hd Hflow. unfold handle.
  assert (Ha : awaiting_text (from_id (from u)) (store_user u s) = false).
  { unfold awaiting_text. now rewrite store_user_flow, Hflow. }
  rewrite (dispatch_done _ _ _ _ Hb Hd Ha).
  unfold command_done. rewrite Hd, ensure_session_idem, ensure_session_flow,
    store_user_flow, Hflow.
  cbn [finish fst snd]. repeat split.
  - now rewrite ensure_session_transactions, store_user_transactions.
  - intros uid. now rewrite ensure_session_flow, store_user_flow.
Qed.

(** X12.  When the user's Flow awaits the currency or card, a text that is
    neither /start nor a menu label (so also /done sent too early) is
    stored, trimmed, as the currency or card; the Flow then awaits proof,
    with the amount kept, and the reply asks for the proof images. *)
Theorem counterparty_text_advances_flow (u : Update) (text : string)
    (entities : list Entity) (s : State) (flow : Flow.t) :
  body u = Text text entities ->
  free_text text entities = true ->
  flow_of (from_id (from u)) s = Some flow ->
  Flow.step flow = currency ->
  flow_of (from_id (from u)) (fst (handle u s)) =
    Some {| Flow.step := await_proof; Flow.type := Flow.type flow;
            Flow.amount := Flow.amount flow;
            Flow.currency_or_card := Some (Js.trim text);
            Flow.proof := Flow.proof flow |}
  /\ transactions (fst (handle u s)) = transactions s
  /\ snd (handle u s) =
       [reply "Please upload proof image(s). For crypto: upload your payment proof. For giftcards: upload image of card AND receipt (if any). You can send multiple images one after another. When done, send /done."
          no_markup].
Proof.
  intros Hb Hf Hflow Hstep. split; [|split].
  - rewrite (handle_counterparty u text entities s flow Hb Hf Hflow Hstep).
    apply set_flow_same.
  - rewrite (handle_counterparty u text entities s flow Hb Hf Hflow Hstep).
    cbn [set_flow set_sessions transactions]. apply store_user_transactions.
  - unfold handle. rewrite (dispatch_free_text _ _ _ _ Hb Hf).
    rewrite <- (store_user_flow u) in Hflow.
    unfold on_text_flow. rewrite (ensure_session_known _ _ _ Hflow), Hflow, Hstep.
    reflexivity.
Qed.

(** X13.  An intent selection always opens a fresh Flow awaiting the amount,
    whatever Flow the user had (amount, currency and collected proof are
    dropped); its type is crypto exactly when the text is Sell Crypto, in
    any letter case; no transaction is touched and the reply names the
    type. *)
Theorem intent_restarts_flow (u : Update) (text : string)
    (entities : list Entity) (s : State) :
  body u = Text text entities ->
  hears "Sell Crypto" text || hears "Sell Giftcard" text = true ->
  let type := if hears "Sell Crypto" text then crypto else giftcard in
  flow_of (from_id (from u)) (fst (handle u s)) =
    Some {| Flow.step := choose_type; Flow.type := type; Flow.amount := None;
            Flow.currency_or_card := None; Flow.proof := None |}
  /\ transactions (fst (handle u s)) = transactions s
  /\ snd (handle u s) =
       [reply (Js.cat ["You chose to sell: "; SaleType_name type; Js.nl;
                       "Please enter the amount (e.g., $10 or $50):"]) no_markup].
Proof.
  intros Hb Hs type.
  destruct (sell_reaches_handler text entities Hs) as [H1 H2].
  assert (Ht : (if Js.includes "crypto" (Js.toLowerCase text) then crypto else giftcard)
               = type).
  { subst type. unfold hears in *.
    destruct (String.eqb (Js.toLowerCase text) (Js.toLowerCase "Sell Crypto")) eqn:E.
    - apply String.eqb_eq in E. now rewrite E.
    - simpl in Hs. apply String.eqb_eq in Hs. now rewrite Hs. }
  unfold handle, dispatch. rewrite Hb.
  rewrite on_start_next by assumption. cbn [and_then].
  rewrite hears_my_account_next by assumption. cbn [and_then].
  unfold hears_sell. rewrite Hs, Ht. cbn [and_then finish fst snd]. repeat split.
  - apply set_flow_same.
  - cbn [set_flow set_sessions transactions].
    now rewrite ensure_session_transactions, store_user_transactions.
Qed.

(** X14.  The text My Account, in any letter case and in any step of a
    Flow, is answered with the stored account details, one key: value per
    line, or with the notice that none are saved; it changes nothing but
    the registration of the sender. *)
Theorem my_account_shows_details (u : Update) (text : string)
    (entities : list Entity) (s : State) :
  body u = Text text entities ->
  hears "My Account" text = true ->
  handle u s =
    (store_user u s,
     [reply
        match saved_details (from_id (from u)) s with
        | Some account => Js.cat ["Saved account details:"; Js.nl; Object.render account]
        | None =>
            "No account details saved. You will be prompted after your first approved transaction."
        end no_markup]).
Proof.
  intros Hb Hh.
  assert (Hs : is_command "start" text entities = false).
  { destruct (is_command "start" text entities) eqn:E; [|reflexivity].
    destruct (command_not_menu _ _ _ E) as (H & _). congruence. }
  unfold handle, dispatch. rewrite Hb.
  rewrite on_start_next by assumption. cbn [and_then].
  unfold hears_my_account. rewrite Hh.
  rewrite <- (store_user_saved u (from_id (from u)) s).
  unfold saved_details.
  destruct (getUserStmt_get _ _) as [[? ? ? [?|] ?]|]; reflexivity.
Qed.

(** X15.  /start is answered with the welcome text and the menu keyboard in
    every state, also in the middle of a Flow, and leaves the Flows, the
    transactions and the stored details as they are. *)
Theorem start_always_answers (u : Update) (text : string)
    (entities : list Entity) (s : State) :
  body u = Text text entities ->
  is_command "start" text entities = true ->
  handle u s =
    (store_user u s,
     [reply (Js.cat ["Welcome "; first_name (from u); "!"; Js.nl;
                     "I can help you sell crypto or gift cards."; Js.nl;
                     "Choose an option below."])
        (keyboard [["Sell Crypto"; "Sell Giftcard"]; ["My Account"]])])
  /\ sessions (store_user u s) = sessions s
  /\ transactions (store_user u s) = transactions s.
Proof.
  intros Hb Hs. split; [|split].
  - unfold handle, dispatch, on_start. now rewrite Hb, Hs.
  - apply store_user_sessions.
  - apply store_user_transactions.
Qed.

(** X16.  An update changes the session, the Flow and the stored account
    details of nobody but its sender. *)
Theorem update_touches_only_sender (u : Update) (s : State) (uid : Z) :
  uid <> from_id (from u) ->
  sessions (fst (handle u s)) !! uid = sessions s !! uid
  /\ flow_of uid (fst (handle u s)) = flow_of uid s
  /\ saved_details uid (fst (handle u s)) = saved_details uid s.
Proof.
  intros Hne.
  assert (Hs : sessions (fst (handle u s)) !! uid = sessions s !! uid).
  { destruct (handle_sessions u s) as [H | (new & H & _)]; rewrite H; auto.
    apply lookup_insert_ne. congruence. }
  split; [exact Hs|]. split.
  - unfold flow_of, session_of. now rewrite Hs.
  - destruct (handle_changes u s) as [_ Hc].
    destruct (Hc uid) as [H | [H _]]; [exact H | contradiction].
Qed.

Lemma flow_next_ok u old new :
  match old with Some f => flow_ok f | None => True end ->
  flow_next u old new ->
  match new with Some f => flow_ok f | None => True end.
Proof.
  intros Hold Hn. destruct Hn as [old | old type | f text entities _ Hs
                                 | f text entities _ Hs | f Hp Hs | f a c Hs _ _ _];
    auto; unfold flow_ok in *; cbn [Flow.step Flow.amount Flow.currency_or_card Flow.proof].
  - auto.
  - rewrite Hs in Hold. destruct Hold as (_ & H2 & H3). eauto.
  - rewrite Hs in Hold. destruct Hold as (H1 & _ & H3). rewrite H3.
    repeat split; eauto; discriminate.
  - rewrite Hs in *. destruct Hold as (H1 & H2 & H3). repeat split; auto.
    intros Heq. injection Heq as Heq. apply app_eq_nil in Heq as [_ Heq].
    now apply (proof_of_photo_not_empty u).
Qed.

Lemma handle_flow_ok u s :
  (forall uid, match flow_of uid s with Some f => flow_ok f | None => True end) ->
  forall uid, match flow_of uid (fst (handle u s)) with
              | Some f => flow_ok f
              | None => True
              end.
Proof.
  intros Hinv uid.
  destruct (handle_sessions u s) as [H | (new & H & Hn)].
  - rewrite (flow_of_ext uid s _ H). apply Hinv.
  - destruct (decide (from_id (from u) = uid)) as [<- | Hne].
    + replace (flow_of (from_id (from u)) (fst (handle u s))) with new.
      * exact (flow_next_ok u _ _ (Hinv (from_id (from u))) Hn).
      * unfold flow_of, session_of. now rewrite H, lookup_insert_eq.
    + replace (flow_of uid (fst (handle u s))) with (flow_of uid s); [apply Hinv|].
      unfold flow_of, session_of. now rewrite H, lookup_insert_ne.
Qed.

Lemma run_flow_ok : forall us s,
  (forall uid, match flow_of uid s with Some f => flow_ok f | None => True end) ->
  forall uid, match flow_of uid (run us s) with Some f => flow_ok f | None => True end.
Proof.
  induction us as [|u us IH]; intros s Hinv; [exact Hinv|].
  rewrite run_cons. apply IH. now apply handle_flow_ok.
Qed.

(** X17.  On every store reached from the empty one, a Flow holds exactly
    what its step has collected: nothing while it awaits the amount; the
    amount while it awaits the currency or card; amount and currency, and
    never an empty proof array, while it awaits proof.  The step
    await_admin_note is never entered. *)
Theorem flows_are_well_formed (us : list Update) (uid : Z) :
  match flow_of uid (run us init) with
  | Some f => flow_ok f
  | None => True
  end.
Proof. apply run_flow_ok. intros uid'. exact I. Qed.

(** X18.  On every store reached from the empty one, /done from a user
    whose Flow awaits proof and holds at least one file always creates the
    transaction (the insert never lacks a parameter): one pending row is
    added with the next id, the user as owner and the Flow's type, amount,
    currency or card and files, and the Flow is cleared. *)
Theorem done_after_proof_submits (us : list Update) (u : Update) (text : string)
    (entities : list Entity) (flow : Flow.t) (file : ProofFile)
    (files : list ProofFile) :
  body u = Text text entities ->
  is_command "done" text entities = true ->
  flow_of (from_id (from u)) (run us init) = Some flow ->
  Flow.step flow = await_proof ->
  Flow.proof flow = Some (file :: files) ->
  exists tx,
    transactions (fst (handle u (run us init))) = app (transactions (run us init)) [tx]
    /\ Tx.id tx = next_rowid (transactions (run us init))
    /\ Tx.status tx = pending
    /\ Tx.user_id tx = from_id (from u)
    /\ Tx.type tx = Flow.type flow
    /\ Flow.amount flow = Some (Tx.amount tx)
    /\ Flow.currency_or_card flow = Some (Tx.currency_or_card tx)
    /\ Tx.proof_files tx = file :: files
    /\ Tx.created_at tx = now u
    /\ flow_of (from_id (from u)) (fst (handle u (run us init))) = None.
Proof.
  intros Hb Hd Hflow Hstep Hproof.
  pose proof (run_flow_ok us init (fun _ => I) (from_id (from u))) as Hok.
  rewrite Hflow in Hok. unfold flow_ok in Hok. rewrite Hstep in Hok.
  destruct Hok as ([amount Ham] & [cur Hcur] & _).
  rewrite (handle_done_created u text entities _ flow file files amount cur
             Hb Hd Hflow Hstep Hproof Ham Hcur).
  eexists. split.
  - cbn [createTxStmt_run fst set_flow set_sessions set_transactions transactions].
    rewrite store_user_transactions. reflexivity.
  - repeat split; first [reflexivity | exact Ham | exact Hcur | apply set_flow_same].
Qed.

Lemma latestApproved_max_fold uid : forall txs best latest,
  fold_left
    (fun best r =>
       if (Tx.user_id r =? uid) && Status_eqb (Tx.status r) approved then
         match best with
         | Some b => if Tx.id b <? Tx.id r then Some r else best
         | None => Some r
         end
       else best) txs best = Some latest ->
  (forall b, best = Some b -> Tx.id b <= Tx.id latest)
  /\ (forall r, In r txs -> Tx.user_id r = uid -> Tx.status r = approved ->
                Tx.id r <= Tx.id latest).
Proof.
  induction txs as [|r txs IH]; intros best latest Hf; simpl in Hf.
  - split; [|contradiction]. intros b Hb. rewrite Hb in Hf. injection Hf as <-. lia.
  - destruct (IH _ _ Hf) as [H1 H2]. clear IH Hf.
    destruct ((Tx.user_id r =? uid) && Status_eqb (Tx.status r) approved) eqn:E.
    + split.
      * intros b ->. destruct (Tx.id b <? Tx.id r) eqn:Elt.
        -- apply Z.ltb_lt in Elt. specialize (H1 r eq_refl). lia.
        -- now apply H1.
      * intros r' [<- | Hin] Hu Hs; [|now apply H2].
        destruct best as [b|]; [|now apply H1].
        destruct (Tx.id b <? Tx.id r) eqn:Elt; [now apply H1|].
        apply Z.ltb_ge in Elt. specialize (H1 b eq_refl). lia.
    + split; [exact H1|].
      intros r' [<- | Hin] Hu Hs; [|now apply H2].
      rewrite Hu, Hs, Z.eqb_refl in E. discriminate.
Qed.

Lemma latestApproved_max uid s latest r :
  latestApproved_get uid s = Some latest ->
  In r (transactions s) -> Tx.user_id r = uid -> Tx.status r = approved ->
  Tx.id r <= Tx.id latest.
Proof.
  unfold latestApproved_get. intros H. apply (latestApproved_max_fold uid _ _ _ H).
Qed.

Lemma unique_ids_same_row s a b :
  unique_ids s -> In a (transactions s) -> In b (transactions s) ->
  Tx.id a = Tx.id b -> a = b.
Proof.
  intros Hnd Ha Hb Hid.
  pose proof (find_id_unique (Tx.id a) _ a Hnd Ha eq_refl) as H1.
  pose proof (find_id_unique (Tx.id a) _ b Hnd Hb (eq_sym Hid)) as H2.
  congruence.
Qed.

(** X19.  On every store reached from the empty one, an update that does
    not come from the administrator leaves every row of [transactions] as
    it is, except possibly one: the sender's approved transaction with the
    highest id, which becomes completed.  Older approved transactions of
    the sender, and all rows of other users, stay untouched. *)
Theorem only_latest_approved_is_completed (us : list Update) (u : Update) (row : Tx.t) :
  from_id (from u) <> ADMIN_CHAT_ID ->
  In row (transactions (run us init)) ->
  In row (transactions (fst (handle u (run us init))))
  \/ (Tx.user_id row = from_id (from u)
      /\ Tx.status row = approved
      /\ (forall r, In r (transactions (run us init)) ->
                    Tx.user_id r = from_id (from u) -> Tx.status r = approved ->
                    Tx.id r <= Tx.id row)
      /\ status_of (Tx.id row) (fst (handle u (run us init))) = Some completed).
Proof.
  intros Hne Hin.
  pose proof (run_unique_ids us init unique_ids_init) as Hnd.
  destruct (handle_changes u (run us init))
    as [[H | new H1 _ _ _ _ | latest note Hl H | data a digits note _ _ Ha _ _] _].
  - left. now rewrite H.
  - left. rewrite H1. apply in_or_app. now left.
  - destruct (Z.eq_dec (Tx.id row) (Tx.id latest)) as [Heq | Hneq].
    + right.
      pose proof (latestApproved_spec _ _ _ Hl) as (Hlin & Hu & Hs).
      assert (row = latest) by now apply (unique_ids_same_row _ _ _ Hnd).
      subst row. repeat split; auto.
      * intros r. now apply latestApproved_max.
      * rewrite (status_of_ext _ _ _ H). now apply (status_completed _ _ _ latest).
    + left. rewrite H. unfold updateTxStatusStmt_run. cbn [transactions set_transactions].
      apply List.in_map_iff. exists row. split; auto.
      apply Z.eqb_neq in Hneq. now rewrite Hneq.
  - contradiction.
Qed.

Lemma broadcast_not_other text entities :
  is_command "broadcast" text entities = true ->
  is_command "start" text entities = false /\ is_command "done" text entities = false.
Proof.
  intros Hbc.
  apply is_command_startsWith, startsWith_cons in Hbc as (r & -> & Hbc).
  apply startsWith_cons in Hbc as (r1 & -> & _).
  split.
  - destruct (is_command "start" _ entities) eqn:Hs; [|reflexivity].
    apply is_command_startsWith, startsWith_cons in Hs as (r2 & Hr & Hs).
    injection Hr as <-. apply startsWith_cons in Hs as (r3 & Hr & _). discriminate Hr.
  - destruct (is_command "done" _ entities) eqn:Hs; [|reflexivity].
    apply is_command_startsWith, startsWith_cons in Hs as (r2 & Hr & Hs).
    injection Hr as <-. apply startsWith_cons in Hs as (r3 & Hr & _). discriminate Hr.
Qed.

Lemma command_not_confirm name text entities :
  is_command name text entities = true ->
  String.eqb (Js.toUpperCase (Js.trim text)) "CONFIRM" = false.
Proof.
  intros Hc. destruct (String.eqb _ _) eqn:E; [|reflexivity].
  apply String.eqb_eq in E.
  rewrite (confirm_not_command name text entities E) in Hc. discriminate.
Qed.

(** The way of a /broadcast message to its handler. *)
Lemma dispatch_broadcast u text entities s :
  body u = Text text entities ->
  is_command "broadcast" text entities = true ->
  awaiting_text (from_id (from u)) s = false ->
  (latestApproved_get (from_id (from u)) s = None
   \/ Js.includes ":" (Js.trim text) = false) ->
  dispatch u s =
    and_then
      (command_broadcast u text entities (ensure_session (from_id (from u)) s))
      (fun s => command_help text entities s).
Proof.
  intros Hb Hbc Ha Hr.
  destruct (broadcast_not_other _ _ Hbc) as [Hstart Hdone].
  destruct (command_not_menu _ _ _ Hbc) as (H1 & H2 & H3).
  rewrite (dispatch_reply u text entities s Hb
             (free_text_intro _ _ Hstart H1 H2 H3) Ha Hdone).
  rewrite on_text_reply_next; [reflexivity|].
  destruct Hr as [Hl | Hi]; [left | right].
  - rewrite <- Hl. apply latestApproved_get_ext, ensure_session_transactions.
  - split; [|exact Hi]. now rewrite (command_not_confirm _ _ _ Hbc).
Qed.

(** X20.  /broadcast from anyone but the administrator sends nothing to any
    user: the only output is the reply "Only admin can use this command."
    and no table changes (beyond the registration of the sender). *)
Theorem broadcast_by_other_is_refused (u : Update) (text : string)
    (entities : list Entity) (s : State) :
  body u = Text text entities ->
  is_command "broadcast" text entities = true ->
  from_id (from u) <> ADMIN_CHAT_ID ->
  awaiting_text (from_id (from u)) s = false ->
  (latestApproved_get (from_id (from u)) s = None
   \/ Js.includes ":" (Js.trim text) = false) ->
  snd (handle u s) = [reply "Only admin can use this command." no_markup]
  /\ transactions (fst (handle u s)) = transactions s
  /\ (forall uid, saved_details uid (fst (handle u s)) = saved_details uid s)
  /\ (forall uid, flow_of uid (fst (handle u s)) = flow_of uid s).
Proof.
  intros Hb Hbc Hne Ha Hr. unfold handle.
  rewrite <- (awaiting_text_store_user u) in Ha.
  rewrite (dispatch_broadcast u text entities (store_user u s) Hb Hbc Ha).
  2:{ destruct Hr as [Hl | Hi]; [left | now right].
      rewrite <- Hl. apply latestApproved_get_ext, store_user_transactions. }
  unfold command_broadcast. rewrite Hbc.
  apply Z.eqb_neq in Hne. rewrite Hne. cbn [negb and_then finish fst snd].
  repeat split.
  - now rewrite ensure_session_transactions, store_user_transactions.
  - intros uid. rewrite <- (store_user_saved u uid s).
    apply saved_details_ext, ensure_session_users.
  - intros uid. now rewrite ensure_session_flow, store_user_flow.
Qed.

Lemma listUsers_In s uid : In uid (listUsersStmt_all s) <-> is_Some (users s !! uid).
Proof.
  unfold listUsersStmt_all. rewrite List.in_map_iff. split.
  - intros ([k row] & <- & Hin). simpl.
    apply list_elem_of_In, elem_of_map_to_list in Hin. eauto.
  - intros [row Hrow]. exists (uid, row). split; auto.
    now apply list_elem_of_In, elem_of_map_to_list.
Qed.

Lemma listUsers_NoDup s : List.NoDup (listUsersStmt_all s).
Proof.
  unfold listUsersStmt_all. apply NoDup_ListNoDup, NoDup_fst_map_to_list.
Qed.

Lemma delivered_spec u id : delivered u id = true <-> ~ In id (refused u).
Proof.
  unfold delivered. rewrite negb_true_iff. split.
  - intros He Hin. apply not_true_iff_false in He. apply He.
    apply existsb_exists. exists id. split; [exact Hin | apply Z.eqb_refl].
  - intros Hn. apply not_true_iff_false. intros He.
    apply existsb_exists in He as (x & Hin & Hx). apply Z.eqb_eq in Hx. now subst x.
Qed.

(** X21.  /broadcast from the administrator with a message that is not
    blank sends that message, trimmed and under the Broadcast heading, once
    to each user that has a row in [users] and to whom the send goes
    through; a send that fails is skipped.  The reply then gives the number
    of sends that went through, not the number of rows.  The administrator
    is among the recipients unless the send to the administrator fails, and
    when no send fails every row gets the message.  No table changes beyond
    the registration of the sender. *)
Theorem broadcast_counts_deliveries (u : Update) (text : string)
    (entities : list Entity) (s : State) :
  body u = Text text entities ->
  is_command "broadcast" text entities = true ->
  from_id (from u) = ADMIN_CHAT_ID ->
  Js.truthy (Js.trim (strip_broadcast text)) = true ->
  awaiting_text (from_id (from u)) s = false ->
  (latestApproved_get (from_id (from u)) s = None
   \/ Js.includes ":" (Js.trim text) = false) ->
  exists recipients,
    snd (handle u s) =
      app (map (fun id =>
                  sendMessage id
                    (Js.cat ["📣 Broadcast:"; Js.nl; Js.nl; Js.trim (strip_broadcast text)])
                    no_markup) recipients)
          [reply (Js.cat ["Broadcast sent to ~";
                          Js.of_Z (Z.of_nat (List.length recipients)); " users."])
             no_markup]
    /\ List.NoDup recipients
    /\ (forall uid,
          In uid recipients <->
          is_Some (users (fst (handle u s)) !! uid) /\ ~ In uid (refused u))
    /\ (~ In ADMIN_CHAT_ID (refused u) -> In ADMIN_CHAT_ID recipients)
    /\ (refused u = [] ->
        forall uid, is_Some (users (fst (handle u s)) !! uid) -> In uid recipients)
    /\ transactions (fst (handle u s)) = transactions s.
Proof.
  intros Hb Hbc Hadm Ht Ha Hr. unfold handle.
  rewrite <- (awaiting_text_store_user u) in Ha.
  rewrite (dispatch_broadcast u text entities (store_user u s) Hb Hbc Ha).
  2:{ destruct Hr as [Hl | Hi]; [left | now right].
      rewrite <- Hl. apply latestApproved_get_ext, store_user_transactions. }
  unfold command_broadcast. rewrite Hbc, Hadm, Z.eqb_refl, Ht.
  cbn [negb and_then finish fst snd].
  set (s1 := ensure_session ADMIN_CHAT_ID (store_user u s)).
  assert (Hin : forall uid,
            In uid (List.filter (delivered u) (listUsersStmt_all s1)) <->
            is_Some (users s1 !! uid) /\ ~ In uid (refused u)).
  { intros uid. now rewrite List.filter_In, listUsers_In, delivered_spec. }
  exists (List.filter (delivered u) (listUsersStmt_all s1)).
  split; [now rewrite length_map|].
  split; [apply List.NoDup_filter, listUsers_NoDup|].
  split; [exact Hin|]. split; [|split].
  - intros Hn. apply Hin. split; [|exact Hn].
    unfold s1. rewrite ensure_session_users, <- Hadm. apply store_user_registered.
  - intros Hnone uid Hrow. apply Hin. split; [exact Hrow|]. now rewrite Hnone.
  - unfold s1. now rewrite ensure_session_transactions, store_user_transactions.
Qed.

Lemma slice_to_index line :
  Js.slice line 0 (Js.indexOf ":" line) = Js.take (Z.to_nat (Js.indexOf ":" line)) line.
Proof.
  unfold Js.slice. change (Z.to_nat 0) with 0%nat. now rewrite Nat.sub_0_r.
Qed.

Lemma parse_details_entries_ok (text : string) :
  Forall
    (fun e =>
       fst e <> EmptyString
       /\ trimmed (fst e) /\ trimmed (snd e)
       /\ Js.includes ":" (fst e) = false
       /\ Js.includes Js.nl (fst e) = false
       /\ Js.includes Js.nl (snd e) = false)
    (parse_details text).
Proof.
  apply parse_details_entries. intros line Hin Hidx Hk. cbn [fst snd].
  assert (Hnl : Js.includes Js.nl line = false).
  { apply List.in_map_iff in Hin as (l & <- & Hl).
    pose proof (split_lines_no_newline text) as Hall.
    rewrite Forall_forall in Hall. apply not_includes_trim, Hall.
    now apply list_elem_of_In. }
  split; [now apply truthy_not_empty|].
  split; [apply trim_idem|]. split; [apply trim_idem|].
  split; [|split].
  - apply not_includes_trim. rewrite slice_to_index. apply take_before_colon.
  - now apply not_includes_trim, not_includes_slice.
  - now apply not_includes_trim, not_includes_slice_from.
Qed.

Lemma rendered_lines_parse : forall o : Obj,
  Forall
    (fun e =>
       fst e <> EmptyString
       /\ trimmed (fst e) /\ trimmed (snd e)
       /\ Js.includes ":" (fst e) = false
       /\ Js.includes Js.nl (fst e) = false
       /\ Js.includes Js.nl (snd e) = false) o ->
  omap pair_of_line
    (map (fun e => String.append (fst e) (String.append ": " (snd e))) o) = o
  /\ Forall (fun l => Js.includes Js.nl l = false)
       (map (fun e => String.append (fst e) (String.append ": " (snd e))) o).
Proof.
  induction o as [|[k v] o IH]; intros Hall.
  - split; [reflexivity | constructor].
  - inversion Hall as [|? ? (Hne & Hk & Hv & Hc & Hnk & Hnv) Ho]; subst.
    cbn [fst snd] in *. destruct (IH Ho) as [IH1 IH2].
    split.
    + cbn [map omap list_omap fst snd].
      rewrite (pair_of_key_line k v Hne Hk Hv Hc).
      fold (omap (M := list) pair_of_line). now rewrite IH1.
    + cbn [map fst snd]. constructor; [|exact IH2].
      unfold Js.nl in *. rewrite !includes_char_app, Hnk, Hnv. reflexivity.
Qed.

(** X22.  Whatever the text, the object the details parser builds has no
    two entries with the same key and no key __proto__; every key is
    non-empty, trimmed, and free of ':' and of line breaks; every value is
    trimmed and free of line breaks. *)
Theorem parsed_details_are_well_formed (text : string) :
  List.NoDup (Object.keys (parse_details text))
  /\ ~ In "__proto__" (Object.keys (parse_details text))
  /\ Forall
       (fun e =>
          fst e <> EmptyString
          /\ trimmed (fst e) /\ trimmed (snd e)
          /\ Js.includes ":" (fst e) = false
          /\ Js.includes Js.nl (fst e) = false
          /\ Js.includes Js.nl (snd e) = false)
       (parse_details text).
Proof.
  split; [apply parse_details_keys_NoDup|]. split; [apply parse_details_no_proto|].
  apply parse_details_entries_ok.
Qed.

(** X23.  Account details survive being shown and sent back: the lines the
    My Account reply prints below its heading for a parsed details object
    (one line key: value per entry, joined by line breaks) are parsed by the
    details parser to that same object, entry for entry and in the same
    order. *)
Theorem shown_details_parse_back (text : string) :
  parse_details (Object.render (parse_details text)) = parse_details text.
Proof.
  pose proof (parse_details_entries_ok text) as Hok.
  pose proof (parse_details_keys_NoDup text) as Hnd.
  pose proof (parse_details_no_proto text) as Hp.
  pose proof (parse_details_order text) as Hord.
  generalize dependent (parse_details text). intros o Hok Hnd Hp Hord.
  destruct (rendered_lines_parse o Hok) as [Hparse Hnl].
  destruct o as [|e o]; [reflexivity|].
  unfold parse_details at 1. cbv zeta. rewrite parse_lines_agree.
  unfold Object.render, Object.entries.
  rewrite split_join_lines; [| discriminate | exact Hnl].
  rewrite Hparse.
  now apply (assign_entries_rebuilds (e :: o) []).
Qed.

End Bot.

(** * Instances *)

(** ** C1 *)

(** Decisions on another transaction are free: the administrator approves
    sale 1 twice and rejects sale 2 after it was completed; sale 1 still
    goes from pending to approved to completed. *)
Lemma status_history_is_lifecycle_witness :
  decisions_in_order sample_admin 1 sample_stray_decisions init = true
  /\ status_history 1 (trace sample_admin sample_stray_decisions init)
     = [pending; approved; completed]
  /\ status_history 2 (trace sample_admin sample_stray_decisions init)
     = [pending; approved; completed; rejected]
  /\ lifecycle (status_history 1 (trace sample_admin sample_stray_decisions init)).
Proof.
  split; [vm_compute; reflexivity|]. split; [vm_compute; reflexivity|].
  split; [vm_compute; reflexivity|].
  apply (status_history_is_lifecycle sample_admin). vm_compute. reflexivity.
Defined.

(** C1 as stated fails: the administrator rejects a transaction that is
    already completed, and its status changes again. *)
Lemma completed_transaction_rejected :
  status_history 1
    (trace sample_admin
       (app sample_sale
          [button_update boss "approve:1"; text_update alice "account_name: John";
           button_update boss "reject:1"])
       init)
  = [pending; approved; completed; rejected]
  /\ ~ lifecycle
         (status_history 1
            (trace sample_admin
               (app sample_sale
                  [button_update boss "approve:1"; text_update alice "account_name: John";
                   button_update boss "reject:1"])
               init)).
Proof.
  assert (H : status_history 1
    (trace sample_admin
       (app sample_sale
          [button_update boss "approve:1"; text_update alice "account_name: John";
           button_update boss "reject:1"])
       init)
  = [pending; approved; completed; rejected]) by (vm_compute; reflexivity).
  split; [exact H|]. rewrite H.
  intros [Hp | Hp]; apply prefix_length in Hp; simpl in Hp; lia.
Qed.

(** ** C2 *)

Lemma foreign_decision_is_refused_witness :
  body (button_update mallory "approve:1") = Callback "approve:1"
  /\ match_action "approve:1" = Some (approve, "1")
  /\ from_id (from (button_update mallory "approve:1")) <> sample_admin
  /\ handle sample_admin (button_update mallory "approve:1") init =
       (store_user (button_update mallory "approve:1") init,
        [answerCbQuery "Only admin can perform this action." true]).
Proof.
  assert (Hne : from_id (from (button_update mallory "approve:1")) <> sample_admin)
    by (vm_compute; discriminate).
  split; [reflexivity|]. split; [reflexivity|]. split; [exact Hne|].
  exact (proj1 (foreign_decision_is_refused sample_admin
                  (button_update mallory "approve:1") "approve:1" approve "1" init
                  eq_refl eq_refl Hne)).
Defined.

(** C2 as stated fails: the refused action of a sender the bot has never
    seen adds the sender's row to table users. *)
Lemma foreign_decision_registers_sender :
  users init !! 9 = None
  /\ is_Some (users (fst (handle sample_admin (button_update mallory "approve:1") init)) !! 9)
  /\ fst (handle sample_admin (button_update mallory "approve:1") init) <> init.
Proof.
  assert (H : is_Some (users (fst (handle sample_admin
                (button_update mallory "approve:1") init)) !! 9))
    by (vm_compute; eauto).
  split; [reflexivity|]. split; [exact H|].
  intros Heq. rewrite Heq in H. destruct H as [row H]. discriminate H.
Qed.

(** ** C3 *)

Lemma sale_flow_creates_one_pending_witness :
  exists tx,
    transactions (run sample_admin sample_sale init) = app (transactions init) [tx]
    /\ Tx.status tx = pending
    /\ Tx.user_id tx = 7
    /\ Tx.amount tx = Js.trim "50"
    /\ Tx.currency_or_card tx = Js.trim "BTC"
    /\ Tx.proof_files tx = concat (map proof_of_photo [photo_update alice "file-1"])
    /\ Tx.proof_files tx <> []
    /\ flow_of 7 (run sample_admin sample_sale init) = None.
Proof.
  apply (sale_flow_creates_one_pending sample_admin init 7
           (text_update alice "Sell Crypto") (text_update alice "50")
           (text_update alice "BTC") (photo_update alice "file-1")
           (command_update alice "/done") []
           "Sell Crypto" "50" "BTC" "/done" [] [] []
           [{| etype := bot_command; offset := 0; elength := 5 |}]).
  - repeat constructor.
  - reflexivity.
  - vm_compute. reflexivity.
  - reflexivity.
  - vm_compute. reflexivity.
  - reflexivity.
  - vm_compute. reflexivity.
  - repeat constructor.
  - reflexivity.
  - vm_compute. reflexivity.
Defined.

(** C3 as stated fails: the amount text is the menu label My Account, a
    non-empty text.  It is answered by the account handler, the later
    events fall one step behind, and /done is taken as the counterparty: no
    transaction exists and the Flow is still there. *)
Lemma menu_label_as_amount_creates_nothing :
  transactions
    (run sample_admin
       [text_update alice "Sell Crypto"; text_update alice "My Account";
        text_update alice "BTC"; photo_update alice "file-1";
        command_update alice "/done"] init) = []
  /\ flow_of 7
       (run sample_admin
          [text_update alice "Sell Crypto"; text_update alice "My Account";
           text_update alice "BTC"; photo_update alice "file-1";
           command_update alice "/done"] init)
     = Some {| Flow.step := await_proof; Flow.type := crypto;
               Flow.amount := Some "BTC"; Flow.currency_or_card := Some "/done";
               Flow.proof := None |}
  /\ ~ (exists tx,
          transactions
            (run sample_admin
               [text_update alice "Sell Crypto"; text_update alice "My Account";
                text_update alice "BTC"; photo_update alice "file-1";
                command_update alice "/done"] init)
          = app (transactions init) [tx]).
Proof.
  split; [vm_compute; reflexivity|]. split; [vm_compute; reflexivity|].
  intros [tx H]. vm_compute in H. discriminate H.
Qed.

(** ** C4 *)

Lemma done_without_proof_creates_nothing_witness :
  let s := run sample_admin (firstn 3 sample_sale) init in
  let u := command_update alice "/done" in
  flow_of 7 s =
    Some {| Flow.step := await_proof; Flow.type := crypto; Flow.amount := Some "50";
            Flow.currency_or_card := Some "BTC"; Flow.proof := None |}
  /\ transactions (fst (handle sample_admin u s)) = transactions s
  /\ flow_of (from_id (from u)) (fst (handle sample_admin u s)) =
       Some {| Flow.step := await_proof; Flow.type := crypto; Flow.amount := Some "50";
               Flow.currency_or_card := Some "BTC"; Flow.proof := None |}
  /\ sessions (fst (handle sample_admin u s)) = sessions s
  /\ snd (handle sample_admin u s) =
       [reply "Please upload at least one proof image before sending /done." no_markup].
Proof.
  intros s u.
  assert (Hflow : flow_of 7 s =
    Some {| Flow.step := await_proof; Flow.type := crypto; Flow.amount := Some "50";
            Flow.currency_or_card := Some "BTC"; Flow.proof := None |})
    by (vm_compute; reflexivity).
  split; [exact Hflow|].
  apply (done_without_proof_creates_nothing sample_admin u "/done"
           [{| etype := bot_command; offset := 0; elength := 5 |}] s).
  - reflexivity.
  - vm_compute. reflexivity.
  - exact Hflow.
  - reflexivity.
  - reflexivity.
Defined.

(** ** C5 *)

Lemma confirm_completes_latest_witness :
  let s := run sample_admin sample_settled_then_approved init in
  let u := text_update alice "confirm" in
  Js.toUpperCase (Js.trim "confirm") = "CONFIRM"
  /\ option_map Tx.id (latestApproved_get 7 s) = Some 2
  /\ saved_details 7 s = Some [("a", "1"); ("b", "2")]
  /\ awaiting_text sample_admin 7 s = false
  /\ status_of 2 (fst (handle sample_admin u s)) = Some completed
  /\ (forall uid, saved_details uid (fst (handle sample_admin u s)) = saved_details uid s)
  /\ users (fst (handle sample_admin u s)) = users s.
Proof.
  intros s u.
  destruct (latestApproved_get 7 s) as [latest|] eqn:Hl;
    [|vm_compute in Hl; discriminate Hl].
  assert (Hid : Tx.id latest = 2).
  { assert (H : option_map Tx.id (latestApproved_get 7 s) = Some 2)
      by (vm_compute; reflexivity).
    rewrite Hl in H. now injection H. }
  assert (Hs : saved_details 7 s = Some [("a", "1"); ("b", "2")])
    by (vm_compute; reflexivity).
  assert (Ha : awaiting_text sample_admin 7 s = false) by (vm_compute; reflexivity).
  split; [reflexivity|]. split; [simpl; now rewrite Hid|].
  split; [exact Hs|]. split; [exact Ha|].
  rewrite <- Hid.
  exact (confirm_completes_latest sample_admin u "confirm" [] s latest
           [("a", "1"); ("b", "2")] eq_refl eq_refl Hl Hs Ha).
Defined.

(** C5 as stated fails: the user holds an approved transaction and stored
    details, but has selected a new intent.  CONFIRM is taken as the amount
    of the new Flow and the transaction stays approved. *)
Lemma confirm_taken_as_amount :
  let s :=
    run sample_admin
      (app sample_settled_then_approved [text_update alice "Sell Giftcard"]) init in
  option_map Tx.id (latestApproved_get 7 s) = Some 2
  /\ saved_details 7 s = Some [("a", "1"); ("b", "2")]
  /\ status_of 2 (fst (handle sample_admin (text_update alice "CONFIRM") s))
     = Some approved
  /\ flow_of 7 (fst (handle sample_admin (text_update alice "CONFIRM") s))
     = Some {| Flow.step := currency; Flow.type := giftcard;
               Flow.amount := Some "CONFIRM"; Flow.currency_or_card := None;
               Flow.proof := None |}.
Proof. repeat split; vm_compute; reflexivity. Qed.

(** ** C6 *)

Lemma details_replace_and_complete_witness :
  let s := run sample_admin sample_settled_then_approved init in
  let u := text_update alice (Js.cat ["a: 9"; Js.nl; "c: 3"]) in
  saved_details 7 s = Some [("a", "1"); ("b", "2")]
  /\ option_map Tx.id (latestApproved_get 7 s) = Some 2
  /\ saved_details 7 (fst (handle sample_admin u s)) = Some [("a", "9"); ("c", "3")]
  /\ status_of 2 (fst (handle sample_admin u s)) = Some completed.
Proof.
  intros s u.
  destruct (latestApproved_get 7 s) as [latest|] eqn:Hl;
    [|vm_compute in Hl; discriminate Hl].
  assert (Hid : Tx.id latest = 2).
  { assert (H : option_map Tx.id (latestApproved_get 7 s) = Some 2)
      by (vm_compute; reflexivity).
    rewrite Hl in H. now injection H. }
  split; [vm_compute; reflexivity|]. split; [simpl; now rewrite Hid|].
  assert (Hk : Object.keys (parse_details (Js.trim (Js.cat ["a: 9"; Js.nl; "c: 3"]))) <> [])
    by (vm_compute; discriminate).
  assert (Ha : awaiting_text sample_admin 7 s = false) by (vm_compute; reflexivity).
  destruct (details_replace_and_complete sample_admin u
              (Js.cat ["a: 9"; Js.nl; "c: 3"]) [] s latest
              eq_refl eq_refl eq_refl eq_refl Hk Hl Ha) as (H1 & _ & H3 & _).
  rewrite <- Hid. split; [exact H1 | exact H3].
Defined.

(** C6 as stated fails: the user holds an approved transaction but has
    selected a new intent.  The key/value text is taken as the amount of
    the new Flow; the stored details and the transaction stay as they
    were. *)
Lemma details_taken_as_amount :
  let s :=
    run sample_admin
      (app sample_settled_then_approved [text_update alice "Sell Giftcard"]) init in
  let u := text_update alice (Js.cat ["a: 9"; Js.nl; "c: 3"]) in
  option_map Tx.id (latestApproved_get 7 s) = Some 2
  /\ Js.includes ":" (Js.trim (Js.cat ["a: 9"; Js.nl; "c: 3"])) = true
  /\ parse_details (Js.trim (Js.cat ["a: 9"; Js.nl; "c: 3"])) = [("a", "9"); ("c", "3")]
  /\ saved_details 7 (fst (handle sample_admin u s)) = Some [("a", "1"); ("b", "2")]
  /\ status_of 2 (fst (handle sample_admin u s)) = Some approved.
Proof. repeat split; vm_compute; reflexivity. Qed.

(** ** C7 *)

(** The text "__proto__: x" after an approval: the line has the non-empty
    key __proto__, the code keeps no pair and asks again, and the
    transaction stays approved. *)
Lemma details_parser_drops_proto_key_witness :
  let s := run sample_admin sample_approved init in
  let u := text_update alice "__proto__: x" in
  option_map Tx.id (latestApproved_get 7 s) = Some 1
  /\ Js.includes ":" (Js.trim "__proto__: x") = true
  /\ spec_parse_details "__proto__: x" !! "__proto__" = Some "x"
  /\ Object.keys (parse_details (Js.trim "__proto__: x")) = []
  /\ snd (handle sample_admin u s) =
       [reply "Could not parse account details. Use format key:value each on its own line."
          no_markup]
  /\ status_of 1 (fst (handle sample_admin u s)) = Some approved
  /\ saved_details 7 (fst (handle sample_admin u s)) = None
  /\ on_text_reply sample_admin u "__proto__: x" s =
       Stop s [reply "Could not parse account details. Use format key:value each on its own line."
                 no_markup].
Proof.
  intros s u.
  destruct (latestApproved_get 7 s) as [latest|] eqn:Hl;
    [|vm_compute in Hl; discriminate Hl].
  assert (Hid : option_map Tx.id (Some latest) = Some 1).
  { rewrite <- Hl. vm_compute. reflexivity. }
  split; [exact Hid|]. split; [reflexivity|]. split; [vm_compute; reflexivity|].
  split; [reflexivity|]. split; [vm_compute; reflexivity|].
  split; [vm_compute; reflexivity|]. split; [vm_compute; reflexivity|].
  exact (proj1 (proj2 (proj2 (proj2 (proj2 (proj2 (proj2
                  (details_parser_drops_proto_key sample_admin))))))
                  u "__proto__: x" s latest Hl eq_refl eq_refl)).
Defined.

(** ** C8 *)

Lemma unhandled_text_keeps_data_witness :
  flow_of 7 init = None
  /\ latestApproved_get 7 init = None
  /\ fst (handle sample_admin (text_update alice "hello") init) =
       ensure_session 7 (store_user (text_update alice "hello") init).
Proof.
  split; [reflexivity|]. split; [reflexivity|].
  exact (proj1 (unhandled_text_keeps_data sample_admin (text_update alice "hello")
                  "hello" [] init eq_refl eq_refl eq_refl eq_refl eq_refl
                  eq_refl eq_refl (or_introl eq_refl))).
Defined.

(** C8 as stated fails: a plain text from a user without Flow and without
    approved transaction changes the store (the sender's row and an empty
    session appear), and no message answers it. *)
Lemma unhandled_text_creates_state :
  flow_of 7 init = None
  /\ latestApproved_get 7 init = None
  /\ snd (handle sample_admin (text_update alice "hello") init) = []
  /\ fst (handle sample_admin (text_update alice "hello") init) <> init
  /\ is_Some (users (fst (handle sample_admin (text_update alice "hello") init)) !! 7)
  /\ sessions (fst (handle sample_admin (text_update alice "hello") init)) !! 7
     = Some {| flow := None |}.
Proof.
  assert (H : is_Some (users (fst (handle sample_admin
                (text_update alice "hello") init)) !! 7))
    by (vm_compute; eauto).
  split; [reflexivity|]. split; [reflexivity|]. split; [vm_compute; reflexivity|].
  split; [|split; [exact H | vm_compute; reflexivity]].
  intros Heq. rewrite Heq in H. destruct H as [row H]. discriminate H.
Qed.

(** ** C9 *)

Lemma amount_text_advances_flow_witness :
  let s := run sample_admin [text_update alice "Sell Crypto"] init in
  let u := text_update alice "50" in
  flow_of 7 s =
    Some {| Flow.step := choose_type; Flow.type := crypto; Flow.amount := None;
            Flow.currency_or_card := None; Flow.proof := None |}
  /\ free_text "50" [] = true
  /\ flow_of 7 (fst (handle sample_admin u s)) =
       Some {| Flow.step := currency; Flow.type := crypto; Flow.amount := Some "50";
               Flow.currency_or_card := None; Flow.proof := None |}.
Proof.
  intros s u.
  assert (Hflow : flow_of 7 s =
    Some {| Flow.step := choose_type; Flow.type := crypto; Flow.amount := None;
            Flow.currency_or_card := None; Flow.proof := None |})
    by (vm_compute; reflexivity).
  assert (Hf : free_text "50" [] = true) by (vm_compute; reflexivity).
  split; [exact Hflow|]. split; [exact Hf|].
  exact (proj1 (amount_text_advances_flow sample_admin u "50" [] s _
                  eq_refl Hf Hflow eq_refl)).
Defined.

(** C9 as stated fails: while the Flow awaits the amount, the non-empty
    text My Account is answered by the account handler and the Flow does
    not move; and a text with surrounding blanks is stored trimmed, not
    verbatim. *)
Lemma amount_text_not_always_stored :
  let s := run sample_admin [text_update alice "Sell Crypto"] init in
  flow_of 7 s =
    Some {| Flow.step := choose_type; Flow.type := crypto; Flow.amount := None;
            Flow.currency_or_card := None; Flow.proof := None |}
  /\ flow_of 7 (fst (handle sample_admin (text_update alice "My Account") s)) =
       Some {| Flow.step := choose_type; Flow.type := crypto; Flow.amount := None;
               Flow.currency_or_card := None; Flow.proof := None |}
  /\ flow_of 7 (fst (handle sample_admin (text_update alice " 50 ") s)) =
       Some {| Flow.step := currency; Flow.type := crypto; Flow.amount := Some "50";
               Flow.currency_or_card := None; Flow.proof := None |}.
Proof. repeat split; vm_compute; reflexivity. Qed.

(** * Instances of the further properties *)

(** The first update from alice fixes her row, whatever she sends later. *)
Lemma first_seen_profile_wins_witness :
  users init !! from_id (from (text_update alice "hello")) = None
  /\ exists row,
       users (run sample_admin (text_update alice "hello" :: sample_sale) init)
         !! from_id (from (text_update alice "hello")) = Some row
       /\ User.id row = 7
       /\ User.username row = or_null (Some "alice")
       /\ User.full_name row = "Alice Liddell"
       /\ User.created_at row = sample_now.
Proof.
  split; [reflexivity|].
  exact (first_seen_profile_wins sample_admin (text_update alice "hello") sample_sale
           init eq_refl).
Defined.

(** The administrator approves alice's pending sale. *)
Lemma admin_decision_sets_status_witness :
  body (button_update boss "approve:1") = Callback "approve:1"
  /\ match_action "approve:1" = Some (approve, "1")
  /\ from_id (from (button_update boss "approve:1")) = sample_admin
  /\ getTxByIdStmt_get (Js.parseInt "1") (run sample_admin sample_sale init)
     = Some sample_row
  /\ getTxByIdStmt_get (Js.parseInt "1")
       (fst (handle sample_admin (button_update boss "approve:1")
               (run sample_admin sample_sale init)))
     = Some (with_status approved
               "Approved by admin 1000 at 2024-05-01T10:00:00.000Z" sample_row).
Proof.
  split; [reflexivity|]. split; [reflexivity|]. split; [reflexivity|].
  split; [vm_compute; reflexivity|].
  exact (proj1 (admin_decision_sets_status sample_admin
                  (button_update boss "approve:1") "approve:1" approve "1"
                  (run sample_admin sample_sale init) sample_row
                  eq_refl eq_refl eq_refl eq_refl)).
Defined.

(** The administrator presses a button that names no row. *)
Lemma decision_on_unknown_transaction_witness :
  body (button_update boss "reject:5") = Callback "reject:5"
  /\ match_action "reject:5" = Some (reject, "5")
  /\ from_id (from (button_update boss "reject:5")) = sample_admin
  /\ getTxByIdStmt_get (Js.parseInt "5") (run sample_admin sample_sale init) = None
  /\ handle sample_admin (button_update boss "reject:5")
       (run sample_admin sample_sale init)
     = (store_user (button_update boss "reject:5") (run sample_admin sample_sale init),
        [answerCbQuery "Transaction not found." true]).
Proof.
  split; [reflexivity|]. split; [reflexivity|]. split; [reflexivity|].
  split; [vm_compute; reflexivity|].
  exact (proj1 (decision_on_unknown_transaction sample_admin
                  (button_update boss "reject:5") "reject:5" reject "5"
                  (run sample_admin sample_sale init)
                  eq_refl eq_refl eq_refl eq_refl)).
Defined.

Lemma button_data_round_trip_witness :
  0 <= 12
  /\ exists digits,
       match_action (button_data reject 12) = Some (reject, digits)
       /\ Js.parseInt digits = 12.
Proof.
  assert (H : 0 <= 12) by lia.
  split; [exact H|]. exact (button_data_round_trip reject 12 H).
Defined.


(** A photo sent while the Flow still awaits the amount. *)
Lemma photo_outside_flow_is_refused_witness :
  body (photo_update alice "file-1") =
    Photo {| photo_file_id := "file-1-small" |} [{| photo_file_id := "file-1" |}]
  /\ match flow_of (from_id (from (photo_update alice "file-1")))
             (run sample_admin sample_until_amount init) with
     | Some flow => Flow.step flow <> await_proof
     | None => True
     end
  /\ transactions (fst (handle sample_admin (photo_update alice "file-1")
                          (run sample_admin sample_until_amount init)))
     = transactions (run sample_admin sample_until_amount init).
Proof.
  assert (H : match flow_of (from_id (from (photo_update alice "file-1")))
                      (run sample_admin sample_until_amount init) with
              | Some flow => Flow.step flow <> await_proof
              | None => True
              end) by (vm_compute; discriminate).
  split; [reflexivity|]. split; [exact H|].
  exact (proj1 (proj2 (photo_outside_flow_is_refused sample_admin
                         (photo_update alice "file-1")
                         {| photo_file_id := "file-1-small" |}
                         [{| photo_file_id := "file-1" |}]
                         (run sample_admin sample_until_amount init) eq_refl H))).
Defined.

(** /done as the very first message. *)
Lemma done_outside_sale_is_refused_witness :
  body (command_update alice "/done") =
    Text "/done" [{| etype := bot_command; offset := 0; elength := 5 |}]
  /\ is_command "done" "/done" [{| etype := bot_command; offset := 0; elength := 5 |}]
     = true
  /\ flow_of (from_id (from (command_update alice "/done"))) init = None
  /\ transactions (fst (handle sample_admin (command_update alice "/done") init))
     = transactions init.
Proof.
  split; [reflexivity|]. split; [reflexivity|]. split; [reflexivity|].
  exact (proj1 (proj2 (done_outside_sale_is_refused sample_admin
                         (command_update alice "/done") "/done"
                         [{| etype := bot_command; offset := 0; elength := 5 |}]
                         init eq_refl eq_refl eq_refl))).
Defined.

(** /done sent before the currency is taken as the currency. *)
Lemma counterparty_text_advances_flow_witness :
  body (command_update alice "/done") =
    Text "/done" [{| etype := bot_command; offset := 0; elength := 5 |}]
  /\ free_text "/done" [{| etype := bot_command; offset := 0; elength := 5 |}] = true
  /\ flow_of (from_id (from (command_update alice "/done")))
       (run sample_admin sample_until_currency init)
     = Some {| Flow.step := currency; Flow.type := crypto; Flow.amount := Some "50";
               Flow.currency_or_card := None; Flow.proof := None |}
  /\ flow_of (from_id (from (command_update alice "/done")))
       (fst (handle sample_admin (command_update alice "/done")
               (run sample_admin sample_until_currency init)))
     = Some {| Flow.step := await_proof; Flow.type := crypto; Flow.amount := Some "50";
               Flow.currency_or_card := Some "/done"; Flow.proof := None |}.
Proof.
  split; [reflexivity|]. split; [reflexivity|]. split; [vm_compute; reflexivity|].
  exact (proj1 (counterparty_text_advances_flow sample_admin
                  (command_update alice "/done") "/done"
                  [{| etype := bot_command; offset := 0; elength := 5 |}]
                  (run sample_admin sample_until_currency init)
                  {| Flow.step := currency; Flow.type := crypto;
                     Flow.amount := Some "50"; Flow.currency_or_card := None;
                     Flow.proof := None |}
                  eq_refl eq_refl eq_refl eq_refl)).
Defined.

(** A second intent, in lower case, while the first Flow awaits the
    currency. *)
Lemma intent_restarts_flow_witness :
  body (text_update alice "sell giftcard") = Text "sell giftcard" []
  /\ hears "Sell Crypto" "sell giftcard" || hears "Sell Giftcard" "sell giftcard" = true
  /\ flow_of (from_id (from (text_update alice "sell giftcard")))
       (fst (handle sample_admin (text_update alice "sell giftcard")
               (run sample_admin sample_until_currency init)))
     = Some {| Flow.step := choose_type; Flow.type := giftcard; Flow.amount := None;
               Flow.currency_or_card := None; Flow.proof := None |}.
Proof.
  split; [reflexivity|]. split; [reflexivity|].
  exact (proj1 (intent_restarts_flow sample_admin (text_update alice "sell giftcard")
                  "sell giftcard" [] (run sample_admin sample_until_currency init)
                  eq_refl eq_refl)).
Defined.

(** Alice asks for her details after settling her sale. *)
Lemma my_account_shows_details_witness :
  body (text_update alice "my account") = Text "my account" []
  /\ hears "My Account" "my account" = true
  /\ handle sample_admin (text_update alice "my account")
       (run sample_admin sample_settled init)
     = (store_user (text_update alice "my account")
          (run sample_admin sample_settled init),
        [reply (Js.cat ["Saved account details:"; Js.nl; "a: 1"; Js.nl; "b: 2"])
           no_markup]).
Proof.
  split; [reflexivity|]. split; [reflexivity|].
  exact (my_account_shows_details sample_admin (text_update alice "my account")
           "my account" [] (run sample_admin sample_settled init) eq_refl eq_refl).
Defined.

(** /start in the middle of a sale. *)
Lemma start_always_answers_witness :
  body (command_update alice "/start") =
    Text "/start" [{| etype := bot_command; offset := 0; elength := 6 |}]
  /\ is_command "start" "/start" [{| etype := bot_command; offset := 0; elength := 6 |}]
     = true
  /\ sessions (store_user (command_update alice "/start")
                 (run sample_admin sample_until_currency init))
     = sessions (run sample_admin sample_until_currency init).
Proof.
  split; [reflexivity|]. split; [reflexivity|].
  exact (proj1 (proj2 (start_always_answers sample_admin
                         (command_update alice "/start") "/start"
                         [{| etype := bot_command; offset := 0; elength := 6 |}]
                         (run sample_admin sample_until_currency init)
                         eq_refl eq_refl))).
Defined.

(** Mallory's intent does not move alice's Flow. *)
Lemma update_touches_only_sender_witness :
  7 <> from_id (from (text_update mallory "Sell Giftcard"))
  /\ flow_of 7 (fst (handle sample_admin (text_update mallory "Sell Giftcard")
                       (run sample_admin sample_until_currency init)))
     = flow_of 7 (run sample_admin sample_until_currency init).
Proof.
  assert (H : 7 <> from_id (from (text_update mallory "Sell Giftcard")))
    by (vm_compute; discriminate).
  split; [exact H|].
  exact (proj1 (proj2 (update_touches_only_sender sample_admin
                         (text_update mallory "Sell Giftcard")
                         (run sample_admin sample_until_currency init) 7 H))).
Defined.

(** /done after one photo. *)
Lemma done_after_proof_submits_witness :
  body (command_update alice "/done") =
    Text "/done" [{| etype := bot_command; offset := 0; elength := 5 |}]
  /\ is_command "done" "/done" [{| etype := bot_command; offset := 0; elength := 5 |}]
     = true
  /\ flow_of (from_id (from (command_update alice "/done")))
       (run sample_admin sample_until_done init) = Some sample_flow
  /\ exists tx,
       transactions (fst (handle sample_admin (command_update alice "/done")
                            (run sample_admin sample_until_done init)))
       = app (transactions (run sample_admin sample_until_done init)) [tx]
       /\ Tx.id tx = next_rowid (transactions (run sample_admin sample_until_done init))
       /\ Tx.status tx = pending
       /\ Tx.user_id tx = 7
       /\ Tx.type tx = crypto
       /\ Some "50" = Some (Tx.amount tx)
       /\ Some "BTC" = Some (Tx.currency_or_card tx)
       /\ Tx.proof_files tx = [sample_proof]
       /\ Tx.created_at tx = sample_now
       /\ flow_of 7 (fst (handle sample_admin (command_update alice "/done")
                            (run sample_admin sample_until_done init))) = None.
Proof.
  split; [reflexivity|]. split; [reflexivity|]. split; [vm_compute; reflexivity|].
  exact (done_after_proof_submits sample_admin sample_until_done
           (command_update alice "/done") "/done"
           [{| etype := bot_command; offset := 0; elength := 5 |}]
           sample_flow sample_proof [] eq_refl eq_refl eq_refl eq_refl eq_refl).
Defined.

(** Alice's details complete her approved sale, the one row that changes. *)
Lemma only_latest_approved_is_completed_witness :
  from_id (from (text_update alice "a: 1")) <> sample_admin
  /\ In (with_status approved "Approved by admin 1000 at 2024-05-01T10:00:00.000Z"
           sample_row)
        (transactions (run sample_admin sample_approved init))
  /\ (In (with_status approved "Approved by admin 1000 at 2024-05-01T10:00:00.000Z"
            sample_row)
         (transactions (fst (handle sample_admin (text_update alice "a: 1")
                               (run sample_admin sample_approved init))))
      \/ (7 = from_id (from (text_update alice "a: 1"))
          /\ approved = approved
          /\ (forall r, In r (transactions (run sample_admin sample_approved init)) ->
                        Tx.user_id r = from_id (from (text_update alice "a: 1")) ->
                        Tx.status r = approved ->
                        Tx.id r <= 1)
          /\ status_of 1 (fst (handle sample_admin (text_update alice "a: 1")
                                 (run sample_admin sample_approved init)))
             = Some completed)).
Proof.
  assert (Hne : from_id (from (text_update alice "a: 1")) <> sample_admin)
    by (vm_compute; discriminate).
  assert (Hin : In (with_status approved
                      "Approved by admin 1000 at 2024-05-01T10:00:00.000Z" sample_row)
                   (transactions (run sample_admin sample_approved init)))
    by (vm_compute; left; reflexivity).
  split; [exact Hne|]. split; [exact Hin|].
  exact (only_latest_approved_is_completed sample_admin sample_approved
           (text_update alice "a: 1")
           (with_status approved "Approved by admin 1000 at 2024-05-01T10:00:00.000Z"
              sample_row) Hne Hin).
Defined.

(** Mallory tries to broadcast. *)
Lemma broadcast_by_other_is_refused_witness :
  body (command_with mallory "/broadcast" " hi") =
    Text "/broadcast hi" [{| etype := bot_command; offset := 0; elength := 10 |}]
  /\ is_command "broadcast" "/broadcast hi"
       [{| etype := bot_command; offset := 0; elength := 10 |}] = true
  /\ from_id (from (command_with mallory "/broadcast" " hi")) <> sample_admin
  /\ awaiting_text sample_admin (from_id (from (command_with mallory "/broadcast" " hi")))
       (run sample_admin sample_sale init) = false
  /\ snd (handle sample_admin (command_with mallory "/broadcast" " hi")
            (run sample_admin sample_sale init))
     = [reply "Only admin can use this command." no_markup].
Proof.
  assert (Hne : from_id (from (command_with mallory "/broadcast" " hi")) <> sample_admin)
    by (vm_compute; discriminate).
  assert (Hidle : awaiting_text sample_admin
                    (from_id (from (command_with mallory "/broadcast" " hi")))
                    (run sample_admin sample_sale init) = false)
    by (vm_compute; reflexivity).
  split; [reflexivity|]. split; [reflexivity|]. split; [exact Hne|].
  split; [exact Hidle|].
  exact (proj1 (broadcast_by_other_is_refused sample_admin
                  (command_with mallory "/broadcast" " hi") "/broadcast hi"
                  [{| etype := bot_command; offset := 0; elength := 10 |}]
                  (run sample_admin sample_sale init)
                  eq_refl eq_refl Hne Hidle (or_introl eq_refl))).
Defined.

(** The administrator broadcasts after alice's sale while alice has blocked
    the bot: the administrator alone gets the message and the count is 1,
    with two rows in table users. *)
Lemma broadcast_counts_deliveries_witness :
  body sample_blocked_broadcast =
    Text "/broadcast Rates changed "
      [{| etype := bot_command; offset := 0; elength := 10 |}]
  /\ is_command "broadcast" "/broadcast Rates changed "
       [{| etype := bot_command; offset := 0; elength := 10 |}] = true
  /\ from_id (from sample_blocked_broadcast) = sample_admin
  /\ Js.truthy (Js.trim (strip_broadcast "/broadcast Rates changed ")) = true
  /\ snd (handle sample_admin sample_blocked_broadcast
            (run sample_admin sample_sale init))
     = [sendMessage 1000 (Js.cat ["📣 Broadcast:"; Js.nl; Js.nl; "Rates changed"])
          no_markup;
        reply "Broadcast sent to ~1 users." no_markup]
  /\ is_Some (users (fst (handle sample_admin sample_blocked_broadcast
                            (run sample_admin sample_sale init))) !! 7)
  /\ exists recipients,
       snd (handle sample_admin sample_blocked_broadcast
              (run sample_admin sample_sale init))
       = app (map (fun id =>
                     sendMessage id
                       (Js.cat ["📣 Broadcast:"; Js.nl; Js.nl; "Rates changed"])
                       no_markup) recipients)
             [reply (Js.cat ["Broadcast sent to ~";
                             Js.of_Z (Z.of_nat (List.length recipients)); " users."])
                no_markup]
       /\ List.NoDup recipients
       /\ (forall uid,
             In uid recipients <->
             is_Some (users (fst (handle sample_admin sample_blocked_broadcast
                                    (run sample_admin sample_sale init))) !! uid)
             /\ ~ In uid [7])
       /\ (~ In sample_admin [7] -> In sample_admin recipients)
       /\ (refused sample_blocked_broadcast = [] ->
           forall uid,
             is_Some (users (fst (handle sample_admin sample_blocked_broadcast
                                    (run sample_admin sample_sale init))) !! uid) ->
             In uid recipients)
       /\ transactions (fst (handle sample_admin sample_blocked_broadcast
                               (run sample_admin sample_sale init)))
          = transactions (run sample_admin sample_sale init).
Proof.
  assert (H7 : is_Some (users (fst (handle sample_admin sample_blocked_broadcast
                                      (run sample_admin sample_sale init))) !! 7))
    by (vm_compute; eauto).
  split; [reflexivity|]. split; [reflexivity|]. split; [reflexivity|].
  split; [reflexivity|]. split; [vm_compute; reflexivity|]. split; [exact H7|].
  exact (broadcast_counts_deliveries sample_admin sample_blocked_broadcast
           "/broadcast Rates changed "
           [{| etype := bot_command; offset := 0; elength := 10 |}]
           (run sample_admin sample_sale init)
           eq_refl eq_refl eq_refl eq_refl eq_refl (or_introl eq_refl)).
Defined.
